(** * Doqu: storage/query abstraction and document lifecycle

    A shallow embedding of the Doqu core
    ([doqu/backend_base.py], [doqu/document_base.py]) and of the query
    adapters of two bundled backends ([doqu/ext/shelve_db],
    [doqu/ext/mongodb]), followed by the properties established about them.

    The sources are Python 2 ([basestring], [iteritems], [__metaclass__],
    [__nonzero__]); the embedding follows Python 2.7 semantics throughout.

    Conventions.
    - A Python [dict] is an association list whose order stands for the
      dict's iteration order; keys are unique by construction.
    - A class object is identified by its name and carries the rest of its
      method resolution order.
    - A raised exception is the [Raise] branch of [result].
    - Primary keys are strings (the shelve backend stringifies every key);
      the deprecated argument orders, which the adapters detect by the type
      of the key, cannot occur. *)

From stdpp Require Import base strings list gmap.
From Stdlib Require Import ZArith Lia Ascii.

Local Open Scope string_scope.
Local Open Scope Z_scope.
Local Open Scope list_scope.

(* ===================================================================== *)
(** * Part I. The embedding                                               *)
(* ===================================================================== *)

(** ** Python values, classes and exceptions *)

Module Py.

(** A class object: its name and the remainder of its MRO (the linearised
    ancestors, most specific first).  [cls_has_iter] tells whether
    instances provide [__iter__]. *)
Record pyclass := PyClass {
  cls_name : string;
  cls_bases : list string;
  cls_has_iter : bool
}.

(** [cls.mro()] *)
Definition mro (c : pyclass) : list string := cls_name c :: cls_bases c.

(** [issubclass(c, d)] for two class objects. *)
Definition issubclass (c d : pyclass) : bool :=
  bool_decide (cls_name d ∈ mro c).

Definition object_ : pyclass := PyClass "object" [] false.
Definition NoneType : pyclass := PyClass "NoneType" ["object"] false.
Definition int_ : pyclass := PyClass "int" ["object"] false.
Definition bool_ : pyclass := PyClass "bool" ["int"; "object"] false.
Definition basestring_ : pyclass := PyClass "basestring" ["object"] false.
(** In Python 2 a [str] is iterated through [__getitem__]: it has no
    [__iter__] attribute. *)
Definition str_ : pyclass := PyClass "str" ["basestring"; "object"] false.
Definition list_ : pyclass := PyClass "list" ["object"] true.

#[warnings="-register-all"]
Inductive value :=
| VNone
| VBool (b : bool)
| VInt (z : Z)
| VStr (s : string)
| VList (l : list value)
| VInst (c : pyclass).   (* an instance of a user-defined class *)

(** [type(v)] *)
Definition type_of (v : value) : pyclass :=
  match v with
  | VNone => NoneType
  | VBool _ => bool_
  | VInt _ => int_
  | VStr _ => str_
  | VList _ => list_
  | VInst c => c
  end.

(** [isinstance(v, c)] *)
Definition isinstance (v : value) (c : pyclass) : bool :=
  issubclass (type_of v) c.

(** [hasattr(v, '__iter__')] *)
Definition has_iter (v : value) : bool := cls_has_iter (type_of v).

(** [v is None] *)
Definition is_none (v : value) : bool :=
  match v with VNone => true | _ => false end.

(** [v == ''] *)
Definition is_empty_str (v : value) : bool :=
  match v with VStr "" => true | _ => false end.

(** Python 2 ordering of values: [None] sorts first, numbers next (a
    [bool] is the number 0 or 1), then the other types by type name;
    lists compare lexicographically. *)
Definition type_rank (v : value) : Z :=
  match v with
  | VNone => 0
  | VBool _ | VInt _ => 1
  | VList _ => 2
  | VStr _ => 3
  | VInst _ => 4
  end.

Definition number_of (v : value) : Z :=
  match v with
  | VBool b => Z.b2z b
  | VInt z => z
  | _ => 0
  end.

Fixpoint value_cmp (a b : value) {struct a} : comparison :=
  match a, b with
  | VList la, VList lb =>
      (fix go (xs ys : list value) {struct xs} : comparison :=
         match xs, ys with
         | [], [] => Eq
         | [], _ :: _ => Lt
         | _ :: _, [] => Gt
         | x :: xs', y :: ys' =>
             match value_cmp x y with
             | Eq => go xs' ys'
             | c => c
             end
         end) la lb
  | VStr s, VStr t => String.compare s t
  | VInst c, VInst d => String.compare (cls_name c) (cls_name d)
  | _, _ =>
      match Z.compare (type_rank a) (type_rank b) with
      | Eq => Z.compare (number_of a) (number_of b)
      | c => c
      end
  end.

(** Comparison of two Python lists of values (the sort keys). *)
Fixpoint cmp_list (xs ys : list value) : comparison :=
  match xs, ys with
  | [], [] => Eq
  | [], _ :: _ => Lt
  | _ :: _, [] => Gt
  | x :: xs', y :: ys' =>
      match value_cmp x y with
      | Eq => cmp_list xs' ys'
      | c => c
      end
  end.

Definition value_eqb (a b : value) : bool :=
  match value_cmp a b with Eq => true | _ => false end.

(** A Python 2 [dict] with string keys. *)
Abbreviation dict V := (list (string * V)).

Section Dict.
Context {V : Type}.

(** [d.get(k)] *)
Fixpoint dict_get (k : string) (d : dict V) : option V :=
  match d with
  | [] => None
  | (k', v) :: rest => if String.eqb k k' then Some v else dict_get k rest
  end.

(** [k in d] *)
Definition dict_has (k : string) (d : dict V) : bool :=
  match dict_get k d with Some _ => true | None => false end.

(** [d[k] = v]: an existing entry keeps its place. *)
Fixpoint dict_set (k : string) (v : V) (d : dict V) : dict V :=
  match d with
  | [] => [(k, v)]
  | (k', v') :: rest =>
      if String.eqb k k' then (k, v) :: rest
      else (k', v') :: dict_set k v rest
  end.

(** [del d[k]] (for a present key). *)
Fixpoint dict_del (k : string) (d : dict V) : dict V :=
  match d with
  | [] => []
  | (k', v') :: rest =>
      if String.eqb k k' then rest else (k', v') :: dict_del k rest
  end.
End Dict.

Inductive exn :=
| TypeError
| AttributeError
| RuntimeError
| AssertionError
| IndexError
| ValueError
| KeyError (keys : list string)            (* the keys the message names *)
| ValidationError (cls field : string) (v : value)
| DataProcessorDoesNotExist (what : string).

Inductive result (A : Type) :=
| Ok (a : A)
| Raise (e : exn).
Arguments Ok {A} a.
Arguments Raise {A} e.

#[global] Instance result_bind : MBind result := fun A B k m =>
  match m with
  | Ok a => k a
  | Raise e => Raise e
  end.

#[global] Instance result_ret : MRet result := fun A a => Ok a.

Definition is_ok {A : Type} (m : result A) : bool :=
  match m with Ok _ => true | Raise _ => false end.

End Py.

Import Py.

(** ** [doqu/backend_base.py]: processor registries *)

Module backend_base.

(** What a schema declares for a field: a class, a [OneToManyRelation]
    instance wrapping a document class, or a lazy import path. *)
Inductive datatype :=
| DClass (c : pyclass)
| DMany (document_class : pyclass)
| DPath (path : string).

(** [document_base.Document] and [document_base.OneToManyRelation]. *)
Definition Document_cls : pyclass := PyClass "Document" ["object"] true.
Definition OneToManyRelation_cls : pyclass :=
  PyClass "OneToManyRelation" ["object"] false.

(** [issubclass(x, Document)] where [x] is whatever the schema declared.
    [Document] is built by [DocumentMetaclass(abc.ABCMeta)], so the test
    runs [ABCMeta.__subclasscheck__]: for a [OneToManyRelation] instance it
    finds no [__mro__], records the object in the negative cache and
    answers [False]; for a string the negative cache cannot take a weak
    reference and [TypeError] is raised. *)
Definition issubclass_Document (x : datatype) : result bool :=
  match x with
  | DClass c => Ok (issubclass c Document_cls)
  | DMany _ => Ok false
  | DPath _ => Raise TypeError
  end.

(** [str(datatype)], up to decoration. *)
Definition datatype_str (x : datatype) : string :=
  match x with
  | DClass c => cls_name c
  | DMany _ => "OneToManyRelation object"
  | DPath s => s
  end.

(** [ProcessorManager]: [processors] is keyed by class name (converters)
    or by operation name (lookups). *)
Section ProcessorManager.
Context {P : Type}.

Record ProcessorManager := {
  processors : gmap string P;
  default_ : option P
}.

(** [ProcessorManager.__init__] *)
Definition manager_init : ProcessorManager :=
  {| processors := ∅; default_ := None |}.

(** [register(key, default)(processor)]; [_validate_processor] accepts. *)
Definition register (m : ProcessorManager) (key : string)
    (as_default : bool) (processor : P) : result ProcessorManager :=
  match processors m !! key with
  | Some _ => Raise RuntimeError
  | None =>
      Ok {| processors := <[key := processor]> (processors m);
            default_ := if as_default then Some processor else default_ m |}
  end.

(** The body of [get_processor] once [_preprocess_key] has produced
    [key]; [truthy] is the truth value of the key. *)
Definition get_processor_for (m : ProcessorManager) (truthy : bool)
    (key : string) : result P :=
  if truthy then
    match processors m !! key with
    | Some p => Ok p
    | None => Raise (DataProcessorDoesNotExist key)
    end
  else
    match default_ m with
    | Some p => Ok p
    | None => Raise (DataProcessorDoesNotExist key)
    end.
End ProcessorManager.
Arguments ProcessorManager P : clear implicits.

(** A converter class: its [from_db] and [to_db] static methods. *)
Record converter := {
  from_db : value -> result value;
  to_db : value -> result value
}.

Module ConverterManager.

(** [_preprocess_key] *)
Definition _preprocess_key (x : datatype) : result pyclass :=
  is_doc ← issubclass_Document x;
  if (is_doc : bool) then Ok Document_cls
  else match x with
       | DMany _ => Ok OneToManyRelation_cls
       | DClass c => Ok c
       | DPath _ => Raise TypeError
       end.

(** [get_processor] as inherited, with the override above.  A class
    object is always true. *)
Definition get_processor (m : ProcessorManager converter) (x : datatype)
    : result converter :=
  key ← _preprocess_key x;
  get_processor_for m true (cls_name key).

(** [datatype.mro()], or [type(datatype).mro()] when the object is not
    a class. *)
Definition bases_of (x : datatype) : list string :=
  match x with
  | DClass c => mro c
  | DMany _ => mro OneToManyRelation_cls
  | DPath _ => mro str_
  end.

(** The loop of [_pick_processor]: one round per entry of [bases], each
    asking for the processor of [datatype]. *)
Fixpoint pick_loop (m : ProcessorManager converter) (x : datatype)
    (bases : list string) : result converter :=
  match bases with
  | [] => Raise (DataProcessorDoesNotExist (datatype_str x))
  | _base :: rest =>
      match get_processor m x with
      | Ok processor => Ok processor
      | Raise (DataProcessorDoesNotExist _) => pick_loop m x rest
      | Raise TypeError => Raise (DataProcessorDoesNotExist (datatype_str x))
      | Raise e => Raise e
      end
  end.

Definition _pick_processor (m : ProcessorManager converter) (x : datatype)
    : result converter :=
  pick_loop m x (bases_of x).

(** [from_db(datatype, value)] *)
Definition from_db_ (m : ProcessorManager converter) (x : datatype)
    (v : value) : result value :=
  match x with
  | DPath _ => Ok v
  | _ => p ← _pick_processor m x; from_db p v
  end.

(** [to_db(value, storage)] *)
Definition to_db_ (m : ProcessorManager converter) (v : value)
    : result value :=
  p ← _pick_processor m (DClass (type_of v)); to_db p v.

End ConverterManager.

(** Resolution through the ancestry, as the comment in [_pick_processor]
    describes it: the processor of the first class of the MRO that has
    one. *)
Fixpoint first_registered (m : ProcessorManager converter)
    (bases : list string) : option converter :=
  match bases with
  | [] => None
  | base :: rest =>
      match processors m !! base with
      | Some p => Some p
      | None => first_registered m rest
      end
  end.

End backend_base.

Import backend_base.

(** ** [doqu/backend_base.py]: the storage adapter, saving side *)

Module BaseStorageAdapter.

(** What a concrete backend supplies to [BaseStorageAdapter]: the state of
    its connection, the private methods [_get] and [_save], and its
    converter registry.  [_save] answers with the key it stored under; the
    empty string stands for any false answer. *)
Record Backend (S : Type) := {
  connected : S -> bool;
  _get : S -> string -> result (dict value);
  _save : S -> option string -> dict value -> result (S * string);
  converter_manager : ProcessorManager converter
}.
Arguments connected {S} _ _.
Arguments _get {S} _ _ _.
Arguments _save {S} _ _ _ _.
Arguments converter_manager {S} _.

Section Adapter.
Context {S : Type} (B : Backend S).

(** [value_from_db] and [value_to_db] *)
Definition value_from_db (x : datatype) (v : value) : result value :=
  ConverterManager.from_db_ (converter_manager B) x v.

Definition value_to_db (v : value) : result value :=
  ConverterManager.to_db_ (converter_manager B) v.

(** [_prepare_data_for_saving] *)
Fixpoint _prepare_data_for_saving (data : dict value) : result (dict value) :=
  match data with
  | [] => Ok []
  | (k, v) :: rest =>
      v' ← value_to_db v;
      rest' ← _prepare_data_for_saving rest;
      Ok ((k, v') :: rest')
  end.

(** [save(key, data)] on one adapter object. *)
Definition save (st : S) (key : option string) (data : dict value)
    : result (S * string) :=
  if negb (connected B st) then Raise RuntimeError
  else
    outgoing ← _prepare_data_for_saving data;
    '(st', resulting_key) ← _save B st key outgoing;
    if String.eqb resulting_key "" then Raise AssertionError
    else Ok (st', resulting_key).

(** Adapter objects live in a heap and are referred to by identity.
    [bool(storage)] is [__nonzero__]: the connection is not [None]. *)
Definition __nonzero__ (h : gmap nat S) (storage : option nat) : bool :=
  match storage with
  | None => false
  | Some r =>
      match h !! r with
      | Some st => connected B st
      | None => false
      end
  end.

(** [storage.save(key, data)] through a reference.  A reference always
    denotes an object of the heap; the other branch is never taken. *)
Definition save_at (h : gmap nat S) (r : nat) (key : option string)
    (data : dict value) : result (gmap nat S * string) :=
  match h !! r with
  | None => Raise AttributeError
  | Some st =>
      '(st', k) ← save st key data;
      Ok (<[r := st']> h, k)
  end.

End Adapter.
End BaseStorageAdapter.

Import BaseStorageAdapter.

(** ** [doqu/document_base.py] *)

Module DocumentSavedState.

Record t := {
  storage : option nat;
  key : option string;
  data : option (dict value)
}.

(** [__init__] *)
Definition init : t := {| storage := None; key := None; data := None |}.

Definition key_truthy (k : option string) : bool :=
  match k with
  | Some s => negb (String.eqb s "")
  | None => false
  end.

Definition data_truthy (d : option (dict value)) : bool :=
  match d with
  | Some (_ :: _) => true
  | _ => false
  end.

Section WithHeap.
Context {S : Type} (B : Backend S) (h : gmap nat S).

(** [__nonzero__] *)
Definition nonzero (self : t) : bool :=
  __nonzero__ B h (storage self) || key_truthy (key self).

(** [__eq__] *)
Definition eq (self other : t) : bool :=
  if __nonzero__ B h (storage self) && key_truthy (key self) && nonzero other
  then
    if bool_decide (storage self = storage other)
       && bool_decide (key self = key other)
    then true else false
  else false.

(** [update(storage, key, data)] *)
Definition update (self : t) (storage' : option nat) (key' : option string)
    (data' : option (dict value)) : t :=
  if negb (__nonzero__ B h storage' || key_truthy key' || data_truthy data')
  then self
  else
    {| storage := if __nonzero__ B h storage' then storage' else storage self;
       key := if key_truthy key' then key' else key self;
       data := match data' with
               | None => data self
               | Some d => Some d
               end |}.
End WithHeap.

End DocumentSavedState.

Module document_base.

(** A document instance.  [DotDict], the mapping base class, is not part of
    the source tree; it is taken to be the plain mapping interface over
    [_data] ([get], [iteritems], item assignment). *)
Record Document := {
  doc_class : pyclass;
  _data : dict value;
  _saved_state : DocumentSavedState.t
}.

(** The outcome of one validator call: it returns, raises [StopValidation],
    or raises [ValidationError]. *)
Inductive test_outcome := Passed | StopValidation | Invalid.

(** A callable stored in the defaults table: what it is and how many
    positional arguments it takes.  Calling it with another number of
    arguments raises [TypeError]. *)
Inductive callable_body :=
| Nullary (run : result value)
| Unary (run : Document -> result value).

Inductive default_value :=
| NonCallable (v : value)
| Callable (is_FunctionType : bool) (body : callable_body).

Definition call0 (b : callable_body) : result value :=
  match b with
  | Nullary run => run
  | Unary _ => Raise TypeError
  end.

Definition call1 (b : callable_body) (doc : Document) : result value :=
  match b with
  | Nullary _ => Raise TypeError
  | Unary run => run doc
  end.

Section Schema.
(** [Q] is the backend's query type, which validators may refine through
    [filter_query]. *)
Context {Q : Type}.

Record validator := {
  test : Document -> value -> test_outcome;
  filter_query : option (Q -> string -> result Q)
}.

Record DocumentMetadata := {
  structure : dict datatype;
  validators : dict (list validator);
  defaults : dict default_value;
  skip_type_conversion : list string;
  set_item_processors : dict (value -> result value);
  incoming_processors : dict (value -> result value);
  outgoing_processors : dict (value -> result value);
  break_on_invalid_incoming_data : bool
}.

(** A document class: the class object and the [meta] attribute the
    metaclass attached to it. *)
Record Variant := {
  v_class : pyclass;
  meta : DocumentMetadata
}.

(** [_validate_value_type(cls, key, value)] *)
Definition _validate_value_type (m : DocumentMetadata) (doc : Document)
    (key : string) (v : value) : result unit :=
  if is_none v then Ok tt
  else
    match dict_get key (structure m) with
    | None => Ok tt
    | Some (DPath _) => Ok tt
    | Some (DClass c) =>
        if issubclass c Document_cls && isinstance v basestring_ then Ok tt
        else if isinstance v c then Ok tt
        else Raise (ValidationError (cls_name (doc_class doc)) key v)
    | Some (DMany _) =>
        if has_iter v then Ok tt
        else Raise (ValidationError (cls_name (doc_class doc)) key v)
    end.

(** [_validate_value_custom(doc, key, value)] *)
Fixpoint run_tests (tests : list validator) (doc : Document) (key : string)
    (v : value) : result unit :=
  match tests with
  | [] => Ok tt
  | t :: rest =>
      match test t doc v with
      | Passed => run_tests rest doc key v
      | StopValidation => Ok tt
      | Invalid => Raise (ValidationError (cls_name (doc_class doc)) key v)
      end
  end.

Definition _validate_value_custom (m : DocumentMetadata) (doc : Document)
    (key : string) (v : value) : result unit :=
  run_tests (default [] (dict_get key (validators m))) doc key v.

(** [_validate_value(doc, key, value)] *)
Definition _validate_value (m : DocumentMetadata) (doc : Document)
    (key : string) (v : value) : result unit :=
  _ ← _validate_value_type m doc key v;
  _validate_value_custom m doc key v.

(** [Document.__setitem__] *)
Definition __setitem__ (m : DocumentMetadata) (doc : Document)
    (key : string) (v : value) : result Document :=
  match structure m with
  | _ :: _ =>
      if dict_has key (structure m) then Ok tt else Raise (KeyError [key])
  | [] => Ok tt
  end ≫= fun _ =>
  v' ← match dict_get key (set_item_processors m) with
       | Some f => f v
       | None => Ok v
       end;
  _ ← _validate_value m doc key v';
  Ok {| doc_class := doc_class doc;
        _data := dict_set key v' (_data doc);
        _saved_state := _saved_state doc |}.

(** [Document.validate] *)
Fixpoint validate_items (m : DocumentMetadata) (doc : Document)
    (items : dict value) : result unit :=
  match items with
  | [] => Ok tt
  | (k, v) :: rest =>
      _ ← _validate_value m doc k v;
      validate_items m doc rest
  end.

Definition validate (m : DocumentMetadata) (doc : Document) : result unit :=
  validate_items m doc (_data doc).

(** One round of the generator [_collect_defaults]: the pair it yields for
    [name], if any. *)
Definition collect_default (doc : Document) (name : string)
    (dv : default_value) : result (option value) :=
  let current_value := default VNone (dict_get name (_data doc)) in
  if is_none current_value || is_empty_str current_value then
    v ← match dv with
        | NonCallable v => Ok v
        | Callable true body => call1 body doc
        | Callable false body => call0 body
        end;
    Ok (Some v)
  else Ok None.

(** The loop of [save] over [_collect_defaults(self)]: the generator is
    resumed after each assignment, so a later default sees the earlier
    ones in place. *)
Fixpoint fill_defaults (m : DocumentMetadata) (doc : Document)
    (table : dict default_value) : result Document :=
  match table with
  | [] => Ok doc
  | (name, dv) :: rest =>
      yielded ← collect_default doc name dv;
      match yielded with
      | Some v =>
          doc' ← __setitem__ m doc name v;
          fill_defaults m doc' rest
      | None => fill_defaults m doc rest
      end
  end.

(** [_get_related_document_class(cls, field)], as far as it can fail. *)
Definition _get_related_document_class (m : DocumentMetadata)
    (field : string) : result (option pyclass) :=
  match dict_get field (structure m) with
  | None => Ok None
  | Some x =>
      is_doc ← issubclass_Document x;
      match x with
      | DClass c => Ok (if (is_doc : bool) then Some c else None)
      | DMany c => Ok (Some c)
      | DPath _ => Raise TypeError
      end
  end.

Fixpoint add_backward_relations (m : DocumentMetadata)
    (fields : list string) : result unit :=
  match fields with
  | [] => Ok tt
  | f :: rest =>
      _ ← _get_related_document_class m f;
      add_backward_relations m rest
  end.

(** [Document.__init__], called with keyword arguments [kw]. *)
Fixpoint init_items (m : DocumentMetadata) (doc : Document)
    (kw : dict value) : result Document :=
  match kw with
  | [] => Ok doc
  | (k, v) :: rest =>
      match __setitem__ m doc k v with
      | Ok doc' => init_items m doc' rest
      | Raise (ValidationError c f x) =>
          if break_on_invalid_incoming_data m
          then Raise (ValidationError c f x)
          else init_items m doc rest
      | Raise e => Raise e
      end
  end.

Definition __init__ (cls : Variant) (kw : dict value) : result Document :=
  let m := meta cls in
  let empty := {| doc_class := v_class cls;
                  _data := map (fun kv => (fst kv, VNone)) (structure m);
                  _saved_state := DocumentSavedState.init |} in
  doc ← init_items m empty kw;
  _ ← add_backward_relations m (map fst (structure m));
  Ok doc.

(** [Document.contribute_to_query(query)] *)
Fixpoint apply_filters (tests : list validator) (name : string) (query : Q)
    : result Q :=
  match tests with
  | [] => Ok query
  | t :: rest =>
      match filter_query t with
      | Some f => query' ← f query name; apply_filters rest name query'
      | None => apply_filters rest name query
      end
  end.

Fixpoint contribute_items (items : dict (list validator)) (query : Q)
    : result Q :=
  match items with
  | [] => Ok query
  | (name, tests) :: rest =>
      query' ← apply_filters tests name query;
      contribute_items rest query'
  end.

Definition contribute_to_query (cls : Variant) (query : Q) : result Q :=
  contribute_items (validators (meta cls)) query.

(** [pk] *)
Definition pk (doc : Document) : option string :=
  DocumentSavedState.key (_saved_state doc).

Section WithBackend.
Context {S : Type} (B : Backend S).

(** The conversion of one field in [from_storage]; a [ValueError] leaves
    the value as it was when the error occurred. *)
Definition pythonize (m : DocumentMetadata) (name : string) (x : datatype)
    (data : dict value) : result value :=
  let raw := default VNone (dict_get name data) in
  let on_value_error (kept : value) (e : exn) : result value :=
    match e with
    | ValueError =>
        if break_on_invalid_incoming_data m then Raise ValueError else Ok kept
    | _ => Raise e
    end in
  match (if bool_decide (name ∈ skip_type_conversion m) then Ok raw
         else value_from_db B x raw) with
  | Raise e => on_value_error raw e
  | Ok v =>
      match dict_get name (incoming_processors m) with
      | Some processor =>
          if is_none v then Ok v
          else match processor v with
               | Ok v' => Ok v'
               | Raise e => on_value_error v e
               end
      | None => Ok v
      end
  end.

Fixpoint pythonize_all (m : DocumentMetadata) (fields : dict datatype)
    (data : dict value) : result (dict value) :=
  match fields with
  | [] => Ok []
  | (name, x) :: rest =>
      v ← pythonize m name x data;
      rest' ← pythonize_all m rest data;
      Ok ((name, v) :: rest')
  end.

(** [Document.from_storage(storage, key, data)] *)
Definition from_storage (cls : Variant) (h : gmap nat S) (storage : nat)
    (key : string) (data : dict value) : result Document :=
  let m := meta cls in
  pythonized_data ← match structure m with
                    | [] => Ok data
                    | _ :: _ => pythonize_all m (structure m) data
                    end;
  instance ← __init__ cls pythonized_data;
  Ok {| doc_class := doc_class instance;
        _data := _data instance;
        _saved_state :=
          DocumentSavedState.update B h (_saved_state instance)
            (Some storage) (Some key) (Some data) |}.

(** The loop of [save] that merges the fields into the record to write. *)
Fixpoint merge_fields (m : DocumentMetadata) (pairs : dict value)
    (data : dict value) : result (dict value) :=
  match pairs with
  | [] => Ok data
  | (name, v) :: rest =>
      v1 ← match dict_get name (outgoing_processors m) with
           | Some processor => if is_none v then Ok v else processor v
           | None => Ok v
           end;
      v2 ← (if bool_decide (name ∈ skip_type_conversion m) then Ok v1
            else value_to_db B v1);
      merge_fields m rest (dict_set name v2 data)
  end.

(** The key [save] hands to the storage. *)
Definition key_to_pass (doc : Document) (target : nat) (keep_key : bool)
    : option string :=
  if keep_key
     || bool_decide (Some target
                     = DocumentSavedState.storage (_saved_state doc))
  then pk doc else None.

(** [Document.save(storage=None, keep_key=False)]: the new heap, the
    document after the call, and the key returned. *)
Definition save (m : DocumentMetadata) (h : gmap nat S) (doc : Document)
    (storage : option nat) (keep_key : bool)
    : result (gmap nat S * Document * string) :=
  let bound := DocumentSavedState.storage (_saved_state doc) in
  if negb (__nonzero__ B h storage) && negb (__nonzero__ B h bound)
  then Raise AttributeError
  else
    match (if __nonzero__ B h storage then storage else bound) with
    | None => Raise AttributeError
    | Some target =>
        doc1 ← fill_defaults m doc (defaults m);
        _ ← validate m doc1;
        let data0 :=
          if DocumentSavedState.data_truthy
               (DocumentSavedState.data (_saved_state doc1))
          then default [] (DocumentSavedState.data (_saved_state doc1))
          else [] in
        let pairs :=
          match structure m with
          | [] => _data doc1
          | _ :: _ =>
              map (fun kv => (fst kv,
                              default VNone (dict_get (fst kv) (_data doc1))))
                  (structure m)
          end in
        data ← merge_fields m pairs data0;
        '(h', key) ← save_at B h target (key_to_pass doc1 target keep_key) data;
        let doc2 :=
          {| doc_class := doc_class doc1;
             _data := _data doc1;
             _saved_state :=
               DocumentSavedState.update B h' (_saved_state doc1)
                 (Some target) (Some key) (Some data) |} in
        if bool_decide (Some key = pk doc2) then Ok (h', doc2, key)
        else Raise AssertionError
    end.

(** Anything a document may be compared with. *)
Inductive pyobj :=
| ODoc (d : Document)
| OValue (v : value).

(** [Document.__eq__]; [doc_truthy] is the truth value of a document, which
    the mapping base class decides.  An object without [_saved_state] is
    never equal to a document. *)
Definition __eq__ (doc_truthy : Document -> bool)
    (h : gmap nat S) (self : Document) (other : pyobj) : bool :=
  match other with
  | ODoc d =>
      if negb (doc_truthy d) then false
      else DocumentSavedState.eq B h (_saved_state self) (_saved_state d)
  | OValue v => false
  end.

End WithBackend.
End Schema.
Arguments validator Q : clear implicits.
Arguments DocumentMetadata Q : clear implicits.
Arguments Variant Q : clear implicits.

End document_base.

Import document_base.

(** ** [doqu/backend_base.py]: the storage adapter, fetching side *)

Module Fetching.

(** A generator: the outcomes of its successive resumptions.  Consuming it
    collects the items up to the first exception. *)
Definition generator (A : Type) := list (result A).

Fixpoint consume {A : Type} (g : generator A) : list A * option exn :=
  match g with
  | [] => ([], None)
  | Ok a :: rest => let '(items, e) := consume rest in (a :: items, e)
  | Raise e :: _ => ([], Some e)
  end.

Section Adapter.
Context {Q S : Type} (B : Backend S).

(** [BaseStorageAdapter._get_many]: one [_get] per key, on demand. *)
Definition _get_many (st : S) (keys : list string)
    : generator (string * dict value) :=
  map (fun pk => data ← _get B st pk; Ok (pk, data)) keys.

(** [_decorate(key, data, doc_class)] for a document class. *)
Definition _decorate (h : gmap nat S) (self : nat) (key : string)
    (data : dict value) (doc_class : Variant Q) : result Document :=
  from_storage B doc_class h self key data.

(** [get(key, doc_class)] *)
Definition get (h : gmap nat S) (self : nat) (key : string)
    (doc_class : Variant Q) : result Document :=
  match h !! self with
  | None => Raise AttributeError
  | Some st =>
      if negb (connected B st) then Raise RuntimeError
      else
        data ← _get B st key;
        _decorate h self key data doc_class
  end.

(** [get_many(keys, doc_class)]; [get_many_impl] is the [_get_many] of the
    adapter class, the one above unless the backend overrides it. *)
Definition get_many
    (get_many_impl : S -> list string -> generator (string * dict value))
    (h : gmap nat S) (self : nat) (keys : list string)
    (doc_class : Variant Q) : result (generator Document) :=
  match h !! self with
  | None => Raise AttributeError
  | Some st =>
      if negb (connected B st) then Raise RuntimeError
      else
        match keys with
        | [] => Raise IndexError
        | _ :: _ =>
            Ok (map (fun item =>
                       '(key, data) ← item;
                       _decorate h self key data doc_class)
                    (get_many_impl st keys))
        end
  end.

End Adapter.
End Fetching.

Import Fetching.

(** ** [doqu/ext/shelve_db]: the storage adapter *)

Module shelve_db.

(** The adapter object: the open shelf ([None] once disconnected) and the
    number of identifiers drawn so far. *)
Record StorageAdapter := {
  connection : option (dict (dict value));
  drawn : nat
}.

Section Adapter.
(** [uuid4 n] is the text of the [n]-th identifier [uuid.uuid4()] draws;
    [converters] is the registry of [converters.py]. *)
Variable uuid4 : nat -> string.
Variable converters : ProcessorManager converter.

(** [_get(key)] *)
Definition _get (self : StorageAdapter) (key : string)
    : result (dict value) :=
  match connection self with
  | None => Raise TypeError
  | Some shelf =>
      match dict_get key shelf with
      | Some data => Ok data
      | None => Raise (KeyError [key])
      end
  end.

(** [_generate_uid()] *)
Definition _generate_uid (self : StorageAdapter)
    : result (StorageAdapter * string) :=
  match connection self with
  | None => Raise TypeError
  | Some shelf =>
      let key := uuid4 (drawn self) in
      if dict_has key shelf then Raise AssertionError
      else Ok ({| connection := connection self; drawn := S (drawn self) |},
               key)
  end.

(** [_save(key, data)] *)
Definition _save (self : StorageAdapter) (key : option string)
    (data : dict value) : result (StorageAdapter * string) :=
  '(self1, key1) ← match key with
                   | Some k => if String.eqb k "" then _generate_uid self
                               else Ok (self, k)
                   | None => _generate_uid self
                   end;
  match connection self1 with
  | None => Raise TypeError
  | Some shelf =>
      Ok ({| connection := Some (dict_set key1 data shelf);
             drawn := drawn self1 |}, key1)
  end.

(** [_delete(key)] *)
Definition _delete (self : StorageAdapter) (key : string)
    : result StorageAdapter :=
  match connection self with
  | None => Raise TypeError
  | Some shelf =>
      if dict_has key shelf
      then Ok {| connection := Some (dict_del key shelf);
                 drawn := drawn self |}
      else Raise (KeyError [key])
  end.

Definition backend : Backend StorageAdapter :=
  {| connected := fun self => match connection self with
                              | Some _ => true
                              | None => false
                              end;
     BaseStorageAdapter._get := _get;
     BaseStorageAdapter._save := _save;
     converter_manager := converters |}.

End Adapter.
End shelve_db.

(** ** [doqu/utils/data_structures.py]: [CachedIterator] and [LazySorted] *)

Module data_structures.

(** [LazySorted(data, key, reverse)] and [CachedIterator] live in
    [doqu/utils/data_structures.py], which is not in the source tree. *)

Section LazySorted.
Context {A : Type} (key : A -> list value) (reverse : bool).

(** Modelled from the spec: the order [LazySorted] sorts by.  Keys are
    Python lists and compare lexicographically; [reverse] turns the order
    round. *)
Definition goes_before (x y : A) : bool :=
  match cmp_list (key x) (key y), reverse with
  | Gt, false => false
  | Lt, true => false
  | _, _ => true
  end.

(** Modelled from the spec: one step of the stable sort behind
    [LazySorted]; an element goes in front of the elements of equal key
    that followed it. *)
Fixpoint insert_sorted (x : A) (l : list A) : list A :=
  match l with
  | [] => [x]
  | y :: rest =>
      if goes_before x y then x :: y :: rest else y :: insert_sorted x rest
  end.

(** Modelled from the spec: [LazySorted(data, key, reverse)], the stable
    sort the spec names; the arguments are those of the built-in
    [sorted]. *)
Definition LazySorted (data : list A) : list A :=
  foldr insert_sorted [] data.
End LazySorted.

(** [CachedIterator] is the mixin behind every query adapter.  The spec
    gives it a result cache that retains every element read, serves cached
    elements in the order they were first fetched, and resumes fetching
    from the cursor only when more is demanded than the cache holds; the
    adapters' own comments add that [_iter] is [None] initially and once
    the cursor is exhausted, and that [_prepare] runs when an iteration
    starts.  [Q] is the adapter object, reached through the accessors
    below. *)
Section CachedIterator.
Context {Q Raw Item : Type}.
Variable get_iter : Q -> option (list Raw).
Variable set_iter : Q -> option (list Raw) -> Q.
Variable get_cache : Q -> list Item.
Variable set_cache : Q -> list Item -> Q.
(** The hooks the adapter class defines. *)
Variable _prepare : Q -> result Q.
Variable _prepare_item : Q -> Raw -> result Item.

(** Modelled from the spec: [CachedIterator] filling its cache, one
    [_prepare_item] per raw element of the cursor. *)
Fixpoint prepare_items (q : Q) (raws : list Raw) : result (list Item) :=
  match raws with
  | [] => Ok []
  | raw :: rest =>
      item ← _prepare_item q raw;
      items ← prepare_items q rest;
      Ok (item :: items)
  end.

(** Modelled from the spec: [CachedIterator.__iter__], consumed by a
    caller that stops after [demand] elements ([None]: when the iterator is
    exhausted).  The elements yielded and the object afterwards. *)
Definition iterate (demand : option nat) (q : Q) : result (list Item * Q) :=
  q1 ← _prepare q;
  let cache := get_cache q1 in
  let wanted := match demand with
                | Some n => (n - length cache)%nat
                | None => match get_iter q1 with
                          | Some cursor => S (length cursor)
                          | None => 0%nat
                          end
                end in
  match get_iter q1, wanted with
  | _, O => Ok (match demand with
                | Some n => take n cache
                | None => cache
                end, q1)
  | None, _ => Ok (cache, q1)
  | Some cursor, _ =>
      items ← prepare_items q1 (take wanted cursor);
      let cache' := cache ++ items in
      Ok (cache',
          set_cache
            (set_iter q1 (if decide (wanted <= length cursor)%nat
                          then Some (drop wanted cursor) else None))
            cache')
  end.

(** Modelled from the spec: [list(q)] over a [CachedIterator]. *)
Definition to_list (q : Q) : result (list Item * Q) := iterate None q.

(** Modelled from the spec: [CachedIterator.__getitem__] for an index
    [k]. *)
Definition __getitem__ (k : nat) (q : Q) : result (Item * Q) :=
  '(items, q') ← iterate (Some (S k)) q;
  match items !! k with
  | Some item => Ok (item, q')
  | None => Raise IndexError
  end.
End CachedIterator.

End data_structures.

(** ** [doqu/backend_base.py]: [LookupManager] and native conditions *)

Module lookups.

(** What a lookup processor returns: one native condition, or a list,
    tuple or generator of them. *)
Inductive native (C : Type) :=
| One (c : C)
| Several (cs : list C).
Arguments One {C} c.
Arguments Several {C} cs.

(** A lookup processor: [processor(name, value, preprocessor, negate)]. *)
Definition lookup_processor (C : Type) : Type :=
  string -> value -> (value -> result value) -> bool -> result (native C).

(** [lookup.split('__')] *)
Fixpoint split_dunder (s : string) (current : string) : list string :=
  match s with
  | EmptyString => [current]
  | String "_"%char (String "_"%char rest) => current :: split_dunder rest ""
  | String c rest => split_dunder rest (current +:+ String c "")
  end.

Section Conditions.
Context {C : Type} (lookup_manager : ProcessorManager (lookup_processor C)).

(** [LookupManager.get_processor(operation)]: the key is used as it is. *)
Definition get_processor (operation : option string)
    : result (lookup_processor C) :=
  match operation with
  | Some op => get_processor_for lookup_manager (negb (String.eqb op "")) op
  | None => get_processor_for lookup_manager false ""
  end.

(** [BaseQueryAdapter._get_native_conditions(conditions, negate)], as
    [list(...)] collects it. *)
Fixpoint _get_native_conditions (preprocessor : value -> result value)
    (conditions : dict value) (negate : bool) : result (list C) :=
  match conditions with
  | [] => Ok []
  | (lookup, v) :: rest =>
      '(name, operation) ← match split_dunder lookup "" with
                           | [name] => Ok (name, None)
                           | [name; operation] => Ok (name, Some operation)
                           | _ => Raise ValueError
                           end;
      processor ← get_processor operation;
      n ← processor name v preprocessor negate;
      more ← _get_native_conditions preprocessor rest negate;
      Ok (match n with
          | One c => c :: more
          | Several cs => cs ++ more
          end)
  end.
End Conditions.

End lookups.

Import lookups.

(** ** The query adapter object *)

Module query_object.

(** The attributes the query adapters of the bundled backends keep: the
    storage, the accumulated native conditions (of type [C]), the ordering
    (of type [O], [None] when there is none), the cursor and the cache.
    [doc_class] never changes over the life of a query and its clones; it
    is passed beside the object.  [searches] counts the calls of
    [_do_search] that fed the cursor ([_init] and [_prepare]). *)
Record QueryAdapter (C O : Type) := {
  storage : nat;
  _conditions : list C;
  _ordering : option O;
  _iter : option (list string);
  _cache : list Document;
  searches : nat
}.
Arguments storage {C O} _.
Arguments _conditions {C O} _.
Arguments _ordering {C O} _.
Arguments _iter {C O} _.
Arguments _cache {C O} _.
Arguments searches {C O} _.

Section Setters.
Context {C O : Type}.

Definition set_iter (q : QueryAdapter C O) (it : option (list string))
    : QueryAdapter C O :=
  {| storage := storage q; _conditions := _conditions q;
     _ordering := _ordering q; _iter := it; _cache := _cache q;
     searches := searches q |}.

Definition set_cache (q : QueryAdapter C O) (cache : list Document)
    : QueryAdapter C O :=
  {| storage := storage q; _conditions := _conditions q;
     _ordering := _ordering q; _iter := _iter q; _cache := cache;
     searches := searches q |}.

(** [self._iter = cursor] after one more call of [_do_search]. *)
Definition searched (q : QueryAdapter C O) (cursor : list string)
    : QueryAdapter C O :=
  {| storage := storage q; _conditions := _conditions q;
     _ordering := _ordering q; _iter := Some cursor; _cache := _cache q;
     searches := S (searches q) |}.
End Setters.

End query_object.

Import query_object.

(** ** [doqu/ext/shelve_db]: the query adapter *)

Module shelve_query.

(** A native condition of this backend: a check applied to a record. *)
Definition check : Type := dict value -> bool.

(** The sort specification [{'names': ..., 'reverse': ...}]. *)
Record sort_spec := {
  names : list string;
  reverse : bool
}.

Definition QueryAdapter : Type := query_object.QueryAdapter check sort_spec.

Section Adapter.
Variable uuid4 : nat -> string.
Variable converters : ProcessorManager converter.
Variable lookup_manager : ProcessorManager (lookup_processor check).

Let B : Backend shelve_db.StorageAdapter := shelve_db.backend uuid4 converters.

(** [make_sort_key(pk)] *)
Definition make_sort_key (shelf : dict (dict value)) (spec : sort_spec)
    (pk : string) : list value :=
  let data := default [] (dict_get pk shelf) in
  omap (fun name => match dict_get name data with
                    | Some v => if is_none v then None else Some v
                    | None => None
                    end) (names spec).

(** [finder()] *)
Definition finder (shelf : dict (dict value)) (conditions : list check)
    : list string :=
  fst <$> filter (fun rec => forallb (fun c : check => c rec.2) conditions
                             = true) shelf.

(** [_do_search()]: the keys the cursor yields.  The cursor is represented
    by the keys it will yield from the shelf as it is when the search is
    started. *)
Definition _do_search (h : gmap nat shelve_db.StorageAdapter)
    (q : QueryAdapter) : result (list string) :=
  match h !! storage q with
  | None => Raise AttributeError
  | Some st =>
      match shelve_db.connection st with
      | None => Raise TypeError
      | Some shelf =>
          let found := finder shelf (_conditions q) in
          Ok (match _ordering q with
              | Some spec =>
                  data_structures.LazySorted (make_sort_key shelf spec)
                    (reverse spec) found
              | None => found
              end)
      end
  end.

(** [__init__(storage, doc_class, conditions, ordering)]: the empty cache
    of [CachedIterator], then [_init]. *)
Definition __init__ (h : gmap nat shelve_db.StorageAdapter) (storage : nat)
    (conditions : list check) (ordering : option sort_spec)
    : result QueryAdapter :=
  let q := {| storage := storage; _conditions := conditions;
              _ordering := ordering; _iter := None; _cache := [];
              searches := 0 |} in
  cursor ← _do_search h q;
  Ok (searched q cursor).

(** [_prepare()] *)
Definition _prepare (h : gmap nat shelve_db.StorageAdapter)
    (q : QueryAdapter) : result QueryAdapter :=
  match _iter q with
  | None =>
      cursor ← _do_search h q;
      Ok (searched q cursor)
  | Some _ => Ok q
  end.

(** [_prepare_item(key)]: two fetches, the second one returned. *)
Definition _prepare_item (h : gmap nat shelve_db.StorageAdapter)
    (doc_class : Variant QueryAdapter) (q : QueryAdapter) (key : string)
    : result Document :=
  _ ← Fetching.get B h (storage q) key doc_class;
  Fetching.get B h (storage q) key doc_class.

(** Iteration, as [CachedIterator] provides it. *)
Definition iterate (h : gmap nat shelve_db.StorageAdapter)
    (doc_class : Variant QueryAdapter) (demand : option nat)
    (q : QueryAdapter) : result (list Document * QueryAdapter) :=
  data_structures.iterate _iter set_iter _cache set_cache
    (_prepare h) (_prepare_item h doc_class) demand q.

Definition __getitem__ (h : gmap nat shelve_db.StorageAdapter)
    (doc_class : Variant QueryAdapter) (k : nat) (q : QueryAdapter)
    : result (Document * QueryAdapter) :=
  data_structures.__getitem__ _iter set_iter _cache set_cache
    (_prepare h) (_prepare_item h doc_class) k q.

(** [_clone(extra_conditions, extra_ordering)] *)
Definition _clone (h : gmap nat shelve_db.StorageAdapter) (q : QueryAdapter)
    (extra_conditions : option (list check))
    (extra_ordering : option sort_spec) : result QueryAdapter :=
  __init__ h (storage q)
    (_conditions q ++ default [] extra_conditions)
    (match extra_ordering with
     | Some spec => Some spec
     | None => _ordering q
     end).

(** [__where(lookups, negate)] *)
Definition __where (h : gmap nat shelve_db.StorageAdapter) (q : QueryAdapter)
    (lookups : dict value) (negate : bool) : result QueryAdapter :=
  conditions ← _get_native_conditions lookup_manager (value_to_db B)
                  lookups negate;
  _clone h q (Some conditions) None.

(** [_where], declared with keyword arguments only;
    [args] are the positional arguments of the call. *)
Definition _where (h : gmap nat shelve_db.StorageAdapter) (q : QueryAdapter)
    (args : list (dict value)) (conditions : dict value)
    : result QueryAdapter :=
  match args with
  | [] => __where h q conditions false
  | _ :: _ => Raise TypeError
  end.

(** [_where_not]: calls [self._where(conditions,
    negate=True)]. *)
Definition _where_not (h : gmap nat shelve_db.StorageAdapter)
    (q : QueryAdapter) (conditions : dict value) : result QueryAdapter :=
  _where h q [conditions] [("negate", VBool true)].

(** [BaseQueryAdapter.where] ([where] is reserved, hence [where_]) and
    [where_not] *)
Definition where_ (h : gmap nat shelve_db.StorageAdapter) (q : QueryAdapter)
    (conditions : dict value) : result QueryAdapter :=
  _where h q [] conditions.

Definition where_not (h : gmap nat shelve_db.StorageAdapter)
    (q : QueryAdapter) (conditions : dict value) : result QueryAdapter :=
  _where_not h q conditions.

(** [order_by(names, reverse)]; a single name is a one-element list. *)
Definition order_by (h : gmap nat shelve_db.StorageAdapter)
    (q : QueryAdapter) (names' : list string) (reverse' : bool)
    : result QueryAdapter :=
  let sort_spec := {| names := rev names'; reverse := reverse' |} in
  _clone h q None (Some sort_spec).

(** [count()] *)
Definition count (h : gmap nat shelve_db.StorageAdapter) (q : QueryAdapter)
    : result nat :=
  found ← _do_search h q;
  Ok (length found).

(** [BaseStorageAdapter.find] with this query
    adapter. *)
Definition find (h : gmap nat shelve_db.StorageAdapter) (self : nat)
    (doc_class : Variant QueryAdapter) (conditions : dict value)
    : result QueryAdapter :=
  match h !! self with
  | None => Raise AttributeError
  | Some st =>
      if negb (connected B st) then Raise RuntimeError
      else
        query ← __init__ h self [] None;
        query' ← contribute_to_query doc_class query;
        where_ h query' conditions
  end.

(** [self.find(doc_class).where(...)], the condition query of
    [get_or_create]. *)
Definition condition_query (h : gmap nat shelve_db.StorageAdapter)
    (self : nat) (doc_class : Variant QueryAdapter) (conditions : dict value)
    : result QueryAdapter :=
  found ← find h self doc_class [];
  where_ h found conditions.

(** [BaseStorageAdapter.get_or_create]: the heap
    afterwards, the document and the flag [created]. *)
Definition get_or_create (h : gmap nat shelve_db.StorageAdapter)
    (self : nat) (doc_class : Variant QueryAdapter) (conditions : dict value)
    : result (gmap nat shelve_db.StorageAdapter * Document * bool) :=
  match conditions with
  | [] => Raise AssertionError
  | _ :: _ =>
      match h !! self with
      | None => Raise AttributeError
      | Some st =>
          if negb (connected B st) then Raise RuntimeError
          else
            query ← condition_query h self doc_class conditions;
            n ← count h query;
            match n with
            | O =>
                obj ← document_base.__init__ doc_class conditions;
                '(h', obj', _) ← document_base.save B (meta doc_class) h obj
                                   (Some self) false;
                Ok (h', obj', true)
            | S _ =>
                '(doc, _) ← __getitem__ h doc_class 0 query;
                Ok (h, doc, false)
            end
      end
  end.

End Adapter.
End shelve_query.

(** ** [doqu/ext/mongodb]: [_prepare] *)

Module mongodb_query.

(** [QueryAdapter._prepare()] of the MongoDB adapter; [_do_search] is the
    backend search. *)
Definition _prepare {C O : Type}
    (_do_search : QueryAdapter C O -> result (list string))
    (q : QueryAdapter C O) : result (QueryAdapter C O) :=
  match _iter q, _cache q with
  | None, [] =>
      cursor ← _do_search q;
      Ok (searched q cursor)
  | _, _ => Ok q
  end.

End mongodb_query.

(** ** [doqu/ext/mongodb]: batch fetch *)

Module mongodb.

(** The collection: records by the text of their [_id], in natural
    order. *)
Definition collection := list (string * dict value).

(** [connection.find({'_id': {'$in': obj_ids}})] *)
Definition find_in (c : collection) (obj_ids : list string) : collection :=
  filter (fun rec => fst rec ∈ obj_ids) c.

(** [StorageAdapter._get_many(keys)] *)
Definition _get_many (c : collection) (keys : list string)
    : generator (string * dict value) :=
  let results := find_in c keys in
  let found_keys := fst <$> results in
  (Ok <$> results)
  ++ (if decide (length found_keys < length keys)%nat
      then [Raise (KeyError (filter (fun k => k ∉ found_keys) keys))]
      else []).

End mongodb.

(** ** Notions used in the statements *)

Module Notions.

(** A document is bound when its saved state carries a storage and a key
    (both true in the Python sense). *)
Definition is_bound {S : Type} (B : Backend S) (h : gmap nat S)
    (d : Document) : bool :=
  __nonzero__ B h (DocumentSavedState.storage (_saved_state d))
  && DocumentSavedState.key_truthy (DocumentSavedState.key (_saved_state d)).

(** [isinstance(v, x)] answers [True]: possible for a class only. *)
Definition passes_isinstance (x : datatype) (v : value) : bool :=
  match x with
  | DClass c => isinstance v c
  | _ => false
  end.

(** The declared type is a document variant. *)
Definition is_document_variant (x : datatype) : bool :=
  match x with
  | DClass c => issubclass c Document_cls
  | _ => false
  end.



(** The requested keys that are not among [present]. *)
Definition absent_keys (present keys : list string) : list string :=
  filter (fun k => k ∉ present) keys.


End Notions.

Import Notions.

(** ** Fixtures *)

Module Fixtures.

(** A converter that stores values as they are. *)
Definition plain : converter := {| from_db := Ok; to_db := Ok |}.

(** A registry that knows [int] only. *)
Definition int_only : ProcessorManager converter :=
  {| processors := <["int" := plain]> ∅; default_ := None |}.

(** A backend with no state at all: always connected, stores nothing. *)
Definition null_backend : Backend unit :=
  {| connected := fun _ => true;
     _get := fun _ k => Raise (KeyError [k]);
     _save := fun _ key _ => Ok (tt, default "fresh" key);
     converter_manager := int_only |}.

(** A schema-less note class and a transient instance of it. *)
Definition Note_cls : pyclass := PyClass "Note" ["Document"; "object"] true.

Definition transient_note : Document :=
  {| doc_class := Note_cls; _data := [];
     _saved_state := DocumentSavedState.init |}.

(** A schema whose field [parent] is declared by a lazy path. *)
Definition lazy_meta {Q : Type} : DocumentMetadata Q :=
  {| structure := [("parent", DPath "self")];
     validators := []; defaults := []; skip_type_conversion := [];
     set_item_processors := []; incoming_processors := [];
     outgoing_processors := [];
     break_on_invalid_incoming_data := false |}.




(** A note bound to the storage 0 under the key [k1]. *)
Definition bound_note : Document :=
  {| doc_class := Note_cls; _data := [("n", VInt 1)];
     _saved_state := {| DocumentSavedState.storage := Some 0%nat;
                        DocumentSavedState.key := Some "k1";
                        DocumentSavedState.data := None |} |}.

Definition plain_meta {Q : Type} : DocumentMetadata Q :=
  {| structure := []; validators := []; defaults := [];
     skip_type_conversion := [];
     set_item_processors := []; incoming_processors := [];
     outgoing_processors := [];
     break_on_invalid_incoming_data := false |}.

(** The identifiers a shelf draws here: [uid-0], [uid-1], ... *)
Definition uid (n : nat) : string :=
  "uid-" +:+ String (Ascii.ascii_of_nat (48 + n)) "".

(** Modelled from the spec: a converter registry for the shelf
    ([converters.py] is not in the source tree); a shelf pickles values, so
    [None], integers and strings are stored as they are. *)
Definition store_all : ProcessorManager converter :=
  {| processors :=
       <["NoneType" := plain]> (<["int" := plain]> (<["str" := plain]> ∅));
     default_ := None |}.

Definition shelf_backend : Backend shelve_db.StorageAdapter :=
  shelve_db.backend uid store_all.

Definition empty_shelf : shelve_db.StorageAdapter :=
  {| shelve_db.connection := Some []; shelve_db.drawn := 0 |}.

Definition one_shelf : gmap nat shelve_db.StorageAdapter :=
  <[0%nat := empty_shelf]> ∅.

Definition note_variant {Q : Type} : Variant Q :=
  {| v_class := Note_cls; meta := plain_meta |}.

(** A MongoDB collection holding the record [a] only. *)
Definition one_record : mongodb.collection := [("a", [("n", VInt 1)])].

Definition mongo_like : Backend mongodb.collection :=
  {| connected := fun _ => true;
     _get := fun c k => match dict_get k c with
                        | Some d => Ok d
                        | None => Raise (KeyError [k])
                        end;
     _save := fun c key _ => Ok (c, default "fresh" key);
     converter_manager := store_all |}.

(** Modelled from the spec: the [equals] lookup of the shelf
    ([lookups.py] is not in the source tree); [field=value] is equality of
    the field with the converted value, and [equals] is the default
    operator. *)
Definition equals : lookup_processor shelve_query.check :=
  fun name v preprocessor negate =>
    v' ← preprocessor v;
    Ok (One (fun data =>
               xorb negate
                    (value_eqb (default VNone (dict_get name data)) v'))).

Definition shelf_lookups : ProcessorManager (lookup_processor shelve_query.check) :=
  {| processors := <["equals" := equals]> ∅; default_ := Some equals |}.

(** A shelf with one record. *)
Definition shelf_r1 : gmap nat shelve_db.StorageAdapter :=
  <[0%nat := {| shelve_db.connection := Some [("r1", [("n", VInt 1)])];
                shelve_db.drawn := 0 |}]> ∅.

Definition doc_r1 : Document :=
  {| doc_class := Note_cls; _data := [("n", VInt 1)];
     _saved_state :=
       {| DocumentSavedState.storage := Some 0%nat;
          DocumentSavedState.key := Some "r1";
          DocumentSavedState.data := Some [("n", VInt 1)] |} |}.

(** A shelf with two records: [r1] has [a = 1, b = 2], [r2] has
    [a = 2, b = 1]. *)
Definition shelf_ab : gmap nat shelve_db.StorageAdapter :=
  <[0%nat := {| shelve_db.connection :=
                  Some [("r1", [("a", VInt 1); ("b", VInt 2)]);
                        ("r2", [("a", VInt 2); ("b", VInt 1)])];
                shelve_db.drawn := 0 |}]> ∅.

(** A class whose field [email] is declared an [int]. *)
Definition Account_cls : pyclass :=
  PyClass "Account" ["Document"; "object"] true.

Definition account_variant {Q : Type} : Variant Q :=
  {| v_class := Account_cls;
     meta := {| structure := [("email", DClass int_)];
                validators := []; defaults := [];
                skip_type_conversion := [];
                set_item_processors := []; incoming_processors := [];
                outgoing_processors := [];
                break_on_invalid_incoming_data := false |} |}.

(** The condition query for [email = "x"] on the empty shelf, and the
    outcome of [get_or_create] there for the schema-less note class. *)
Definition email_query : shelve_query.QueryAdapter :=
  match shelve_query.condition_query uid store_all shelf_lookups one_shelf 0
          note_variant [("email", VStr "x")] with
  | Ok q => q
  | Raise _ => {| storage := 0%nat; _conditions := []; _ordering := None;
                  _iter := None; _cache := []; searches := 0 |}
  end.

Definition first_created
    : gmap nat shelve_db.StorageAdapter * Document * bool :=
  match shelve_query.get_or_create uid store_all shelf_lookups one_shelf 0
          note_variant [("email", VStr "x")] with
  | Ok r => r
  | Raise _ => (∅, transient_note, false)
  end.

(** Two adapter objects of the stateless backend. *)
Definition two_storages : gmap nat unit := <[1%nat := tt]> (<[0%nat := tt]> ∅).

End Fixtures.

(** ** [doqu/backend_base.py]: unregistering and deleting *)

Module registry_api.

Section Registry.
Context {P : Type}.

(** [ProcessorManager.unregister(key)]: the processor and the manager
    without it.  The default is left as it is. *)
Definition unregister (m : ProcessorManager P) (key : string)
    : result (P * ProcessorManager P) :=
  match processors m !! key with
  | None => Raise (DataProcessorDoesNotExist "")
  | Some processor =>
      Ok (processor,
          {| processors := delete key (processors m);
             default_ := default_ m |})
  end.
End Registry.

End registry_api.

Import registry_api.

Module shelve_crud.

(** [BaseStorageAdapter.delete(key)] with the shelf's [_delete]. *)
Definition delete (self : shelve_db.StorageAdapter) (key : string)
    : result shelve_db.StorageAdapter :=
  match shelve_db.connection self with
  | None => Raise RuntimeError
  | Some _ => shelve_db._delete self key
  end.

(** [key in storage] *)
Definition __contains__ (self : shelve_db.StorageAdapter) (key : string)
    : result bool :=
  match shelve_db.connection self with
  | None => Raise TypeError
  | Some shelf => Ok (dict_has key shelf)
  end.

(** [len(storage)] *)
Definition __len__ (self : shelve_db.StorageAdapter) : result nat :=
  match shelve_db.connection self with
  | None => Raise TypeError
  | Some shelf => Ok (length shelf)
  end.

(** The keys of an open shelf are distinct, as those of any mapping. *)
Definition keys_unique (st : shelve_db.StorageAdapter) : Prop :=
  match shelve_db.connection st with
  | Some shelf => NoDup shelf.*1
  | None => True
  end.

End shelve_crud.


(** ** [doqu/document_base.py]: deleting a document *)

Module document_delete.

Section Delete.
Context {S : Type} (B : Backend S).
(** [_delete] is the private method of the adapter class behind
    [storage.delete(key)]. *)
Variable _delete : S -> string -> result S.

(** [BaseStorageAdapter.delete(key)] through a reference. *)
Definition delete_at (h : gmap nat S) (r : nat) (key : string)
    : result (gmap nat S) :=
  match h !! r with
  | None => Raise AttributeError
  | Some st =>
      if negb (connected B st) then Raise RuntimeError
      else st' ← _delete st key; Ok (<[r := st']> h)
  end.

(** [Document.delete()]: the saved state of the document is left as it
    is. *)
Definition delete (h : gmap nat S) (doc : Document)
    : result (gmap nat S) :=
  let state := _saved_state doc in
  if negb (__nonzero__ B h (DocumentSavedState.storage state))
     || negb (DocumentSavedState.key_truthy (DocumentSavedState.key state))
  then Raise ValueError
  else
    match DocumentSavedState.storage state, DocumentSavedState.key state with
    | Some r, Some key => delete_at h r key
    | _, _ => Raise ValueError
    end.
End Delete.

End document_delete.

(** ** [doqu/ext/shelve_db]: deleting through a query *)

Module shelve_query_delete.

(** The loop of [_delete]: [self.storage.delete(pk)] for each key the
    search yields. *)
Fixpoint delete_each (h : gmap nat shelve_db.StorageAdapter) (r : nat)
    (keys : list string) : result (gmap nat shelve_db.StorageAdapter) :=
  match keys with
  | [] => Ok h
  | pk :: rest =>
      match h !! r with
      | None => Raise AttributeError
      | Some st =>
          st' ← shelve_crud.delete st pk;
          delete_each (<[r := st']> h) r rest
      end
  end.

(** [QueryAdapter._delete()], behind [delete()] *)
Definition _delete (h : gmap nat shelve_db.StorageAdapter)
    (q : shelve_query.QueryAdapter)
    : result (gmap nat shelve_db.StorageAdapter) :=
  found ← shelve_query._do_search h q;
  delete_each h (storage q) found.

(** A record passes all the checks of a query. *)
Definition matches (conditions : list shelve_query.check)
    (rec : string * dict value) : bool :=
  forallb (fun c : shelve_query.check => c rec.2) conditions.

End shelve_query_delete.

(** ** [doqu/document_base.py]: the metadata of a document class *)

Module Metaclass.

(** [DocumentMetadata.CUSTOMIZABLE] *)
Definition CUSTOMIZABLE : list string :=
  ["structure"; "validators"; "defaults"; "labels"; "skip_type_conversion";
   "incoming_processors"; "outgoing_processors"; "set_item_processors";
   "get_item_processors"; "referenced_by";
   "break_on_invalid_incoming_data"; "label"; "label_plural"].

Section Meta.
(** [A] is the type of the values of attributes; [str] embeds strings in it
    and [initial] gives the value [__init__] assigns to each customizable
    attribute.  [camel_case_to_underscores] is the function of [utils]. *)
Context {A : Type}.
Variable camel_case_to_underscores : string -> string.
Variable initial : string -> A.
Variable str : string -> A.

(** The metadata object: [lowercase_name] and the other attributes by
    name. *)
Record DocumentMetadata := {
  lowercase_name : string;
  attributes : gmap string A
}.

(** [DocumentMetadata.__init__(name)] *)
Definition __init__ (name : string) : DocumentMetadata :=
  {| lowercase_name := camel_case_to_underscores name;
     attributes := list_to_map ((fun a => (a, initial a)) <$> CUSTOMIZABLE) |}.

(** [meta.__dict__] *)
Definition __dict__ (self : DocumentMetadata) : gmap string A :=
  <["lowercase_name" := str (lowercase_name self)]> (attributes self).

(** The entries of [data] that [update] accepts. *)
Definition accepted (data : gmap string A) : gmap string A :=
  filter (fun kv => kv.1 ∈ CUSTOMIZABLE) data.

(** [update(data)]: the object afterwards and the keys accepted. *)
Definition update (self : DocumentMetadata) (data : gmap string A)
    : DocumentMetadata * gset string :=
  ({| lowercase_name := lowercase_name self;
      attributes := accepted data ∪ attributes self |},
   dom (accepted data)).

(** [inherit(doc_classes)]; a document class is given by its [meta]. *)
Definition inherit (self : DocumentMetadata)
    (doc_classes : list DocumentMetadata) : DocumentMetadata :=
  foldl (fun m parent => (update m (__dict__ parent)).1) self doc_classes.

(** What [value.contribute_to_document_metadata(meta, attr)] does to the
    metadata, for a value that has the method. *)
Variable contribute_to_document_metadata :
  A -> option (DocumentMetadata -> string -> DocumentMetadata).

(** A metadata object as the value of an attribute. *)
Variable object_ : DocumentMetadata -> A.

(** [DocumentMetaclass.__new__(cls, name, bases, attrs)]: the metadata of
    the new class and the namespace it is created with; [parents] are the
    bases that are document classes. *)
Definition __new__ (name : string) (parents : list DocumentMetadata)
    (attrs : gmap string A) : DocumentMetadata * gmap string A :=
  let meta := inherit (__init__ name) parents in
  let '(meta1, moved_attrs) := update meta attrs in
  let attrs1 := filter (fun kv => kv.1 ∉ moved_attrs) attrs in
  let '(meta3, attrs3) :=
    map_fold (fun attr value '(meta2, attrs2) =>
                match contribute_to_document_metadata value with
                | Some contribute =>
                    (contribute meta2 attr, delete attr attrs2)
                | None => (meta2, attrs2)
                end)
             (meta1, attrs1) attrs1 in
  (meta3, <["meta" := object_ meta3]> attrs3).

(** Every customizable attribute is set. *)
Definition complete (self : DocumentMetadata) : Prop :=
  forall a, a ∈ CUSTOMIZABLE -> is_Some (attributes self !! a).

End Meta.
Arguments DocumentMetadata A : clear implicits.

End Metaclass.

(** ** Names in lookups *)

Module lookup_names.

(** The text holds no double underscore and does not end in an
    underscore. *)
Fixpoint plain_part (s : string) : bool :=
  match s with
  | EmptyString => true
  | String c rest =>
      if Ascii.eqb c "_"
      then match rest with
           | EmptyString => false
           | String c2 _ => negb (Ascii.eqb c2 "_") && plain_part rest
           end
      else plain_part rest
  end.

End lookup_names.

(** ** [doqu/future.py]: cloning a document *)

Module future.

Section Clone.
Context {Q S : Type} (B : Backend S).

(** [DocumentSavedState.clone()]: a fresh state updated with the
    attributes of this one. *)
Definition clone (h : gmap nat S) (self : DocumentSavedState.t)
    : DocumentSavedState.t :=
  DocumentSavedState.update B h DocumentSavedState.init
    (DocumentSavedState.storage self) (DocumentSavedState.key self)
    (DocumentSavedState.data self).

(** The loop of [clone_doc] over [fields_to_copy]. *)
Fixpoint copy_fields (source : dict value) (fields : list string)
    (target : dict value) : dict value :=
  match fields with
  | [] => target
  | name :: rest =>
      copy_fields source rest
        (match dict_get name source with
         | Some v => dict_set name v target
         | None => target
         end)
  end.

(** [clone_doc(doc, as_document)]; [own] is [type(doc)]. *)
Definition clone_doc (h : gmap nat S) (own : Variant Q) (doc : Document)
    (as_document : option (Variant Q)) : result Document :=
  let cls := default own as_document in
  new_obj ← document_base.__init__ cls [];
  let fields_to_copy :=
    match structure (meta cls) with
    | [] => (_data new_obj).*1
    | _ :: _ => (structure (meta cls)).*1
    end in
  Ok {| doc_class := doc_class new_obj;
        _data := copy_fields (_data doc) fields_to_copy (_data new_obj);
        _saved_state :=
          if DocumentSavedState.nonzero B h (_saved_state doc)
          then clone h (_saved_state doc)
          else _saved_state new_obj |}.
End Clone.

End future.

(** ** [doqu/document_base.py]: hashing and backward relations *)

Module saved_state_hash.

Section Hash.
Context {S : Type} (B : Backend S) (h : gmap nat S).
(** The built-in [hash] of a storage object and of a key. *)
Variable hash_storage : nat -> Z.
Variable hash_key : string -> Z.

(** [DocumentSavedState.__hash__], which [Document.__hash__] returns. *)
Definition __hash__ (self : DocumentSavedState.t) : result Z :=
  if negb (__nonzero__ B h (DocumentSavedState.storage self))
     || negb (DocumentSavedState.key_truthy (DocumentSavedState.key self))
  then Raise TypeError
  else
    match DocumentSavedState.storage self, DocumentSavedState.key self with
    | Some r, Some k => Ok (Z.lor (hash_storage r) (hash_key k))
    | _, _ => Raise TypeError
    end.
End Hash.

End saved_state_hash.

Module BackwardRelation.

Section Descriptor.
Variable uuid4 : nat -> string.
Variable converters : ProcessorManager converter.
Variable lookup_manager : ProcessorManager (lookup_processor shelve_query.check).

(** [BackwardRelation.__get__(instance, owner)] on the shelve backend;
    [related_model] and [attr_name] are the attributes of the descriptor.
    [related_model.objects(storage)] is [storage.find(related_model)]. *)
Definition __get__ (h : gmap nat shelve_db.StorageAdapter)
    (related_model : Variant shelve_query.QueryAdapter) (attr_name : string)
    (instance : Document) : result shelve_query.QueryAdapter :=
  let state := _saved_state instance in
  if negb (__nonzero__ (shelve_db.backend uuid4 converters) h
             (DocumentSavedState.storage state))
  then Raise ValueError
  else if negb (DocumentSavedState.key_truthy (pk instance))
  then Raise ValueError
  else
    match DocumentSavedState.storage state, pk instance with
    | Some storage, Some key =>
        query ← shelve_query.find uuid4 converters lookup_manager h storage
                  related_model [];
        shelve_query.where_ uuid4 converters lookup_manager h query
          [(attr_name, VStr key)]
    | _, _ => Raise ValueError
    end.
End Descriptor.

End BackwardRelation.

(** ** More fixtures *)

Module MoreFixtures.

(** A shelf adapter with one record, and a heap whose only adapter is
    disconnected. *)
Definition shelf_one : shelve_db.StorageAdapter :=
  {| shelve_db.connection := Some [("r1", [("n", VInt 1)])];
     shelve_db.drawn := 0 |}.

Definition closed_shelf : shelve_db.StorageAdapter :=
  {| shelve_db.connection := None; shelve_db.drawn := 0 |}.

Definition closed_shelves : gmap nat shelve_db.StorageAdapter :=
  <[0%nat := closed_shelf]> ∅.

(** Three validators: one that passes, one that stops the validation, one
    that fails. *)
Definition passing {Q : Type} : validator Q :=
  {| test := fun _ _ => Passed; filter_query := None |}.

Definition stopping {Q : Type} : validator Q :=
  {| test := fun _ _ => StopValidation; filter_query := None |}.

Definition failing {Q : Type} : validator Q :=
  {| test := fun _ _ => Invalid; filter_query := None |}.

Definition guarded_meta {Q : Type} : DocumentMetadata Q :=
  {| structure := [];
     validators := [("n", [passing; stopping; failing])];
     defaults := []; skip_type_conversion := [];
     set_item_processors := []; incoming_processors := [];
     outgoing_processors := [];
     break_on_invalid_incoming_data := false |}.

(** An account loaded from the record [k1], which holds a field the class
    does not declare. *)
Definition loaded_account : Document :=
  {| doc_class := Fixtures.Account_cls; _data := [("email", VInt 1)];
     _saved_state :=
       {| DocumentSavedState.storage := Some 0%nat;
          DocumentSavedState.key := Some "k1";
          DocumentSavedState.data :=
            Some [("email", VInt 0); ("legacy", VInt 7)] |} |}.

(** A converter that stores a value as the one-element list of it, a
    registry that knows it for [int], and a class that declares the field
    [n] an [int] and exempts it from type conversion. *)
Definition boxed : converter :=
  {| from_db := fun v => match v with
                         | VList [x] => Ok x
                         | _ => Raise ValueError
                         end;
     to_db := fun v => Ok (VList [v]) |}.

Definition boxing_ints : ProcessorManager converter :=
  {| processors := <["int" := boxed]> ∅; default_ := None |}.


(** A stand-in lookup for the examples: it keeps the records that have the
    field.  It is the default of its registry. *)
Definition has_field : lookup_processor shelve_query.check :=
  fun name _ _ negate => Ok (One (fun data => xorb negate (dict_has name data))).

Definition stand_in_lookups
    : ProcessorManager (lookup_processor shelve_query.check) :=
  {| processors := ∅; default_ := Some has_field |}.

(** The query for every record of the storage 0. *)
Definition everything : shelve_query.QueryAdapter :=
  {| storage := 0%nat; _conditions := []; _ordering := None;
     _iter := None; _cache := []; searches := 0 |}.

(** The query for the records whose field [a] is 1. *)
Definition a_is_one : shelve_query.QueryAdapter :=
  {| storage := 0%nat;
     _conditions := [fun data => value_eqb (default VNone (dict_get "a" data))
                                   (VInt 1)];
     _ordering := None; _iter := None; _cache := []; searches := 0 |}.

(** Attribute values that are numbers: every initial value is 0, a string
    counts as its length, a metadata object as 0, and nothing is a
    field. *)
Definition zero_initial (a : string) : nat := 0.

Definition no_fields (v : nat)
    : option (Metaclass.DocumentMetadata nat -> string
              -> Metaclass.DocumentMetadata nat) := None.

Definition new_class (name : string)
    (parents : list (Metaclass.DocumentMetadata nat))
    (body : gmap string nat) : Metaclass.DocumentMetadata nat :=
  (Metaclass.__new__ (fun s => s) zero_initial String.length no_fields
     (fun _ => 0%nat) name parents body).1.

Definition parent_meta : Metaclass.DocumentMetadata nat :=
  new_class "Parent" [] (<["structure" := 1%nat]> ∅).

End MoreFixtures.

(* ===================================================================== *)
(** * Part II. Properties                                                 *)
(* ===================================================================== *)

(** ** Converter registry *)

Section ConverterResolution.
Variable m : ProcessorManager converter.

(** Every round of the loop asks the same question, so the outcome is
    that of the first round. *)
Lemma pick_loop_const x bases p :
  ConverterManager.pick_loop m x bases = Ok p ->
  ConverterManager.get_processor m x = Ok p.
Proof.
  induction bases as [|b rest IH]; simpl; [discriminate|].
  destruct (ConverterManager.get_processor m x) as [q|e]; [congruence|].
  destruct e; try discriminate; auto.
Qed.

(** A class that is not itself a key and is no document class is never
    resolved, whatever its ancestors are registered for. *)
Lemma pick_processor_ignores_bases (c : pyclass) :
  issubclass c Document_cls = false ->
  processors m !! cls_name c = None ->
  Py.is_ok (ConverterManager._pick_processor m (DClass c)) = false.
Proof.
  intros Hdoc Hnone.
  destruct (ConverterManager._pick_processor m (DClass c)) as [p|e] eqn:E;
    [|reflexivity].
  apply pick_loop_const in E.
  unfold ConverterManager.get_processor, ConverterManager._preprocess_key in E.
  simpl in E. rewrite Hdoc in E. simpl in E.
  unfold get_processor_for in E. rewrite Hnone in E. discriminate.
Qed.

(** Every document class is looked up under the key [Document], every
    [OneToManyRelation] instance under the key [OneToManyRelation]. *)
Lemma preprocess_key_document (c : pyclass) :
  issubclass c Document_cls = true ->
  ConverterManager._preprocess_key (DClass c) = Ok Document_cls.
Proof. intros H. unfold ConverterManager._preprocess_key. simpl. now rewrite H. Qed.

Lemma preprocess_key_many (c : pyclass) :
  ConverterManager._preprocess_key (DMany c) = Ok OneToManyRelation_cls.
Proof. reflexivity. Qed.
End ConverterResolution.

(** C1 (code defect).  With a converter registered for [int] only, the
    datatype [bool] (MRO [bool; int; object]) has a registered ancestor, yet
    [_pick_processor] raises the converter-missing error: the loop over the
    bases asks for [datatype] at every round and never for the base. *)
Theorem C1_pick_processor_never_tries_bases :
  first_registered Fixtures.int_only (mro bool_) = Some Fixtures.plain /\
  ConverterManager._pick_processor Fixtures.int_only (DClass bool_)
    = Raise (DataProcessorDoesNotExist "bool") /\
  ConverterManager.to_db_ Fixtures.int_only (VBool true)
    = Raise (DataProcessorDoesNotExist "bool").
Proof. repeat split; vm_compute; reflexivity. Qed.

(** ** Document equality *)

Section DocumentEquality.
Context {S : Type} (B : Backend S) (doc_truthy : Document -> bool).

Lemma saved_state_eq_true (h : gmap nat S) (a b : DocumentSavedState.t) :
  DocumentSavedState.eq B h a b = true ->
  __nonzero__ B h (DocumentSavedState.storage a) = true /\
  DocumentSavedState.key_truthy (DocumentSavedState.key a) = true /\
  DocumentSavedState.storage a = DocumentSavedState.storage b /\
  DocumentSavedState.key a = DocumentSavedState.key b.
Proof.
  unfold DocumentSavedState.eq.
  destruct (__nonzero__ B h (DocumentSavedState.storage a)); simpl; [|discriminate].
  destruct (DocumentSavedState.key_truthy (DocumentSavedState.key a)); simpl;
    [|discriminate].
  destruct (DocumentSavedState.nonzero B h b); [|discriminate].
  destruct (bool_decide_reflect
              (DocumentSavedState.storage a = DocumentSavedState.storage b));
    simpl; [|discriminate].
  destruct (bool_decide_reflect
              (DocumentSavedState.key a = DocumentSavedState.key b));
    simpl; [|discriminate].
  auto.
Qed.

(** C10.  A document whose saved state lacks a storage or a key compares
    unequal to everything, itself included; and whenever [d == other]
    holds, [other] is a document, both saved states carry a storage and a
    key, and they agree on them. *)
Theorem C10_transient_document_equals_nothing (h : gmap nat S) (d : Document) :
  (is_bound B h d = false ->
     (forall other, __eq__ B doc_truthy h d other = false)
     /\ __eq__ B doc_truthy h d (ODoc d) = false)
  /\ (forall other, __eq__ B doc_truthy h d other = true ->
        exists d', other = ODoc d'
          /\ is_bound B h d = true /\ is_bound B h d' = true
          /\ DocumentSavedState.storage (_saved_state d)
             = DocumentSavedState.storage (_saved_state d')
          /\ DocumentSavedState.key (_saved_state d)
             = DocumentSavedState.key (_saved_state d')).
Proof.
  assert (Hall : is_bound B h d = false ->
                 forall other, __eq__ B doc_truthy h d other = false).
  { intros Hb [d'|v]; simpl; [|reflexivity].
    destruct (doc_truthy d'); simpl; [|reflexivity].
    unfold DocumentSavedState.eq. unfold is_bound in Hb. now rewrite Hb. }
  split; [intros Hb; split; [now apply Hall | now apply Hall]|].
  intros [d'|v]; simpl; [|discriminate].
  destruct (doc_truthy d'); simpl; [|discriminate].
  intros He. apply saved_state_eq_true in He as (Hs & Hk & Es & Ek).
  exists d'. unfold is_bound. rewrite <- Es, <- Ek, Hs, Hk. auto.
Qed.
End DocumentEquality.

Lemma C10_witness :
  __eq__ Fixtures.null_backend (fun _ => true) ∅ Fixtures.transient_note
    (ODoc Fixtures.transient_note) = false.
Proof.
  apply (C10_transient_document_equals_nothing Fixtures.null_backend
           (fun _ => true) ∅ Fixtures.transient_note).
  reflexivity.
Defined.

(** ** Field validation *)

Section TypeCheck.
Context {Q : Type} (m : DocumentMetadata Q) (doc : Document).

(** C6, as the code has it.  [None] is always accepted.  For a declared
    document variant the accepted values are its instances and strings; for
    a to-many relation, the values that provide [__iter__]; for any other
    declared class, its instances.  A field declared by a text reference,
    or not declared at all, accepts every value.  Every rejection is a
    validation error carrying the class name, the field and the value. *)
Theorem C6_validate_value_type_cases (key : string) (v : value) :
  (v = VNone -> _validate_value_type m doc key v = Ok tt)
  /\ (forall c, dict_get key (structure m) = Some (DClass c) ->
        issubclass c Document_cls = true -> v <> VNone ->
        (_validate_value_type m doc key v = Ok tt
         <-> isinstance v c = true \/ isinstance v basestring_ = true))
  /\ (forall c, dict_get key (structure m) = Some (DMany c) -> v <> VNone ->
        (_validate_value_type m doc key v = Ok tt <-> has_iter v = true))
  /\ (forall c, dict_get key (structure m) = Some (DClass c) ->
        issubclass c Document_cls = false -> v <> VNone ->
        (_validate_value_type m doc key v = Ok tt <-> isinstance v c = true))
  /\ (forall path, dict_get key (structure m) = Some (DPath path) ->
        _validate_value_type m doc key v = Ok tt)
  /\ (dict_get key (structure m) = None ->
        _validate_value_type m doc key v = Ok tt)
  /\ (forall e, _validate_value_type m doc key v = Raise e ->
        e = ValidationError (cls_name (doc_class doc)) key v).
Proof.
  unfold _validate_value_type.
  repeat split.
  - intros ->. reflexivity.
  - rewrite H, H0. simpl.
    destruct (is_none v) eqn:Hn; [destruct v; discriminate || contradiction|].
    destruct (isinstance v basestring_), (isinstance v c); auto; discriminate.
  - rewrite H, H0. simpl.
    destruct (is_none v) eqn:Hn; [reflexivity|].
    intros [-> | ->]; [destruct (isinstance v basestring_)|]; reflexivity.
  - rewrite H. destruct (is_none v) eqn:Hn; [destruct v; discriminate || contradiction|].
    destruct (has_iter v); auto; discriminate.
  - rewrite H. intros ->. now destruct (is_none v).
  - rewrite H, H0. simpl.
    destruct (is_none v) eqn:Hn; [destruct v; discriminate || contradiction|].
    destruct (isinstance v c); auto; discriminate.
  - rewrite H, H0. simpl. intros ->. now destruct (is_none v).
  - intros path ->. now destruct (is_none v).
  - intros ->. now destruct (is_none v).
  - intros e. destruct (is_none v); [discriminate|].
    destruct (dict_get key (structure m)) as [[c| c |path]|]; try discriminate.
    + destruct (issubclass c Document_cls && isinstance v basestring_);
        [discriminate|].
      destruct (isinstance v c); [discriminate|]. congruence.
    + destruct (has_iter v); [discriminate|]. congruence.
Qed.
End TypeCheck.

(** C6, counterexample to the claim as stated.  The field [parent] is
    declared by the text reference ["self"]; the integer 5 passes no
    [isinstance] check against it and is neither a document nor a key
    string, yet the type check accepts it. *)
Lemma C6_text_reference_accepts_anything :
  dict_get "parent" (structure (@Fixtures.lazy_meta unit)) = Some (DPath "self")
  /\ passes_isinstance (DPath "self") (VInt 5) = false
  /\ is_document_variant (DPath "self") = false
  /\ _validate_value_type (@Fixtures.lazy_meta unit) Fixtures.transient_note
       "parent" (VInt 5) = Ok tt.
Proof. repeat split. Qed.

(** ** Generic facts about [result] and dictionaries *)

Lemma bind_Ok {A B : Type} (x : result A) (k : A -> result B) (b : B) :
  (x ≫= k) = Ok b -> exists a, x = Ok a /\ k a = Ok b.
Proof. destruct x as [a|e]; simpl; [eauto | discriminate]. Qed.

Lemma dict_get_set_eq {V : Type} (k : string) (v : V) (d : dict V) :
  dict_get k (dict_set k v d) = Some v.
Proof.
  induction d as [|[k' v'] rest IH]; simpl.
  - now rewrite String.eqb_refl.
  - destruct (String.eqb k k') eqn:E; simpl.
    + now rewrite String.eqb_refl.
    + now rewrite E.
Qed.

Lemma dict_get_set_ne {V : Type} (k k0 : string) (v : V) (d : dict V) :
  k0 <> k -> dict_get k0 (dict_set k v d) = dict_get k0 d.
Proof.
  intros Hne. induction d as [|[k' v'] rest IH]; simpl.
  - destruct (String.eqb_spec k0 k); [contradiction | reflexivity].
  - destruct (String.eqb_spec k k') as [->|Hkk']; simpl.
    + destruct (String.eqb_spec k0 k'); [contradiction | reflexivity].
    + destruct (String.eqb k0 k'); [reflexivity | exact IH].
Qed.

(** ** Saving a document *)

Section Saving.
Context {Q S : Type} (B : Backend S) (m : DocumentMetadata Q).

Lemma setitem_inv (d d1 : Document) (k : string) (v : value) :
  __setitem__ m d k v = Ok d1 ->
  exists v', _validate_value m d k v' = Ok tt
    /\ _data d1 = dict_set k v' (_data d)
    /\ _saved_state d1 = _saved_state d
    /\ doc_class d1 = doc_class d.
Proof.
  unfold __setitem__. intros H.
  apply bind_Ok in H as (_ & _ & H).
  apply bind_Ok in H as (v' & _ & H).
  apply bind_Ok in H as ([] & Hv & H).
  injection H as <-. exists v'. auto.
Qed.


Lemma fill_defaults_saved_state (table : dict default_value) :
  forall d d', fill_defaults m d table = Ok d' ->
    _saved_state d' = _saved_state d.
Proof.
  induction table as [|[name dv] rest IH]; simpl; intros d d' H.
  - now injection H as <-.
  - apply bind_Ok in H as ([v|] & _ & H).
    + apply bind_Ok in H as (d1 & H1 & H).
      apply setitem_inv in H1 as (_ & _ & _ & E & _).
      rewrite (IH _ _ H). exact E.
    + now apply IH.
Qed.



(** [save] succeeds only through these steps. *)
Lemma save_inv (h h' : gmap nat S) (d d' : Document) (storage : option nat)
    (keep_key : bool) (k : string) :
  save B m h d storage keep_key = Ok (h', d', k) ->
  exists target doc1 data,
    (if __nonzero__ B h storage then storage
     else DocumentSavedState.storage (_saved_state d)) = Some target
    /\ fill_defaults m d (defaults m) = Ok doc1
    /\ validate m doc1 = Ok tt
    /\ save_at B h target (key_to_pass doc1 target keep_key) data = Ok (h', k)
    /\ _data d' = _data doc1
    /\ _saved_state d' =
         DocumentSavedState.update B h' (_saved_state doc1)
           (Some target) (Some k) (Some data).
Proof.
  unfold save. intros H.
  destruct (negb (__nonzero__ B h storage)
            && negb (__nonzero__ B h
                       (DocumentSavedState.storage (_saved_state d))));
    [discriminate|].
  destruct (if __nonzero__ B h storage then storage
            else DocumentSavedState.storage (_saved_state d))
    as [target|]; [|discriminate].
  apply bind_Ok in H as (doc1 & Hfill & H).
  apply bind_Ok in H as ([] & Hval & H).
  apply bind_Ok in H as (data & Hmerge & H).
  apply bind_Ok in H as ([h1 k1] & Hsave & H).
  destruct (bool_decide _); [|discriminate].
  injection H as <- <- <-.
  exists target, doc1, data. auto 10.
Qed.

Lemma adapter_save_inv (st st' : S) (key : option string)
    (data : dict value) (k : string) :
  BaseStorageAdapter.save B st key data = Ok (st', k) ->
  String.eqb k "" = false
  /\ exists outgoing, _save B st key outgoing = Ok (st', k).
Proof.
  unfold BaseStorageAdapter.save. intros H.
  destruct (negb (connected B st)); [discriminate|].
  apply bind_Ok in H as (out & _ & H).
  apply bind_Ok in H as ([st1 k1] & Hraw & H).
  destruct (String.eqb k1 "") eqn:E; [discriminate|].
  injection H as <- <-. eauto.
Qed.

(** What [_prepare_data_for_saving] returns: the same fields in the same
    order, each value converted by the registry. *)
Lemma prepare_data_converts (data outgoing : dict value) :
  _prepare_data_for_saving B data = Ok outgoing ->
  Forall2 (fun field converted =>
             converted.1 = field.1
             /\ ConverterManager.to_db_ (converter_manager B) field.2
                = Ok converted.2)
          data outgoing.
Proof.
  revert outgoing.
  induction data as [|[name v] rest IH]; simpl; intros outgoing H.
  - injection H as <-. constructor.
  - apply bind_Ok in H as (v' & Hv & H).
    apply bind_Ok in H as (rest' & Hrest & H). injection H as <-.
    constructor; [split; [reflexivity | exact Hv] | now apply IH].
Qed.




End Saving.





(** ** Batch fetch *)

Lemma consume_Ok_app {A : Type} (xs : list A) (g : generator A) :
  consume ((Ok <$> xs) ++ g) = (xs ++ (consume g).1, (consume g).2).
Proof.
  induction xs as [|x xs IH].
  - simpl. now destruct (consume g).
  - change (consume ((Ok <$> x :: xs) ++ g))
      with (let '(items, e) := consume ((Ok <$> xs) ++ g) in (x :: items, e)).
    now rewrite IH.
Qed.

Lemma consume_decorated {A D : Type} (dec : A -> result D) (g : generator A) :
  forall items e docs,
    consume g = (items, e) ->
    Forall2 (fun a d => dec a = Ok d) items docs ->
    consume (A := D)
      ((fun item : result A => item ≫= dec) <$> (g : list (result A)))
    = (docs, e).
Proof.
  induction g as [|[a|err] rest IH]; intros items e docs Hc Hd.
  - injection Hc as <- <-. now inversion Hd.
  - simpl in Hc. destruct (consume rest) as [items' e'] eqn:E.
    injection Hc as <- <-.
    inversion Hd as [|? d ? docs' Ha Hrest]; subst.
    specialize (IH _ _ _ eq_refl Hrest).
    rewrite fmap_cons. simpl. rewrite Ha. simpl. now rewrite IH.
  - injection Hc as <- <-. now inversion Hd.
Qed.

(** The MongoDB fetch finds fewer records than keys as soon as one key is
    absent. *)
Lemma found_fewer_than_requested (c : mongodb.collection)
    (keys : list string) (k0 : string) :
  NoDup (fst <$> c) -> k0 ∈ keys -> k0 ∉ fst <$> c ->
  (length (fst <$> mongodb.find_in c keys) < length keys)%nat.
Proof.
  intros Hnd Hin Habs.
  apply elem_of_Permutation in Hin as [keys' Hperm].
  rewrite (Permutation_length Hperm). simpl.
  apply Nat.lt_succ_r, submseteq_length, NoDup_submseteq.
  - apply (sublist_NoDup _ (fst <$> c)); [exact Hnd|].
    unfold mongodb.find_in. apply fmap_sublist, sublist_filter.
  - intros x Hx. apply list_elem_of_fmap in Hx as ([id rec] & -> & Hrec).
    unfold mongodb.find_in in Hrec.
    apply list_elem_of_filter in Hrec as [Hkey Hc]. simpl in *.
    rewrite Hperm in Hkey. apply elem_of_cons in Hkey as [->|]; [|assumption].
    exfalso. apply Habs. apply list_elem_of_fmap. now exists (k0, rec).
Qed.

Lemma absent_from_found (c : mongodb.collection) (keys : list string) :
  filter (fun k => k ∉ fst <$> mongodb.find_in c keys) keys
  = absent_keys (fst <$> c) keys.
Proof.
  unfold absent_keys.
  assert (H : forall l : list string, (forall k, k ∈ l -> k ∈ keys) ->
            filter (fun k => k ∉ fst <$> mongodb.find_in c keys) l
            = filter (fun k => k ∉ fst <$> c) l).
  { induction l as [|k l IH]; intros Hsub; [reflexivity|].
    rewrite !filter_cons.
    rewrite IH by (intros; apply Hsub; now right).
    assert (Hiff : k ∈ fst <$> mongodb.find_in c keys <-> k ∈ fst <$> c).
    { split; intros Hk; apply list_elem_of_fmap in Hk as ([id rec] & -> & Hrec);
        apply list_elem_of_fmap; exists (id, rec); split; auto.
      - now apply list_elem_of_filter in Hrec as [_ ?].
      - apply list_elem_of_filter. split; [|assumption].
        simpl. apply Hsub. now left. }
    destruct (decide (k ∉ fst <$> mongodb.find_in c keys)),
             (decide (k ∉ fst <$> c)); tauto || reflexivity. }
  now apply H.
Qed.

Section BatchFetch.
Context {Q : Type}.

(** C2, as the code has it.  When a requested key is absent, consuming the
    result of [get_many] ends in a not-found error.  With the MongoDB
    adapter every record found is yielded first and the one error names
    every missing key.  With the default implementation (one [_get] per
    key, here on a shelf) the records of the keys before the first missing
    one are yielded and the error names that key alone. *)
Theorem C2_batch_fetch_reports_missing_keys :
  (forall (B : Backend mongodb.collection) (h : gmap nat mongodb.collection)
          (self : nat) (c : mongodb.collection) (keys : list string)
          (cls : Variant Q) (docs : list Document),
      h !! self = Some c -> connected B c = true ->
      NoDup (fst <$> c) ->
      (exists k, k ∈ keys /\ k ∉ fst <$> c) ->
      Forall2 (fun rec doc => _decorate B h self rec.1 rec.2 cls = Ok doc)
              (mongodb.find_in c keys) docs ->
      exists g,
        get_many B mongodb._get_many h self keys cls = Ok g
        /\ consume g = (docs, Some (KeyError (absent_keys (fst <$> c) keys)))
        /\ forall k, k ∈ absent_keys (fst <$> c) keys
                     <-> k ∈ keys /\ k ∉ fst <$> c)
  /\ (forall (uuid4 : nat -> string) (conv : ProcessorManager converter)
             (h : gmap nat shelve_db.StorageAdapter) (self : nat)
             (st : shelve_db.StorageAdapter) (shelf : dict (dict value))
             (pre post : list string) (k0 : string)
             (cls : Variant Q) (docs : list Document),
        let B := shelve_db.backend uuid4 conv in
        h !! self = Some st -> shelve_db.connection st = Some shelf ->
        Forall2 (fun k doc => exists data,
                   dict_get k shelf = Some data
                   /\ _decorate B h self k data cls = Ok doc) pre docs ->
        dict_get k0 shelf = None ->
        exists g,
          get_many B (Fetching._get_many B) h self (pre ++ k0 :: post) cls
            = Ok g
          /\ consume g = (docs, Some (KeyError [k0]))).
Proof.
  split.
  - intros B h self c keys cls docs Hlook Hconn Hnd (k0 & Hin & Habs) Hdec.
    unfold get_many. rewrite Hlook, Hconn. simpl.
    destruct keys as [|k keys']; [now apply elem_of_nil in Hin|].
    eexists. split; [reflexivity|]. split.
    + apply (consume_decorated
               (fun item : string * dict value =>
                  let '(key, data) := item in _decorate B h self key data cls)
               _ (mongodb.find_in c (k :: keys'))).
      * unfold mongodb._get_many.
        rewrite consume_Ok_app.
        destruct (decide _) as [_|Hge].
        -- simpl. rewrite app_nil_r. now rewrite absent_from_found.
        -- exfalso. apply Hge. now apply (found_fewer_than_requested _ _ k0).
      * eapply Forall2_impl; [exact Hdec|]. now intros [key data] doc.
    + intros x. unfold absent_keys. rewrite list_elem_of_filter. tauto.
  - intros uuid4 conv h self st shelf pre post k0 cls docs B Hlook Hshelf Hpre Hk0.
    unfold get_many. rewrite Hlook. simpl. rewrite Hshelf. simpl.
    assert (Hne : exists k ks, pre ++ k0 :: post = k :: ks)
      by (destruct pre; simpl; eauto).
    destruct Hne as (k & ks & Hne). rewrite Hne, <- Hne.
    eexists. split; [reflexivity|].
    clear Hne k ks. induction Hpre as [|k doc pre' docs' (data & Hget & Hd) Hrest IH].
    + simpl. unfold shelve_db._get. rewrite Hshelf, Hk0. reflexivity.
    + simpl. unfold shelve_db._get at 1. rewrite Hshelf, Hget. simpl.
      rewrite Hd. now rewrite IH.
Qed.
End BatchFetch.

(** C2, counterexample to the claim as stated.  Neither [a] nor [b] is on
    the shelf; consuming [get_many(['a', 'b'])] with the default
    implementation raises at [a], and the error does not name [b]. *)
Lemma C2_default_fetch_names_first_missing_key_only :
  exists g,
    get_many Fixtures.shelf_backend (Fetching._get_many Fixtures.shelf_backend)
      Fixtures.one_shelf 0 ["a"; "b"] (@Fixtures.note_variant unit) = Ok g
    /\ consume g = ([], Some (KeyError ["a"]))
    /\ absent_keys [] ["a"; "b"] = ["a"; "b"].
Proof. eexists. repeat split. Qed.

Lemma C2_witness :
  exists g,
    get_many Fixtures.mongo_like mongodb._get_many
      (<[0%nat := Fixtures.one_record]> ∅) 0 ["a"; "b"] (@Fixtures.note_variant unit)
    = Ok g
    /\ consume g
       = ([ {| doc_class := Fixtures.Note_cls; _data := [("n", VInt 1)];
               _saved_state :=
                 {| DocumentSavedState.storage := Some 0%nat;
                    DocumentSavedState.key := Some "a";
                    DocumentSavedState.data := Some [("n", VInt 1)] |} |} ],
          Some (KeyError ["b"])).
Proof.
  destruct (proj1 (C2_batch_fetch_reports_missing_keys (Q := unit))
              Fixtures.mongo_like (<[0%nat := Fixtures.one_record]> ∅) 0%nat
              Fixtures.one_record ["a"; "b"] (@Fixtures.note_variant unit)
              [ {| doc_class := Fixtures.Note_cls; _data := [("n", VInt 1)];
                   _saved_state :=
                     {| DocumentSavedState.storage := Some 0%nat;
                        DocumentSavedState.key := Some "a";
                        DocumentSavedState.data := Some [("n", VInt 1)] |} |} ]
              ltac:(apply lookup_insert_eq) eq_refl
              ltac:(repeat constructor; apply not_elem_of_nil)
              ltac:(exists "b"; split;
                    [right; left
                    |intros Hin; apply list_elem_of_singleton in Hin;
                     discriminate])
              ltac:(repeat constructor; vm_compute; reflexivity))
    as (g & Hg & Hc & _).
  exists g. split; [exact Hg|exact Hc].
Defined.

(** ** Queries on a shelf *)

Section ShelfQueries.
Variable uuid4 : nat -> string.
Variable converters : ProcessorManager converter.
Variable lookup_manager : ProcessorManager (lookup_processor shelve_query.check).

Local Abbreviation heap := (gmap nat shelve_db.StorageAdapter).

(** The search depends on the storage, the conditions and the ordering
    only. *)
Lemma do_search_searched (h : heap) (q : shelve_query.QueryAdapter)
    (cursor : list string) :
  shelve_query._do_search h (searched q cursor) = shelve_query._do_search h q.
Proof. reflexivity. Qed.

Lemma query_init_inv (h : heap) (s : nat) (conds : list shelve_query.check)
    (ord : option shelve_query.sort_spec) (q : shelve_query.QueryAdapter) :
  shelve_query.__init__ h s conds ord = Ok q ->
  storage q = s /\ _conditions q = conds /\ _ordering q = ord
  /\ _cache q = [] /\ searches q = 1%nat
  /\ exists cursor, _iter q = Some cursor
                    /\ shelve_query._do_search h q = Ok cursor.
Proof.
  unfold shelve_query.__init__. intros H.
  apply bind_Ok in H as (cursor & Hs & H). injection H as <-.
  repeat split; try reflexivity. exists cursor. split; [reflexivity|].
  exact Hs.
Qed.

(** [where] returns a fresh query whose conditions are those of the
    parent followed by the translated ones; ordering is inherited. *)
Lemma where_appends_conditions (h : heap) (q q' : shelve_query.QueryAdapter)
    (conditions : dict value) :
  shelve_query.where_ uuid4 converters lookup_manager h q conditions = Ok q' ->
  exists translated,
    _get_native_conditions lookup_manager
      (value_to_db (shelve_db.backend uuid4 converters)) conditions false
      = Ok translated
    /\ _conditions q' = _conditions q ++ translated
    /\ _ordering q' = _ordering q
    /\ storage q' = storage q
    /\ _cache q' = [] /\ searches q' = 1%nat.
Proof.
  unfold shelve_query.where_, shelve_query._where, shelve_query.__where.
  intros H. apply bind_Ok in H as (translated & Ht & H).
  unfold shelve_query._clone in H.
  apply query_init_inv in H as (Hs & Hc & Ho & Hca & Hn & _).
  exists translated. simpl in Hc. auto 10.
Qed.

(** [order_by] returns a fresh query with the parent's conditions and the
    names in reverse. *)
Lemma order_by_keeps_conditions (h : heap) (q q' : shelve_query.QueryAdapter)
    (names : list string) (reverse : bool) :
  shelve_query.order_by h q names reverse = Ok q' ->
  _conditions q' = _conditions q
  /\ _ordering q' = Some {| shelve_query.names := rev names;
                            shelve_query.reverse := reverse |}
  /\ storage q' = storage q
  /\ _cache q' = [] /\ searches q' = 1%nat.
Proof.
  unfold shelve_query.order_by, shelve_query._clone. intros H.
  apply query_init_inv in H as (Hs & Hc & Ho & Hca & Hn & _).
  simpl in Hc. rewrite app_nil_r in Hc. auto.
Qed.

(** [where_not] raises whatever it is given. *)
Lemma where_not_raises (h : heap) (q : shelve_query.QueryAdapter)
    (conditions : dict value) :
  shelve_query.where_not uuid4 converters lookup_manager h q conditions
  = Raise TypeError.
Proof. reflexivity. Qed.

(** *** Iteration *)

Lemma prepare_items_length {Q Raw Item : Type}
    (prep : Q -> Raw -> result Item) (q : Q) (raws : list Raw) :
  forall items, data_structures.prepare_items prep q raws = Ok items ->
    length items = length raws.
Proof.
  induction raws as [|raw rest IH]; simpl; intros items H.
  - now injection H as <-.
  - apply bind_Ok in H as (item & _ & H).
    apply bind_Ok in H as (items' & Hrest & H). injection H as <-.
    simpl. now rewrite (IH _ Hrest).
Qed.

(** As long as the consumers stop before the cursor is seen exhausted, a
    shelf query never searches again: the cursor stays open, the cache only
    grows at its end, and what is yielded is the head of the cache. *)
Lemma iterate_before_exhaustion (h : heap)
    (cls : Variant shelve_query.QueryAdapter) (q q' : shelve_query.QueryAdapter)
    (cursor : list string) (n : nat) (items : list Document) :
  _iter q = Some cursor ->
  (n - length (_cache q) <= length cursor)%nat ->
  shelve_query.iterate uuid4 converters h cls (Some n) q = Ok (items, q') ->
  searches q' = searches q
  /\ (exists rest, _iter q' = Some rest)
  /\ (exists new, _cache q' = _cache q ++ new)
  /\ items = take n (_cache q').
Proof.
  intros Hiter Hle H.
  unfold shelve_query.iterate, data_structures.iterate,
    shelve_query._prepare in H.
  rewrite Hiter in H. simpl in H. rewrite Hiter in H.
  destruct (n - length (_cache q))%nat as [|w] eqn:Hw.
  - injection H as <- <-. split; [reflexivity|]. split; [eauto|].
    split; [exists []; now rewrite app_nil_r | reflexivity].
  - apply bind_Ok in H as (new & Hnew & H). injection H as <- <-.
    apply prepare_items_length in Hnew. rewrite length_take in Hnew.
    simpl. split; [reflexivity|].
    split; [destruct (decide _); [eauto | contradiction]|].
    split; [eauto|].
    rewrite take_ge; [reflexivity|]. rewrite length_app. lia.
Qed.

(** *** [get_or_create] *)

Let B : Backend shelve_db.StorageAdapter := shelve_db.backend uuid4 converters.

Lemma init_items_saved_state {Q : Type} (m : DocumentMetadata Q)
    (kw : dict value) :
  forall d d', init_items m d kw = Ok d' -> _saved_state d' = _saved_state d.
Proof.
  induction kw as [|[k v] rest IH]; simpl; intros d d' H.
  - now injection H as <-.
  - destruct (__setitem__ m d k v) as [d1|e] eqn:E.
    + apply setitem_inv in E as (_ & _ & _ & Ess & _).
      rewrite (IH _ _ H). exact Ess.
    + destruct e; try discriminate.
      destruct (break_on_invalid_incoming_data m); [discriminate|].
      now apply IH.
Qed.

Lemma doc_init_saved_state {Q : Type} (cls : Variant Q) (kw : dict value)
    (d : Document) :
  document_base.__init__ cls kw = Ok d ->
  _saved_state d = DocumentSavedState.init.
Proof.
  unfold document_base.__init__. intros H.
  apply bind_Ok in H as (d0 & Hi & H).
  apply bind_Ok in H as (_ & _ & H). injection H as <-.
  now rewrite (init_items_saved_state _ _ _ _ Hi).
Qed.

(** Saving without a key on a shelf draws the next identifier. *)
Lemma shelf_save_fresh (st st' : shelve_db.StorageAdapter)
    (shelf : dict (dict value)) (data : dict value) (k : string) :
  shelve_db.connection st = Some shelf ->
  BaseStorageAdapter.save B st None data = Ok (st', k) ->
  String.eqb k "" = false
  /\ exists outgoing,
       shelve_db.connection st' = Some (dict_set k outgoing shelf).
Proof.
  intros Hshelf H.
  apply adapter_save_inv in H as (Hne & outgoing & H).
  split; [exact Hne|]. exists outgoing.
  unfold B in H. simpl in H.
  unfold shelve_db._save, shelve_db._generate_uid in H.
  rewrite Hshelf in H. simpl in H.
  destruct (dict_has (uuid4 (shelve_db.drawn st)) shelf); [discriminate|].
  simpl in H. now injection H as <- <-.
Qed.

(** A stable sort of one element. *)
Lemma search_one_record (h : heap) (q : shelve_query.QueryAdapter)
    (st : shelve_db.StorageAdapter) (k : string) (record : dict value) :
  h !! storage q = Some st ->
  shelve_db.connection st = Some [(k, record)] ->
  forallb (fun c : shelve_query.check => c record) (_conditions q) = true ->
  shelve_query._do_search h q = Ok [k].
Proof.
  intros Hlook Hshelf Hall. unfold shelve_query._do_search.
  rewrite Hlook, Hshelf. unfold shelve_query.finder.
  rewrite filter_cons_True by exact Hall. rewrite filter_nil.
  now destruct (_ordering q).
Qed.

(** The first element of a query that has not been read yet. *)
Lemma getitem_first (h : heap) (cls : Variant shelve_query.QueryAdapter)
    (q : shelve_query.QueryAdapter) (k : string) (ks : list string)
    (d : Document) :
  _iter q = Some (k :: ks) -> _cache q = [] ->
  Fetching.get B h (storage q) k cls = Ok d ->
  exists q', shelve_query.__getitem__ uuid4 converters h cls 0 q = Ok (d, q').
Proof.
  intros Hiter Hcache Hget.
  unfold shelve_query.__getitem__, data_structures.__getitem__,
    data_structures.iterate, shelve_query._prepare.
  rewrite Hiter. simpl. rewrite Hiter, Hcache. simpl.
  unfold shelve_query._prepare_item. unfold B in Hget.
  rewrite Hget. simpl. eauto.
Qed.

Lemma condition_query_fresh (h : heap) (self : nat)
    (cls : Variant shelve_query.QueryAdapter) (conditions : dict value)
    (q : shelve_query.QueryAdapter) :
  shelve_query.condition_query uuid4 converters lookup_manager h self cls
    conditions = Ok q ->
  _cache q = []
  /\ exists cursor, _iter q = Some cursor
                    /\ shelve_query._do_search h q = Ok cursor.
Proof.
  unfold shelve_query.condition_query. intros H.
  apply bind_Ok in H as (found & _ & H).
  unfold shelve_query.where_, shelve_query._where, shelve_query.__where in H.
  apply bind_Ok in H as (translated & _ & H).
  unfold shelve_query._clone in H.
  apply query_init_inv in H as (_ & _ & _ & Hc & _ & Hi). auto.
Qed.

Lemma get_or_create_unfold (h : heap) (self : nat)
    (st : shelve_db.StorageAdapter)
    (cls : Variant shelve_query.QueryAdapter) (conditions : dict value)
    (q : shelve_query.QueryAdapter) (found : list string) :
  conditions <> [] ->
  h !! self = Some st -> connected B st = true ->
  shelve_query.condition_query uuid4 converters lookup_manager h self cls
    conditions = Ok q ->
  shelve_query._do_search h q = Ok found ->
  shelve_query.get_or_create uuid4 converters lookup_manager h self cls
    conditions
  = match found with
    | [] =>
        obj ← document_base.__init__ cls conditions;
        '(h', obj', _) ← document_base.save B (meta cls) h obj
                           (Some self) false;
        Ok (h', obj', true)
    | _ :: _ =>
        '(doc, _) ← shelve_query.__getitem__ uuid4 converters h cls 0 q;
        Ok (h, doc, false)
    end.
Proof.
  intros Hne Hlook Hconn Hq Hs.
  unfold shelve_query.get_or_create.
  destruct conditions as [|c cs]; [contradiction|].
  rewrite Hlook. fold B. rewrite Hconn. simpl.
  rewrite Hq. simpl.
  unfold shelve_query.count. rewrite Hs. simpl.
  now destruct found.
Qed.

(** The saved state after a write to a connected storage. *)
Lemma update_after_write (h : heap) (self : nat)
    (st : shelve_db.StorageAdapter) (shelf : dict (dict value))
    (ss : DocumentSavedState.t) (k : string) (data : dict value) :
  h !! self = Some st -> shelve_db.connection st = Some shelf ->
  String.eqb k "" = false ->
  DocumentSavedState.update B h ss (Some self) (Some k) (Some data)
  = {| DocumentSavedState.storage := Some self;
       DocumentSavedState.key := Some k;
       DocumentSavedState.data := Some data |}.
Proof.
  intros Hlook Hshelf Hk. unfold DocumentSavedState.update.
  simpl. rewrite Hlook. simpl. rewrite Hshelf, Hk. reflexivity.
Qed.

(** C9, as the code has it.  On a connected shelf and for non-empty
    conditions: when the condition query finds a record, [get_or_create]
    returns the first one found with [created = False] and leaves the
    storage alone; when it finds none, the outcome is that of constructing
    a document from the conditions and saving it, with [created = True].
    On an empty shelf a successful call therefore leaves exactly one
    record, to which the returned document is bound; and a second call
    with the same conditions returns that record with [created = False]
    provided the record as saved satisfies the conditions of the query. *)
Theorem C9_get_or_create_on_a_shelf (h : heap) (self : nat)
    (st : shelve_db.StorageAdapter)
    (cls : Variant shelve_query.QueryAdapter) (conditions : dict value)
    (q : shelve_query.QueryAdapter) :
  conditions <> [] ->
  h !! self = Some st -> connected B st = true ->
  shelve_query.condition_query uuid4 converters lookup_manager h self cls
    conditions = Ok q ->
  (forall k ks d,
     shelve_query._do_search h q = Ok (k :: ks) ->
     Fetching.get B h (storage q) k cls = Ok d ->
     shelve_query.get_or_create uuid4 converters lookup_manager h self cls
       conditions = Ok (h, d, false))
  /\ (shelve_query._do_search h q = Ok [] ->
      shelve_query.get_or_create uuid4 converters lookup_manager h self cls
        conditions
      = (obj ← document_base.__init__ cls conditions;
         '(h', obj', _) ← document_base.save B (meta cls) h obj
                            (Some self) false;
         Ok (h', obj', true)))
  /\ (shelve_db.connection st = Some [] -> storage q = self ->
      forall h1 d1 created,
        shelve_query.get_or_create uuid4 converters lookup_manager h self cls
          conditions = Ok (h1, d1, created) ->
        created = true
        /\ exists k1 record st1,
             pk d1 = Some k1
             /\ DocumentSavedState.storage (_saved_state d1) = Some self
             /\ h1 = <[self := st1]> h
             /\ shelve_db.connection st1 = Some [(k1, record)]
             /\ forall q2 d2,
                  shelve_query.condition_query uuid4 converters
                    lookup_manager h1 self cls conditions = Ok q2 ->
                  storage q2 = self ->
                  forallb (fun c : shelve_query.check => c record)
                          (_conditions q2) = true ->
                  from_storage B cls h1 self k1 record = Ok d2 ->
                  shelve_query.get_or_create uuid4 converters lookup_manager
                    h1 self cls conditions = Ok (h1, d2, false)
                  /\ pk d2 = Some k1
                  /\ DocumentSavedState.storage (_saved_state d2)
                     = Some self).
Proof.
  intros Hne Hlook Hconn Hq. split; [|split].
  - intros k ks d Hs Hget.
    rewrite (get_or_create_unfold _ _ _ _ _ _ _ Hne Hlook Hconn Hq Hs).
    destruct (condition_query_fresh _ _ _ _ _ Hq) as (Hcache & cursor & Hiter & Hs').
    rewrite Hs in Hs'. injection Hs' as <-.
    destruct (getitem_first h cls q k ks d Hiter Hcache Hget) as (q' & ->).
    reflexivity.
  - intros Hs. apply (get_or_create_unfold _ _ _ _ _ _ _ Hne Hlook Hconn Hq Hs).
  - intros Hshelf Hstorage h1 d1 created H.
    assert (Hs : shelve_query._do_search h q = Ok []).
    { unfold shelve_query._do_search. rewrite Hstorage, Hlook, Hshelf.
      simpl. now destruct (_ordering q). }
    rewrite (get_or_create_unfold _ _ _ _ _ _ _ Hne Hlook Hconn Hq Hs) in H.
    apply bind_Ok in H as (obj & Hinit & H).
    apply bind_Ok in H as ([[h' obj'] k1] & Hsave & H).
    injection H as <- <- <-. split; [reflexivity|].
    apply save_inv in Hsave
      as (target & doc1 & data & Ht & Hfill & _ & Hsat & _ & Hss).
    simpl in Ht. rewrite Hlook in Ht. unfold B in Hconn. simpl in Hconn.
    simpl in Ht. rewrite Hconn in Ht. injection Ht as <-.
    unfold save_at in Hsat. rewrite Hlook in Hsat.
    apply bind_Ok in Hsat as ([st1 k'] & Hsv & Hsat).
    injection Hsat as <- <-.
    assert (Hpass : key_to_pass doc1 self false = None).
    { unfold key_to_pass. simpl.
      rewrite (fill_defaults_saved_state _ _ _ _ Hfill),
              (doc_init_saved_state _ _ _ Hinit). reflexivity. }
    rewrite Hpass in Hsv.
    destruct (shelf_save_fresh _ _ _ _ _ Hshelf Hsv) as (Hk & outgoing & Hst1).
    simpl in Hst1.
    assert (Hlook1 : <[self := st1]> h !! self = Some st1)
      by apply lookup_insert_eq.
    exists k', outgoing, st1.
    rewrite (update_after_write _ _ _ _ _ _ _ Hlook1 Hst1 Hk) in Hss.
    unfold pk. rewrite Hss. simpl.
    split; [reflexivity|]. split; [reflexivity|].
    split; [reflexivity|]. split; [exact Hst1|].
    intros q2 d2 Hq2 Hst2 Hall Hfs.
    assert (Hc1 : connected B st1 = true)
      by (unfold B; simpl; now rewrite Hst1).
    assert (Hs2 : shelve_query._do_search (<[self := st1]> h) q2 = Ok [k']).
    { apply (search_one_record _ _ st1 k' outgoing); try assumption.
      now rewrite Hst2. }
    split.
    + rewrite (get_or_create_unfold _ _ _ _ _ _ _ Hne Hlook1 Hc1 Hq2 Hs2).
      destruct (condition_query_fresh _ _ _ _ _ Hq2)
        as (Hcache & cursor & Hiter & Hs').
      rewrite Hs2 in Hs'. injection Hs' as <-.
      assert (Hget : Fetching.get B (<[self := st1]> h) (storage q2)
                       k' cls = Ok d2).
      { unfold Fetching.get. rewrite Hst2, Hlook1, Hc1. simpl.
        unfold shelve_db._get. rewrite Hst1. simpl.
        rewrite String.eqb_refl. simpl. exact Hfs. }
      destruct (getitem_first _ cls q2 k' [] d2 Hiter Hcache Hget) as (q' & ->).
      reflexivity.
    + unfold from_storage in Hfs.
      apply bind_Ok in Hfs as (pd & _ & Hfs).
      apply bind_Ok in Hfs as (inst & _ & Hfs). injection Hfs as <-. simpl.
      rewrite (update_after_write _ _ _ _ _ _ _ Hlook1 Hst1 Hk). auto.
Qed.

End ShelfQueries.

(** C3 (code defect; [CachedIterator] is modelled).  A query over a shelf
    holding one record is listed twice.  The first listing yields the
    record and exhausts the cursor; the second one finds [_iter] empty,
    searches again and appends to the cache, so it yields the record
    twice and the object has searched twice. *)
Theorem C3_shelf_query_relists_after_exhaustion :
  exists q q1 q2,
    shelve_query.find Fixtures.uid Fixtures.store_all Fixtures.shelf_lookups
      Fixtures.shelf_r1 0 (@Fixtures.note_variant shelve_query.QueryAdapter) [] = Ok q
    /\ shelve_query.iterate Fixtures.uid Fixtures.store_all Fixtures.shelf_r1
         (@Fixtures.note_variant shelve_query.QueryAdapter) None q = Ok ([Fixtures.doc_r1], q1)
    /\ _iter q1 = None /\ searches q1 = 1%nat
    /\ shelve_query.iterate Fixtures.uid Fixtures.store_all Fixtures.shelf_r1
         (@Fixtures.note_variant shelve_query.QueryAdapter) None q1
       = Ok ([Fixtures.doc_r1; Fixtures.doc_r1], q2)
    /\ searches q2 = 2%nat.
Proof.
  eexists _, _, _.
  split; [vm_compute; reflexivity|].
  split; [vm_compute; reflexivity|].
  split; [reflexivity|]. split; [reflexivity|].
  split; [vm_compute; reflexivity|]. reflexivity.
Qed.

(** C7 (code defect).  On a shelf query, [where] appends the translated
    condition and returns a new query, but [where_not] with the same
    condition raises [TypeError]: it hands its conditions to [_where] as a
    positional argument. *)
Theorem C7_shelf_where_not_raises :
  exists q q',
    shelve_query.find Fixtures.uid Fixtures.store_all Fixtures.shelf_lookups
      Fixtures.shelf_r1 0 (@Fixtures.note_variant shelve_query.QueryAdapter) [] = Ok q
    /\ shelve_query.where_ Fixtures.uid Fixtures.store_all
         Fixtures.shelf_lookups Fixtures.shelf_r1 q [("n", VInt 1)] = Ok q'
    /\ length (_conditions q') = S (length (_conditions q))
    /\ shelve_query.where_not Fixtures.uid Fixtures.store_all
         Fixtures.shelf_lookups Fixtures.shelf_r1 q [("n", VInt 1)]
       = Raise TypeError.
Proof.
  eexists _, _.
  split; [vm_compute; reflexivity|].
  split; [vm_compute; reflexivity|].
  split; reflexivity.
Qed.

(** C8 (code defect; [LazySorted] is modelled as a stable sort by key).
    Two records, [r1] with [a = 1, b = 2] and [r2] with [a = 2, b = 1], are
    ordered by [['a', 'b']].  [order_by] reverses the names, the sort key of
    a record lists [b] first, and the search yields [r2] before [r1]: the
    last name given decides.  With [a] deciding, [r1] would come first. *)
Theorem C8_shelf_order_by_last_name_dominates :
  exists q q',
    shelve_query.find Fixtures.uid Fixtures.store_all Fixtures.shelf_lookups
      Fixtures.shelf_ab 0 (@Fixtures.note_variant shelve_query.QueryAdapter) [] = Ok q
    /\ shelve_query.order_by Fixtures.shelf_ab q ["a"; "b"] false = Ok q'
    /\ _ordering q' = Some {| shelve_query.names := ["b"; "a"];
                              shelve_query.reverse := false |}
    /\ shelve_query._do_search Fixtures.shelf_ab q = Ok ["r1"; "r2"]
    /\ shelve_query._do_search Fixtures.shelf_ab q' = Ok ["r2"; "r1"]
    /\ _iter q' = Some ["r2"; "r1"]
    /\ data_structures.LazySorted
         (shelve_query.make_sort_key
            [("r1", [("a", VInt 1); ("b", VInt 2)]);
             ("r2", [("a", VInt 2); ("b", VInt 1)])]
            {| shelve_query.names := ["a"; "b"];
               shelve_query.reverse := false |})
         false ["r2"; "r1"] = ["r1"; "r2"].
Proof.
  eexists _, _.
  split; [vm_compute; reflexivity|].
  split; [vm_compute; reflexivity|].
  repeat split; vm_compute; reflexivity.
Qed.

(** C9, counterexample to the claim as stated.  The class declares
    [email] an [int]; the condition [email = "x@y.com"] fails validation
    when the document is constructed and the field stays unset.  On an
    empty shelf the first call saves a record that does not satisfy the
    condition, and the second call with the same condition creates a
    second record instead of returning the first. *)
Lemma C9_second_call_creates_again :
  exists h1 d1 h2 d2 st2 shelf2,
    shelve_query.get_or_create Fixtures.uid Fixtures.store_all
      Fixtures.shelf_lookups Fixtures.one_shelf 0
      (@Fixtures.account_variant shelve_query.QueryAdapter)
      [("email", VStr "x@y.com")] = Ok (h1, d1, true)
    /\ shelve_query.get_or_create Fixtures.uid Fixtures.store_all
         Fixtures.shelf_lookups h1 0
         (@Fixtures.account_variant shelve_query.QueryAdapter)
         [("email", VStr "x@y.com")] = Ok (h2, d2, true)
    /\ pk d1 = Some "uid-0" /\ pk d2 = Some "uid-1"
    /\ h2 !! 0%nat = Some st2
    /\ shelve_db.connection st2 = Some shelf2
    /\ length shelf2 = 2%nat.
Proof.
  eexists _, _, _, _, _, _.
  split; [vm_compute; reflexivity|].
  split; [vm_compute; reflexivity|].
  split; [reflexivity|]. split; [reflexivity|].
  split; [vm_compute; reflexivity|].
  split; reflexivity.
Qed.

Lemma C9_witness :
  Fixtures.first_created.2 = true
  /\ exists k1 record st1,
       pk Fixtures.first_created.1.2 = Some k1
       /\ Fixtures.first_created.1.1 = <[0%nat := st1]> Fixtures.one_shelf
       /\ shelve_db.connection st1 = Some [(k1, record)].
Proof.
  destruct (proj2 (proj2
              (C9_get_or_create_on_a_shelf Fixtures.uid Fixtures.store_all
                 Fixtures.shelf_lookups Fixtures.one_shelf 0%nat
                 Fixtures.empty_shelf
                 (@Fixtures.note_variant shelve_query.QueryAdapter)
                 [("email", VStr "x")] Fixtures.email_query
                 ltac:(discriminate) ltac:(apply lookup_insert_eq) eq_refl
                 ltac:(vm_compute; reflexivity)))
              eq_refl ltac:(vm_compute; reflexivity)
              Fixtures.first_created.1.1 Fixtures.first_created.1.2
              Fixtures.first_created.2 ltac:(vm_compute; reflexivity))
    as (Hc & k1 & record & st1 & Hpk & _ & Hh & Hconn & _).
  split; [exact Hc|]. exists k1, record, st1. auto.
Defined.

(** The example of the specification, run: on an empty shelf the call
    creates one record; repeated, it returns that record. *)
Example get_or_create_twice :
  exists h1 d1 d2,
    shelve_query.get_or_create Fixtures.uid Fixtures.store_all
      Fixtures.shelf_lookups Fixtures.one_shelf 0
      (@Fixtures.note_variant shelve_query.QueryAdapter)
      [("email", VStr "x@y.com")] = Ok (h1, d1, true)
    /\ shelve_query.get_or_create Fixtures.uid Fixtures.store_all
         Fixtures.shelf_lookups h1 0
         (@Fixtures.note_variant shelve_query.QueryAdapter)
         [("email", VStr "x@y.com")] = Ok (h1, d2, false)
    /\ pk d1 = Some "uid-0" /\ pk d2 = Some "uid-0".
Proof.
  eexists _, _, _.
  split; [vm_compute; reflexivity|].
  split; [vm_compute; reflexivity|].
  split; reflexivity.
Qed.

(** With the guard of the MongoDB [_prepare] in place of the shelf's, the
    same two listings agree and the search runs once. *)
Example relisting_with_the_cache_guard :
  let search := shelve_query._do_search Fixtures.shelf_r1 in
  let relist :=
    data_structures.iterate _iter set_iter _cache set_cache
      (mongodb_query._prepare search)
      (shelve_query._prepare_item Fixtures.uid Fixtures.store_all
         Fixtures.shelf_r1 (@Fixtures.note_variant shelve_query.QueryAdapter))
      None in
  exists q q1,
    shelve_query.find Fixtures.uid Fixtures.store_all Fixtures.shelf_lookups
      Fixtures.shelf_r1 0 (@Fixtures.note_variant shelve_query.QueryAdapter) []
    = Ok q
    /\ relist q = Ok ([Fixtures.doc_r1], q1)
    /\ relist q1 = Ok ([Fixtures.doc_r1], q1)
    /\ searches q1 = 1%nat.
Proof.
  eexists _, _.
  split; [vm_compute; reflexivity|].
  split; [vm_compute; reflexivity|].
  split; [vm_compute; reflexivity|]. reflexivity.
Qed.

(* ===================================================================== *)
(** * Part III. Further properties of the code                            *)
(* ===================================================================== *)

(** ** Registries *)

Section RegistryLaws.
Context {P : Type}.

(** X1.  A processor that was registered is the one found under its key; the
    key cannot be registered again; unregistering gives the processor back
    and restores the table, where the key is then unknown.  A processor
    registered as default stays the fallback after it is unregistered. *)
Theorem register_lookup_unregister (m m' : ProcessorManager P)
    (key : string) (as_default : bool) (p : P) :
  register m key as_default p = Ok m' ->
  get_processor_for m' true key = Ok p
  /\ (forall k, k <> key ->
        get_processor_for m' true k = get_processor_for m true k)
  /\ (forall d' p', register m' key d' p' = Raise RuntimeError)
  /\ (exists m'', unregister m' key = Ok (p, m'')
        /\ processors m'' = processors m
        /\ get_processor_for m'' true key
           = Raise (DataProcessorDoesNotExist key)
        /\ (as_default = true ->
              get_processor_for m' false "" = Ok p
              /\ get_processor_for m'' false "" = Ok p)).
Proof.
  unfold register. intros H.
  destruct (processors m !! key) eqn:Hnone; [discriminate|].
  injection H as <-. unfold get_processor_for, unregister. simpl.
  rewrite lookup_insert_eq.
  split; [reflexivity|].
  split; [intros k Hk; now rewrite lookup_insert_ne by congruence|].
  split; [reflexivity|].
  eexists. split; [reflexivity|]. simpl.
  rewrite delete_insert_eq, delete_id by exact Hnone.
  split; [reflexivity|]. rewrite Hnone.
  split; [reflexivity|]. intros ->. auto.
Qed.

(** Unregistering an unknown key fails and says so. *)
Lemma unregister_unknown (m : ProcessorManager P) (key : string) :
  processors m !! key = None ->
  unregister m key = Raise (DataProcessorDoesNotExist "").
Proof. unfold unregister. now intros ->. Qed.
End RegistryLaws.

Lemma register_lookup_unregister_witness :
  exists m' : ProcessorManager converter,
    register manager_init "int" true Fixtures.plain = Ok m'
    /\ get_processor_for m' true "int" = Ok Fixtures.plain.
Proof.
  eexists. split; [reflexivity|].
  apply (register_lookup_unregister manager_init _ "int" true Fixtures.plain).
  reflexivity.
Defined.

Section PickProcessor.
Variable m : ProcessorManager converter.

Lemma get_processor_errors (x : datatype) (e : exn) :
  ConverterManager.get_processor m x = Raise e ->
  e = TypeError \/ exists s, e = DataProcessorDoesNotExist s.
Proof.
  unfold ConverterManager.get_processor, ConverterManager._preprocess_key,
    get_processor_for.
  destruct x as [c|c|path]; simpl.
  - destruct (issubclass c Document_cls); simpl;
      destruct (processors m !! _); intros H; try discriminate;
      injection H as <-; eauto.
  - destruct (processors m !! _); intros H; try discriminate.
    injection H as <-; eauto.
  - intros H. injection H as <-. auto.
Qed.

Lemma pick_loop_all_fail (x : datatype) (bases : list string) :
  Py.is_ok (ConverterManager.get_processor m x) = false ->
  ConverterManager.pick_loop m x bases
  = Raise (DataProcessorDoesNotExist (datatype_str x)).
Proof.
  intros Hfail. induction bases as [|b rest IH]; simpl; [reflexivity|].
  destruct (ConverterManager.get_processor m x) as [p|e] eqn:E;
    [discriminate|].
  destruct (get_processor_errors _ _ E) as [-> | [s ->]]; auto.
Qed.

(** X2.  [_pick_processor] answers exactly as one call of [get_processor] for
    the datatype does: the same processor when there is one, and otherwise
    always the converter-missing error naming the datatype, also when the
    lookup itself broke with [TypeError]. *)
Theorem pick_processor_is_one_lookup (x : datatype) :
  match ConverterManager.get_processor m x with
  | Ok p => ConverterManager._pick_processor m x = Ok p
  | Raise _ =>
      ConverterManager._pick_processor m x
      = Raise (DataProcessorDoesNotExist (datatype_str x))
  end.
Proof.
  unfold ConverterManager._pick_processor.
  destruct (ConverterManager.get_processor m x) as [p|e] eqn:E.
  - assert (Hb : exists b rest, ConverterManager.bases_of x = b :: rest)
      by (destruct x as [c|c|path]; simpl; try destruct c; eauto).
    destruct Hb as (b & rest & ->).
    cbn [ConverterManager.pick_loop]. now rewrite E.
  - apply pick_loop_all_fail. now rewrite E.
Qed.
End PickProcessor.

(** ** The shelf as a store of records *)

Lemma dict_has_true {V : Type} (k : string) (d : dict V) :
  dict_has k d = true <-> exists v, dict_get k d = Some v.
Proof.
  unfold dict_has. destruct (dict_get k d); split; eauto; try discriminate.
  intros [v H]; discriminate.
Qed.

Lemma dict_get_elem {V : Type} (k : string) (v : V) (d : dict V) :
  dict_get k d = Some v -> k ∈ d.*1.
Proof.
  induction d as [|[k' v'] rest IH]; simpl; [discriminate|].
  destruct (String.eqb_spec k k') as [->|Hne]; intros H.
  - apply elem_of_cons; auto.
  - apply elem_of_cons; auto.
Qed.

Lemma dict_get_not_elem {V : Type} (k : string) (d : dict V) :
  k ∉ d.*1 -> dict_get k d = None.
Proof.
  intros Hn. destruct (dict_get k d) eqn:E; [|reflexivity].
  exfalso. eauto using dict_get_elem.
Qed.

Lemma dict_set_keys {V : Type} (k : string) (v : V) (d : dict V) :
  (dict_set k v d).*1 = if dict_has k d then d.*1 else d.*1 ++ [k].
Proof.
  unfold dict_has.
  induction d as [|[k' v'] rest IH]; cbn [dict_set dict_get];
    [reflexivity|].
  destruct (String.eqb_spec k k') as [->|Hne]; [reflexivity|].
  rewrite fmap_cons, IH. now destruct (dict_get k rest).
Qed.

Lemma dict_set_NoDup {V : Type} (k : string) (v : V) (d : dict V) :
  NoDup d.*1 -> NoDup (dict_set k v d).*1.
Proof.
  intros Hd. rewrite dict_set_keys. destruct (dict_has k d) eqn:E; [done|].
  apply NoDup_app. split; [done|]. split; [|apply NoDup_singleton].
  intros x Hx Hk. apply list_elem_of_singleton in Hk as ->.
  assert (dict_has k d = true); [|congruence].
  apply dict_has_true. clear E Hd.
  induction d as [|[k' v'] rest IH]; simpl in *; [inversion Hx|].
  destruct (String.eqb_spec k k'); eauto.
  apply elem_of_cons in Hx as [?|?]; [contradiction | eauto].
Qed.

Lemma dict_get_del_ne {V : Type} (k k0 : string) (d : dict V) :
  k0 <> k -> dict_get k0 (dict_del k d) = dict_get k0 d.
Proof.
  intros Hne. induction d as [|[k' v'] rest IH]; simpl; [reflexivity|].
  destruct (String.eqb_spec k k') as [->|Hkk']; simpl.
  - destruct (String.eqb_spec k0 k'); [contradiction | reflexivity].
  - now rewrite IH.
Qed.

Lemma dict_del_keys_sub {V : Type} (k x : string) (d : dict V) :
  x ∈ (dict_del k d).*1 -> x ∈ d.*1.
Proof.
  induction d as [|[k' v'] rest IH]; simpl; [auto|].
  destruct (String.eqb k k'); simpl; rewrite !elem_of_cons; intuition.
Qed.

Lemma dict_del_NoDup {V : Type} (k : string) (d : dict V) :
  NoDup d.*1 -> NoDup (dict_del k d).*1.
Proof.
  induction d as [|[k' v'] rest IH]; simpl; [auto|].
  rewrite NoDup_cons. intros [Hk Hr].
  destruct (String.eqb k k'); simpl; [done|].
  apply NoDup_cons. split; [|auto].
  intros Hin. apply Hk. eauto using dict_del_keys_sub.
Qed.

Lemma dict_get_del_eq {V : Type} (k : string) (d : dict V) :
  NoDup d.*1 -> dict_get k (dict_del k d) = None.
Proof.
  induction d as [|[k' v'] rest IH]; simpl; [auto|].
  rewrite NoDup_cons. intros [Hk Hr].
  destruct (String.eqb_spec k k') as [->|Hne]; simpl.
  - now apply dict_get_not_elem.
  - destruct (String.eqb_spec k k'); [contradiction | auto].
Qed.

Lemma prepare_data_keys {S : Type} (B : Backend S) (data out : dict value) :
  _prepare_data_for_saving B data = Ok out -> out.*1 = data.*1.
Proof.
  revert out. induction data as [|[k v] rest IH]; simpl; intros out H.
  - now injection H as <-.
  - apply bind_Ok in H as (v' & _ & H).
    apply bind_Ok in H as (rest' & Hr & H). injection H as <-.
    simpl. f_equal. auto.
Qed.

Section ShelfStorage.
Variable uuid4 : nat -> string.
Variable converters : ProcessorManager converter.

Local Abbreviation B := (shelve_db.backend uuid4 converters).

Lemma shelf_save_inv (st st' : shelve_db.StorageAdapter)
    (key : option string) (data : dict value) (k : string) :
  BaseStorageAdapter.save B st key data = Ok (st', k) ->
  exists shelf outgoing,
    shelve_db.connection st = Some shelf
    /\ _prepare_data_for_saving B data = Ok outgoing
    /\ k <> ""
    /\ shelve_db.connection st' = Some (dict_set k outgoing shelf)
    /\ (if DocumentSavedState.key_truthy key
        then key = Some k /\ shelve_db.drawn st' = shelve_db.drawn st
        else k = uuid4 (shelve_db.drawn st)
             /\ dict_get k shelf = None
             /\ shelve_db.drawn st' = S (shelve_db.drawn st)).
Proof.
  unfold BaseStorageAdapter.save. simpl.
  destruct (shelve_db.connection st) as [shelf|] eqn:Hc; simpl;
    [|discriminate].
  intros H. apply bind_Ok in H as (outgoing & Hout & H).
  apply bind_Ok in H as ([st1 k1] & Hs & H).
  destruct (String.eqb_spec k1 ""); [discriminate|]. injection H as <- <-.
  exists shelf, outgoing. split; [reflexivity|]. split; [exact Hout|].
  split; [assumption|].
  unfold shelve_db._save in Hs.
  assert (Hgen : forall r,
    shelve_db._generate_uid uuid4 st = Ok r ->
    r = ({| shelve_db.connection := Some shelf;
            shelve_db.drawn := S (shelve_db.drawn st) |},
         uuid4 (shelve_db.drawn st))
    /\ dict_get (uuid4 (shelve_db.drawn st)) shelf = None).
  { intros r. unfold shelve_db._generate_uid. rewrite Hc. unfold dict_has.
    destruct (dict_get _ shelf); [discriminate|].
    intros Hr. injection Hr as <-. auto. }
  apply bind_Ok in Hs as ([self1 key1] & Hk & Hs).
  destruct key as [k0|]; simpl.
  - destruct (String.eqb_spec k0 "") as [->|Hne]; simpl.
    + apply Hgen in Hk as [Hk Hfresh]. injection Hk as -> ->.
      simpl in Hs. injection Hs as <- <-. simpl. auto.
    + injection Hk as <- <-. rewrite Hc in Hs. injection Hs as <- <-.
      simpl. auto.
  - apply Hgen in Hk as [Hk Hfresh]. injection Hk as -> ->.
    simpl in Hs. injection Hs as <- <-. simpl. auto.
Qed.

(** X3.  What [save] stored is what [_get] returns under the returned key:
    the given fields, in their order, each value being what [to_db] of the
    converter registry makes of the value given.  No other record of the
    shelf is touched, and the key is never empty. *)
Theorem shelf_save_then_get (st st' : shelve_db.StorageAdapter)
    (key : option string) (data : dict value) (k : string) :
  BaseStorageAdapter.save B st key data = Ok (st', k) ->
  k <> ""
  /\ (exists outgoing,
        Forall2 (fun field converted =>
                   converted.1 = field.1
                   /\ ConverterManager.to_db_ converters field.2
                      = Ok converted.2)
                data outgoing
        /\ shelve_db._get st' k = Ok outgoing)
  /\ (forall k', k' <> k -> shelve_db._get st' k' = shelve_db._get st k').
Proof.
  intros H.
  apply shelf_save_inv in H as (shelf & out & Hc & Hout & Hk & Hc' & _).
  split; [exact Hk|]. split.
  - exists out. split; [exact (prepare_data_converts B _ _ Hout)|].
    unfold shelve_db._get. now rewrite Hc', dict_get_set_eq.
  - intros k' Hne. unfold shelve_db._get.
    now rewrite Hc, Hc', dict_get_set_ne.
Qed.

(** X4.  The key under which [save] stores: a key that was given (and is not
    empty) is used as it is and the record under it is replaced, so the
    shelf does not grow; otherwise the next identifier is drawn, it was not
    in use, and the shelf grows by exactly one record. *)
Theorem shelf_save_key_policy (st st' : shelve_db.StorageAdapter)
    (key : option string) (data : dict value) (k : string) :
  BaseStorageAdapter.save B st key data = Ok (st', k) ->
  exists n present,
    shelve_crud.__len__ st = Ok n
    /\ shelve_crud.__contains__ st k = Ok present
    /\ shelve_crud.__len__ st' = Ok (if present then n else S n)
    /\ (if DocumentSavedState.key_truthy key
        then key = Some k /\ shelve_db.drawn st' = shelve_db.drawn st
        else k = uuid4 (shelve_db.drawn st) /\ present = false
             /\ shelve_db.drawn st' = S (shelve_db.drawn st)).
Proof.
  intros H.
  apply shelf_save_inv in H as (shelf & out & Hc & Hout & Hk & Hc' & Hkey).
  exists (length shelf), (dict_has k shelf).
  unfold shelve_crud.__len__, shelve_crud.__contains__. rewrite Hc, Hc'.
  split; [reflexivity|]. split; [reflexivity|]. split.
  - f_equal. rewrite <- (length_fmap fst (dict_set k out shelf)).
    rewrite dict_set_keys. destruct (dict_has k shelf).
    + now rewrite length_fmap.
    + rewrite length_app, length_fmap. simpl. lia.
  - destruct (DocumentSavedState.key_truthy key); [exact Hkey|].
    destruct Hkey as (? & Hfresh & ?). unfold dict_has. now rewrite Hfresh.
Qed.

(** X5.  Deleting a stored record: afterwards the key is missing (fetching or
    deleting it raises [KeyError] naming it), every other record is as
    before, and the keys are still distinct. *)
Theorem shelf_delete_removes_the_record (st : shelve_db.StorageAdapter)
    (key : string) (data : dict value) :
  shelve_crud.keys_unique st ->
  shelve_db._get st key = Ok data ->
  exists st',
    shelve_crud.delete st key = Ok st'
    /\ shelve_db._get st' key = Raise (KeyError [key])
    /\ shelve_crud.delete st' key = Raise (KeyError [key])
    /\ (forall k', k' <> key -> shelve_db._get st' k' = shelve_db._get st k')
    /\ shelve_crud.keys_unique st'.
Proof.
  unfold shelve_crud.keys_unique, shelve_crud.delete, shelve_db._get, shelve_db._delete.
  simpl. destruct (shelve_db.connection st) as [shelf|] eqn:Hc;
    [|discriminate].
  intros Hu Hg. simpl. unfold dict_has.
  destruct (dict_get key shelf) as [d|] eqn:Hd; [|discriminate].
  eexists. split; [reflexivity|]. simpl.
  rewrite dict_get_del_eq by exact Hu.
  split; [reflexivity|]. split; [reflexivity|].
  split; [|now apply dict_del_NoDup].
  intros k' Hne. now rewrite dict_get_del_ne.
Qed.

(** Deleting a key that is not stored changes nothing and raises
    [KeyError]; on a closed adapter it raises [RuntimeError]. *)
Lemma shelf_delete_missing (st : shelve_db.StorageAdapter) (key : string) :
  shelve_crud.delete st key
  = match shelve_crud.__contains__ st key with
    | Ok true =>
        Ok {| shelve_db.connection :=
                (fun shelf => dict_del key shelf)
                  <$> shelve_db.connection st;
              shelve_db.drawn := shelve_db.drawn st |}
    | Ok false => Raise (KeyError [key])
    | Raise _ => Raise RuntimeError
    end.
Proof.
  unfold shelve_crud.delete, shelve_crud.__contains__, shelve_db._delete.
  simpl. destruct (shelve_db.connection st); simpl; [|reflexivity].
  now destruct (dict_has key l).
Qed.

(** [save] and [delete] keep the keys of the shelf distinct. *)
Lemma shelf_save_keys_unique (st st' : shelve_db.StorageAdapter)
    (key : option string) (data : dict value) (k : string) :
  shelve_crud.keys_unique st ->
  BaseStorageAdapter.save B st key data = Ok (st', k) ->
  shelve_crud.keys_unique st'.
Proof.
  intros Hu H.
  apply shelf_save_inv in H as (shelf & out & Hc & _ & _ & Hc' & _).
  unfold shelve_crud.keys_unique in *. rewrite Hc in Hu. rewrite Hc'.
  now apply dict_set_NoDup.
Qed.

End ShelfStorage.

Lemma shelf_save_then_get_witness :
  exists st' k,
    BaseStorageAdapter.save
      (shelve_db.backend Fixtures.uid MoreFixtures.boxing_ints)
      MoreFixtures.shelf_one None [("a", VInt 5); ("b", VInt 7)]
    = Ok (st', k)
    /\ shelve_db._get st' k
       = Ok [("a", VList [VInt 5]); ("b", VList [VInt 7])]
    /\ shelve_db._get st' "r1" = Ok [("n", VInt 1)].
Proof.
  destruct (BaseStorageAdapter.save
              (shelve_db.backend Fixtures.uid MoreFixtures.boxing_ints)
              MoreFixtures.shelf_one None [("a", VInt 5); ("b", VInt 7)])
    as [[st' k]|e] eqn:E; [|vm_compute in E; discriminate].
  destruct (shelf_save_then_get Fixtures.uid MoreFixtures.boxing_ints
              MoreFixtures.shelf_one st' None
              [("a", VInt 5); ("b", VInt 7)] k E)
    as (_ & (outgoing & Hconv & Hget) & Hframe).
  exists st', k. split; [reflexivity|]. split.
  - rewrite Hget. f_equal.
    inversion Hconv as [|f1 [n1 v1] fs1 cs1 [Hn1 Hv1] Hrest1]; subst.
    inversion Hrest1 as [|f2 [n2 v2] fs2 cs2 [Hn2 Hv2] Hrest2]; subst.
    inversion Hrest2; subst. simpl in *. subst n1 n2.
    vm_compute in Hv1, Hv2. injection Hv1 as <-. injection Hv2 as <-.
    reflexivity.
  - rewrite (Hframe "r1"); [reflexivity|].
    vm_compute in E. injection E as _ <-. discriminate.
Defined.

Lemma shelf_save_key_policy_witness :
  exists n present,
    shelve_crud.__len__ Fixtures.empty_shelf = Ok n
    /\ shelve_crud.__contains__ Fixtures.empty_shelf (Fixtures.uid 0)
       = Ok present.
Proof.
  destruct (shelf_save_key_policy Fixtures.uid manager_init
              Fixtures.empty_shelf _ None [] _ eq_refl)
    as (n & present & Hn & Hp & _).
  exists n, present. split; [exact Hn | exact Hp].
Defined.

(** ** Documents: construction and validation *)

Lemma dict_has_elem {V : Type} (k : string) (d : dict V) :
  k ∈ d.*1 -> dict_has k d = true.
Proof.
  intros H. unfold dict_has. destruct (dict_get k d) eqn:E; [done|].
  exfalso. induction d as [|[k' v'] rest IH]; simpl in *; [inversion H|].
  destruct (String.eqb_spec k k'); [discriminate|].
  apply elem_of_cons in H as [?|?]; [contradiction | auto].
Qed.

Lemma fromkeys_keys {A : Type} (s : dict A) :
  (map (fun kv => (fst kv, VNone)) s).*1 = s.*1.
Proof. induction s as [|[k x] rest IH]; simpl; [reflexivity | now f_equal]. Qed.

Lemma fromkeys_get {A : Type} (s : dict A) (k : string) (v : value) :
  dict_get k (map (fun kv => (fst kv, VNone)) s) = Some v -> v = VNone.
Proof.
  induction s as [|[k' x] rest IH]; simpl; [discriminate|].
  destruct (String.eqb k k'); [congruence | exact IH].
Qed.

Section Construction.
Context {Q : Type} (m : DocumentMetadata Q).

Lemma validate_type_any_doc (d d' : Document) (k : string) (v : value) :
  _validate_value_type m d k v = Ok tt ->
  _validate_value_type m d' k v = Ok tt.
Proof.
  unfold _validate_value_type. destruct (is_none v); [done|].
  destruct (dict_get k (structure m)) as [[c|c|path]|]; try done.
  - destruct (issubclass c Document_cls && isinstance v basestring_); [done|].
    destruct (isinstance v c); [done | discriminate].
  - destruct (has_iter v); [done | discriminate].
Qed.

Lemma setitem_declared (d : Document) (k : string) (v : value) :
  structure m <> [] ->
  k ∉ (structure m).*1 ->
  __setitem__ m d k v = Raise (KeyError [k]).
Proof.
  intros Hs Hk. unfold __setitem__.
  destruct (dict_has k (structure m)) eqn:E.
  - apply dict_has_true in E as [x E]. exfalso. eauto using dict_get_elem.
  - destruct (structure m); [contradiction | reflexivity].
Qed.

Lemma setitem_known_key (d : Document) (k : string) (v : value) :
  structure m <> [] ->
  __setitem__ m d k v <> Raise (KeyError [k]) ->
  k ∈ (structure m).*1.
Proof.
  intros Hs Hne. destruct (decide (k ∈ (structure m).*1)); [done|].
  exfalso. apply Hne. now apply setitem_declared.
Qed.

Lemma setitem_validation_error_key (d : Document) (k : string) (v : value)
    (c f : string) (x : value) :
  structure m <> [] ->
  __setitem__ m d k v = Raise (ValidationError c f x) ->
  k ∈ (structure m).*1.
Proof.
  intros Hs H. apply (setitem_known_key d k v Hs).
  rewrite H. discriminate.
Qed.

Lemma setitem_ok_key (d d1 : Document) (k : string) (v : value) :
  structure m <> [] ->
  __setitem__ m d k v = Ok d1 ->
  k ∈ (structure m).*1.
Proof.
  intros Hs H. apply (setitem_known_key d k v Hs).
  rewrite H. discriminate.
Qed.

Lemma setitem_type_valid (d d1 : Document) (k : string) (v : value) :
  __setitem__ m d k v = Ok d1 ->
  (forall k0 v0, dict_get k0 (_data d) = Some v0 ->
     _validate_value_type m d k0 v0 = Ok tt) ->
  forall k0 v0, dict_get k0 (_data d1) = Some v0 ->
    _validate_value_type m d1 k0 v0 = Ok tt.
Proof.
  intros H Hd k0 v0 Hg.
  apply setitem_inv in H as (v' & Hv & Hdata & _).
  rewrite Hdata in Hg. unfold _validate_value in Hv.
  apply bind_Ok in Hv as ([] & Hty & _).
  destruct (decide (k0 = k)) as [->|Hne].
  - rewrite dict_get_set_eq in Hg. injection Hg as <-.
    eauto using validate_type_any_doc.
  - rewrite dict_get_set_ne in Hg by exact Hne.
    eauto using validate_type_any_doc.
Qed.

Lemma init_items_type_valid (kw : dict value) :
  forall d d', init_items m d kw = Ok d' ->
    (forall k v, dict_get k (_data d) = Some v ->
       _validate_value_type m d k v = Ok tt) ->
    forall k v, dict_get k (_data d') = Some v ->
      _validate_value_type m d' k v = Ok tt.
Proof.
  induction kw as [|[k v] rest IH]; simpl; intros d d' H Hd.
  - now injection H as <-.
  - destruct (__setitem__ m d k v) as [d1|e] eqn:E.
    + apply (IH _ _ H). eauto using setitem_type_valid.
    + destruct e; try discriminate.
      destruct (break_on_invalid_incoming_data m); [discriminate|].
      now apply (IH _ _ H).
Qed.

Lemma init_items_keys (kw : dict value) :
  structure m <> [] ->
  forall d d', init_items m d kw = Ok d' ->
    (_data d).*1 = (structure m).*1 ->
    (_data d').*1 = (structure m).*1
    /\ forall k, k ∈ kw.*1 -> k ∈ (structure m).*1.
Proof.
  intros Hs. induction kw as [|[k v] rest IH]; simpl; intros d d' H Hd.
  - injection H as <-. split; [exact Hd|]. intros k Hk. inversion Hk.
  - destruct (__setitem__ m d k v) as [d1|e] eqn:E.
    + pose proof (setitem_ok_key _ _ _ _ Hs E) as Hk.
      apply setitem_inv in E as (v' & _ & Hdata & _).
      destruct (IH _ _ H) as [Hkeys Hall].
      { rewrite Hdata, dict_set_keys, dict_has_elem; [exact Hd|].
        now rewrite Hd. }
      split; [exact Hkeys|]. intros k0 Hk0.
      apply elem_of_cons in Hk0 as [->|?]; auto.
    + destruct e; try discriminate.
      destruct (break_on_invalid_incoming_data m); [discriminate|].
      pose proof (setitem_validation_error_key _ _ _ _ _ _ Hs E) as Hk.
      destruct (IH _ _ H Hd) as [Hkeys Hall].
      split; [exact Hkeys|]. intros k0 Hk0.
      apply elem_of_cons in Hk0 as [->|?]; auto.
Qed.

Lemma init_items_no_validation_error (kw : dict value) :
  break_on_invalid_incoming_data m = false ->
  forall d c f x, init_items m d kw <> Raise (ValidationError c f x).
Proof.
  intros Hb. induction kw as [|[k v] rest IH]; simpl; intros d c f x.
  - discriminate.
  - destruct (__setitem__ m d k v) as [d1|e]; [apply IH|].
    destruct e; try discriminate. rewrite Hb. apply IH.
Qed.

Lemma related_class_errors (field : string) (e : exn) :
  _get_related_document_class m field = Raise e -> e = TypeError.
Proof.
  unfold _get_related_document_class.
  destruct (dict_get field (structure m)) as [[c|c|path]|]; simpl;
    intros H; try discriminate.
  now injection H as <-.
Qed.

Lemma backward_relations_errors (fields : list string) (e : exn) :
  add_backward_relations m fields = Raise e -> e = TypeError.
Proof.
  induction fields as [|f rest IH]; simpl; [discriminate|].
  destruct (_get_related_document_class m f) as [r|e'] eqn:E; simpl.
  - exact IH.
  - intros H. injection H as <-. eauto using related_class_errors.
Qed.

(** X6.  The outcome of validating a value is decided by the first validator of
    the field that does not simply pass: if it stops the validation the
    value is accepted and the validators after it are never consulted, if
    it fails the value is rejected with the class, field and value; the
    type check comes before all of them. *)
Theorem first_decisive_validator_decides (doc : Document) (k : string)
    (v : value) (pre post : list (validator Q)) (t : validator Q) :
  _validate_value_type m doc k v = Ok tt ->
  dict_get k (validators m) = Some (pre ++ t :: post) ->
  Forall (fun t' => test t' doc v = Passed) pre ->
  _validate_value m doc k v
  = match test t doc v with
    | StopValidation => Ok tt
    | Invalid => Raise (ValidationError (cls_name (doc_class doc)) k v)
    | Passed => run_tests post doc k v
    end.
Proof.
  intros Hty Hv Hpre. unfold _validate_value, _validate_value_custom.
  rewrite Hty, Hv. simpl. clear Hv.
  induction Hpre as [|t' pre' Ht' _ IH]; simpl.
  - reflexivity.
  - rewrite Ht'. exact IH.
Qed.
End Construction.

Section Constructor.
Context {Q : Type} (cls : Variant Q).

(** X7.  A document that the constructor returned is not bound and holds no
    value of a wrong type; when the class declares a structure, its fields
    are exactly the declared ones, in their order, and every keyword given
    was a declared field. *)
Theorem constructed_document_invariants (kw : dict value) (d : Document) :
  document_base.__init__ cls kw = Ok d ->
  _saved_state d = DocumentSavedState.init
  /\ (forall k v, dict_get k (_data d) = Some v ->
        _validate_value_type (meta cls) d k v = Ok tt)
  /\ (structure (meta cls) <> [] ->
        (_data d).*1 = (structure (meta cls)).*1
        /\ forall k, k ∈ kw.*1 -> k ∈ (structure (meta cls)).*1).
Proof.
  intros H. split; [eauto using doc_init_saved_state|].
  unfold document_base.__init__ in H.
  apply bind_Ok in H as (d0 & Hi & H).
  apply bind_Ok in H as (_ & _ & H). injection H as <-.
  split.
  - apply (init_items_type_valid _ _ _ _ Hi). simpl. intros k v Hg.
    apply fromkeys_get in Hg as ->. unfold _validate_value_type.
    reflexivity.
  - intros Hs. apply (init_items_keys _ _ Hs _ _ Hi). simpl.
    apply fromkeys_keys.
Qed.

(** X8.  Unless the class asks to break on invalid incoming data, the
    constructor never raises a validation error, whatever the keywords:
    a value that fails validation is skipped. *)
Theorem constructor_swallows_validation_errors (kw : dict value) :
  break_on_invalid_incoming_data (meta cls) = false ->
  forall c f x,
    document_base.__init__ cls kw <> Raise (ValidationError c f x).
Proof.
  intros Hb c f x. unfold document_base.__init__.
  destruct (init_items _ _ kw) as [d|e] eqn:E; simpl.
  - destruct (add_backward_relations _ _) as [u|e] eqn:E2; simpl;
      [discriminate|].
    apply backward_relations_errors in E2 as ->. discriminate.
  - intros H. injection H as ->.
    now apply init_items_no_validation_error in E.
Qed.
End Constructor.

(** ** Saving and fetching through any backend *)

Section SavingMore.
Context {Q S : Type} (B : Backend S) (m : DocumentMetadata Q).

Lemma merge_fields_other (pairs : dict value) :
  forall data0 data, merge_fields B m pairs data0 = Ok data ->
    forall k, k ∉ pairs.*1 -> dict_get k data = dict_get k data0.
Proof.
  induction pairs as [|[n v] rest IH]; simpl; intros data0 data H k Hk.
  - now injection H as <-.
  - apply not_elem_of_cons in Hk as [Hne Hrest].
    apply bind_Ok in H as (v1 & _ & H).
    apply bind_Ok in H as (v2 & _ & H).
    rewrite (IH _ _ H k Hrest). now apply dict_get_set_ne.
Qed.

Lemma structure_pairs_keys {A : Type} (s : dict A) (data : dict value) :
  (map (fun kv => (fst kv, default VNone (dict_get (fst kv) data))) s).*1
  = s.*1.
Proof. induction s as [|[k x] rest IH]; simpl; [reflexivity | now f_equal]. Qed.

Lemma save_at_inv (h h' : gmap nat S) (r : nat) (key : option string)
    (data : dict value) (k : string) :
  save_at B h r key data = Ok (h', k) ->
  exists st st',
    h !! r = Some st
    /\ BaseStorageAdapter.save B st key data = Ok (st', k)
    /\ h' = <[r := st']> h.
Proof.
  unfold save_at. destruct (h !! r) as [st|]; [|discriminate].
  intros H. apply bind_Ok in H as ([st' k'] & Hs & H).
  injection H as <- <-. eauto.
Qed.

(** The steps of a successful [save], with the record it builds. *)
Lemma save_steps (h h' : gmap nat S) (d d' : Document)
    (storage : option nat) (keep_key : bool) (k : string) :
  save B m h d storage keep_key = Ok (h', d', k) ->
  exists target doc1 data,
    (if __nonzero__ B h storage then storage
     else DocumentSavedState.storage (_saved_state d)) = Some target
    /\ fill_defaults m d (defaults m) = Ok doc1
    /\ merge_fields B m
         (match structure m with
          | [] => _data doc1
          | _ :: _ =>
              map (fun kv => (fst kv,
                              default VNone (dict_get (fst kv) (_data doc1))))
                  (structure m)
          end)
         (default [] (DocumentSavedState.data (_saved_state d))) = Ok data
    /\ save_at B h target (key_to_pass d target keep_key) data = Ok (h', k)
    /\ _data d' = _data doc1
    /\ _saved_state d' =
         {| DocumentSavedState.storage :=
              if __nonzero__ B h' (Some target) then Some target
              else DocumentSavedState.storage (_saved_state d);
            DocumentSavedState.key := Some k;
            DocumentSavedState.data := Some data |}.
Proof.
  unfold save. intros H.
  destruct (negb (__nonzero__ B h storage)
            && negb (__nonzero__ B h
                       (DocumentSavedState.storage (_saved_state d))));
    [discriminate|].
  destruct (if __nonzero__ B h storage then storage
            else DocumentSavedState.storage (_saved_state d))
    as [target|]; [|discriminate].
  apply bind_Ok in H as (doc1 & Hfill & H).
  apply bind_Ok in H as ([] & Hval & H).
  apply bind_Ok in H as (data & Hmerge & H).
  apply bind_Ok in H as ([h1 k1] & Hsave & H).
  destruct (bool_decide _); [|discriminate].
  injection H as <- <- <-.
  pose proof (fill_defaults_saved_state m _ _ _ Hfill) as Hss.
  exists target, doc1, data.
  split; [reflexivity|]. split; [exact Hfill|]. split.
  { rewrite <- Hmerge, Hss. f_equal.
    destruct (DocumentSavedState.data (_saved_state d)) as [[|]|];
      reflexivity. }
  split.
  { rewrite <- Hsave. unfold key_to_pass, pk. now rewrite Hss. }
  split; [reflexivity|]. simpl.
  apply save_at_inv in Hsave as (st & st' & _ & Hs & _).
  apply adapter_save_inv in Hs as [Hk _].
  unfold DocumentSavedState.update. simpl. rewrite Hk, Hss. simpl.
  now rewrite orb_true_r.
Qed.

(** X9.  What [save] writes for a class with a structure extends the record the
    document was loaded from: every field of that record that the
    structure does not declare is handed back to the storage as it was,
    and the record written is the one the saved state then holds. *)
Theorem save_keeps_fields_outside_the_structure
    (h h' : gmap nat S) (d d' : Document) (storage : option nat)
    (keep_key : bool) (k : string) :
  structure m <> [] ->
  save B m h d storage keep_key = Ok (h', d', k) ->
  exists target written,
    save_at B h target (key_to_pass d target keep_key) written = Ok (h', k)
    /\ DocumentSavedState.data (_saved_state d') = Some written
    /\ forall name, name ∉ (structure m).*1 ->
         dict_get name written
         = dict_get name
             (default [] (DocumentSavedState.data (_saved_state d))).
Proof.
  intros Hs H.
  apply save_steps in H as (target & doc1 & data & _ & _ & Hm & Hsv & _ & Hss).
  exists target, data. split; [exact Hsv|].
  split; [now rewrite Hss|].
  intros name Hname. apply (merge_fields_other _ _ _ Hm).
  destruct (structure m) as [|p l] eqn:E; [contradiction|].
  now rewrite structure_pairs_keys.
Qed.

(** X10.  A document whose storage has been disconnected behaves as one that was
    never saved: [save] without a storage raises [AttributeError],
    [delete] raises [ValueError], and it equals no document. *)
Theorem disconnected_storage_unbinds_documents
    (_delete : S -> string -> result S) (doc_truthy : Document -> bool)
    (h : gmap nat S) (d : Document) (r : nat) (st : S) :
  DocumentSavedState.storage (_saved_state d) = Some r ->
  h !! r = Some st ->
  connected B st = false ->
  (forall keep_key, save B m h d None keep_key = Raise AttributeError)
  /\ document_delete.delete B _delete h d = Raise ValueError
  /\ (forall other, __eq__ B doc_truthy h d other = false).
Proof.
  intros Hst Hr Hc.
  assert (Hnz : __nonzero__ B h (DocumentSavedState.storage (_saved_state d))
                = false)
    by (rewrite Hst; simpl; now rewrite Hr).
  split; [|split].
  - intros keep_key. unfold save. now rewrite Hnz.
  - unfold document_delete.delete. now rewrite Hnz.
  - intros [o|v]; simpl; [|reflexivity].
    destruct (doc_truthy o); simpl; [|reflexivity].
    unfold DocumentSavedState.eq. now rewrite Hnz.
Qed.
End SavingMore.

Section FetchingMore.
Context {Q S : Type} (B : Backend S).

(** X11.  With the adapter's default [_get_many], a batch fetch is [get] key by
    key: the sequence it returns yields, in the order of the keys, what
    [get] answers for each of them. *)
Theorem get_many_is_get_for_each_key (h : gmap nat S) (self : nat)
    (keys : list string) (doc_class : Variant Q)
    (g : generator Document) :
  get_many B (Fetching._get_many B) h self keys doc_class = Ok g ->
  g = map (fun key => get B h self key doc_class) keys.
Proof.
  unfold get_many, get, Fetching._get_many.
  destruct (h !! self) as [st|]; [|discriminate].
  destruct (negb (connected B st)); [discriminate|].
  destruct keys as [|k0 rest]; [discriminate|].
  intros H. injection H as <-. rewrite map_map. simpl. f_equal.
  - now destruct (_get B st k0).
  - apply map_ext. intros key. now destruct (_get B st key).
Qed.

(** A document fetched under a non-empty key is bound to the storage and
    the key, and remembers the record as the backend returned it. *)
Lemma fetched_document_state (h : gmap nat S) (self : nat) (key : string)
    (doc_class : Variant Q) (d : Document) :
  get B h self key doc_class = Ok d ->
  key <> "" ->
  exists st data,
    h !! self = Some st /\ connected B st = true
    /\ _get B st key = Ok data
    /\ _saved_state d = {| DocumentSavedState.storage := Some self;
                           DocumentSavedState.key := Some key;
                           DocumentSavedState.data := Some data |}.
Proof.
  unfold get. destruct (h !! self) as [st|] eqn:Hst; [|discriminate].
  destruct (connected B st) eqn:Hc; [|discriminate]. simpl.
  intros H Hkey. apply bind_Ok in H as (data & Hg & H).
  unfold _decorate, from_storage in H.
  apply bind_Ok in H as (py & _ & H).
  apply bind_Ok in H as (inst & Hinit & H). injection H as <-.
  exists st, data. repeat (split; [done|]). simpl.
  rewrite (doc_init_saved_state _ _ _ Hinit).
  unfold DocumentSavedState.update. simpl. rewrite Hst, Hc. simpl.
  destruct (String.eqb_spec key ""); [contradiction | reflexivity].
Qed.

(** X12.  Two documents fetched from the same storage under the same key are
    equal, whatever their classes and however their fields were read. *)
Theorem documents_of_one_record_are_equal
    (doc_truthy : Document -> bool) (h : gmap nat S) (self : nat)
    (key : string) (cls1 cls2 : Variant Q) (d1 d2 : Document) :
  key <> "" ->
  get B h self key cls1 = Ok d1 ->
  get B h self key cls2 = Ok d2 ->
  doc_truthy d2 = true ->
  __eq__ B doc_truthy h d1 (ODoc d2) = true.
Proof.
  intros Hkey H1 H2 Ht.
  apply fetched_document_state in H1 as (st & data1 & Hst & Hc & _ & E1);
    [|exact Hkey].
  apply fetched_document_state in H2 as (st2 & data2 & _ & _ & _ & E2);
    [|exact Hkey].
  simpl. rewrite Ht. simpl.
  unfold DocumentSavedState.eq, DocumentSavedState.nonzero.
  rewrite E1, E2. simpl. rewrite Hst, Hc. simpl.
  destruct (String.eqb_spec key ""); [contradiction|]. simpl.
  now rewrite !bool_decide_eq_true_2.
Qed.
End FetchingMore.

(** ** Documents on a shelf *)

Lemma dict_set_length {V : Type} (k : string) (v : V) (d : dict V) :
  length (dict_set k v d) = if dict_has k d then length d else S (length d).
Proof.
  rewrite <- (length_fmap fst (dict_set k v d)), dict_set_keys.
  destruct (dict_has k d).
  - now rewrite length_fmap.
  - rewrite length_app, length_fmap. simpl. lia.
Qed.

Section ShelfDocuments.
Variable uuid4 : nat -> string.
Variable converters : ProcessorManager converter.
Context {Q : Type} (m : DocumentMetadata Q).

Local Abbreviation B := (shelve_db.backend uuid4 converters).
Local Abbreviation heap := (gmap nat shelve_db.StorageAdapter).

(** X13.  Saving a document again updates its record in place: a document that
    was saved to a shelf and is saved once more without naming a storage
    gets the same key back, the shelf draws no new identifier and holds as
    many records as after the first save. *)
Theorem shelf_resave_updates_in_place (h h1 h2 : heap) (d d1 d2 : Document)
    (storage : option nat) (keep_key keep_key' : bool) (k1 k2 : string) :
  save B m h d storage keep_key = Ok (h1, d1, k1) ->
  save B m h1 d1 None keep_key' = Ok (h2, d2, k2) ->
  k2 = k1
  /\ exists r st1 st2,
       DocumentSavedState.storage (_saved_state d1) = Some r
       /\ h1 !! r = Some st1
       /\ h2 = <[r := st2]> h1
       /\ shelve_crud.__len__ st2 = shelve_crud.__len__ st1
       /\ shelve_db.drawn st2 = shelve_db.drawn st1.
Proof.
  intros H1 H2.
  apply save_steps in H1 as (r & doc1 & data1 & _ & _ & _ & Hs1 & _ & Hss1).
  apply save_at_inv in Hs1 as (st & st1 & Hst & Hs1 & ->).
  apply shelf_save_inv in Hs1
    as (shelf & out1 & Hc & _ & Hk1 & Hc1 & _).
  assert (Hnz : __nonzero__ B (<[r := st1]> h) (Some r) = true)
    by (simpl; rewrite lookup_insert_eq; simpl; now rewrite Hc1).
  rewrite Hnz in Hss1.
  apply save_steps in H2 as (r2 & doc2 & data2 & Ht & _ & _ & Hs2 & _ & _).
  rewrite Hss1 in Ht. simpl in Ht. injection Ht as <-.
  unfold key_to_pass, pk in Hs2. rewrite Hss1 in Hs2. simpl in Hs2.
  rewrite bool_decide_eq_true_2, orb_true_r in Hs2 by reflexivity.
  apply save_at_inv in Hs2 as (st1' & st2 & Hst1 & Hs2 & ->).
  rewrite lookup_insert_eq in Hst1. injection Hst1 as <-.
  apply shelf_save_inv in Hs2
    as (shelf1 & out2 & Hc1' & _ & _ & Hc2 & Hpol).
  simpl in Hpol. destruct (String.eqb_spec k1 ""); [contradiction|].
  simpl in Hpol. destruct Hpol as [Hk Hd]. injection Hk as <-.
  split; [reflexivity|].
  exists r, st1, st2. rewrite Hss1. simpl.
  split; [reflexivity|]. split; [apply lookup_insert_eq|].
  split; [reflexivity|]. split; [|exact Hd].
  unfold shelve_crud.__len__. rewrite Hc2, Hc1'. f_equal.
  rewrite Hc1 in Hc1'. injection Hc1' as <-.
  rewrite (dict_set_length k1 out2). unfold dict_has.
  now rewrite dict_get_set_eq.
Qed.

(** X14.  Deleting a document removes its record from the shelf and nothing
    else: fetching the key afterwards raises [KeyError], the other records
    are as before.  The document itself is left bound to the storage and
    the key. *)
Theorem shelf_document_delete (h h' : heap) (d : Document) :
  (forall r st, h !! r = Some st -> shelve_crud.keys_unique st) ->
  document_delete.delete B shelve_db._delete h d = Ok h' ->
  exists r k st st',
    DocumentSavedState.storage (_saved_state d) = Some r
    /\ DocumentSavedState.key (_saved_state d) = Some k
    /\ h !! r = Some st
    /\ h' = <[r := st']> h
    /\ (forall cls : Variant Q, get B h' r k cls = Raise (KeyError [k]))
    /\ (forall k', k' <> k -> shelve_db._get st' k' = shelve_db._get st k')
    /\ is_bound B h' d = true.
Proof.
  intros Hu. unfold document_delete.delete, is_bound.
  destruct (DocumentSavedState.storage (_saved_state d)) as [r|] eqn:Hr;
    [|discriminate].
  destruct (DocumentSavedState.key (_saved_state d)) as [k|] eqn:Hk;
    [|simpl; rewrite orb_true_r; discriminate].
  destruct (__nonzero__ B h (Some r)) eqn:Hnz; [|discriminate].
  destruct (DocumentSavedState.key_truthy (Some k)) eqn:Hkt; [|discriminate].
  simpl negb. simpl orb. cbv iota.
  unfold document_delete.delete_at.
  destruct (h !! r) as [st|] eqn:Hst; [|discriminate].
  destruct (negb (connected B st)); [discriminate|].
  intros H. apply bind_Ok in H as (st' & Hdel & H). injection H as <-.
  specialize (Hu r st Hst). unfold shelve_crud.keys_unique in Hu.
  unfold shelve_db._delete in Hdel.
  destruct (shelve_db.connection st) as [shelf|] eqn:Hc; [|discriminate].
  destruct (dict_has k shelf); [|discriminate]. injection Hdel as <-.
  exists r, k, st, {| shelve_db.connection := Some (dict_del k shelf);
                      shelve_db.drawn := shelve_db.drawn st |}.
  split; [reflexivity|]. split; [reflexivity|]. split; [exact Hst|].
  split; [reflexivity|]. split; [|split].
  - intros cls. unfold get. rewrite lookup_insert_eq. simpl.
    unfold shelve_db._get. simpl. now rewrite dict_get_del_eq.
  - intros k' Hne. unfold shelve_db._get. simpl. rewrite Hc.
    now rewrite dict_get_del_ne.
  - simpl. now rewrite lookup_insert_eq.
Qed.

End ShelfDocuments.

(** ** Queries on a shelf *)

Lemma filter_stronger_sublist {A : Type} (P1 P2 : A -> Prop)
    `{forall x, Decision (P1 x)} `{forall x, Decision (P2 x)} (l : list A) :
  (forall x, P1 x -> P2 x) -> filter P1 l `sublist_of` filter P2 l.
Proof.
  intros Himp. induction l as [|x rest IH]; [constructor|].
  rewrite !filter_cons.
  destruct (decide (P1 x)) as [H1|H1], (decide (P2 x)) as [H2|H2].
  - now constructor.
  - exfalso. auto.
  - now constructor.
  - exact IH.
Qed.

Lemma dict_del_app_fresh {V : Type} (k : string) (v : V)
    (pre rest : dict V) :
  k ∉ pre.*1 -> dict_del k (pre ++ (k, v) :: rest) = pre ++ rest.
Proof.
  induction pre as [|[k' v'] pre' IH]; simpl; intros Hk.
  - now rewrite String.eqb_refl.
  - apply not_elem_of_cons in Hk as [Hne Hk].
    destruct (String.eqb_spec k k'); [contradiction|]. f_equal. auto.
Qed.

Lemma dict_has_app_mid {V : Type} (k : string) (v : V) (pre rest : dict V) :
  dict_has k (pre ++ (k, v) :: rest) = true.
Proof.
  apply dict_has_elem. rewrite fmap_app, fmap_cons.
  apply elem_of_app. right. apply elem_of_cons. now left.
Qed.

Section ShelfQueriesMore.
Variable uuid4 : nat -> string.
Variable converters : ProcessorManager converter.
Variable lookup_manager : ProcessorManager (lookup_processor shelve_query.check).

Local Abbreviation heap := (gmap nat shelve_db.StorageAdapter).
Local Abbreviation where_ :=
  (shelve_query.where_ uuid4 converters lookup_manager).

Lemma native_conditions_app {C : Type}
    (lm : ProcessorManager (lookup_processor C))
    (pre : value -> result value) (negate : bool) (c1 c2 : dict value)
    (n1 n2 : list C) :
  _get_native_conditions lm pre c1 negate = Ok n1 ->
  _get_native_conditions lm pre c2 negate = Ok n2 ->
  _get_native_conditions lm pre (c1 ++ c2) negate = Ok (n1 ++ n2).
Proof.
  revert n1. induction c1 as [|[lookup v] rest IH]; simpl; intros n1 H1 H2.
  - injection H1 as <-. exact H2.
  - apply bind_Ok in H1 as ([name op] & -> & H1).
    apply bind_Ok in H1 as (processor & Hp & H1). simpl. rewrite Hp. simpl.
    apply bind_Ok in H1 as (n & -> & H1). simpl.
    apply bind_Ok in H1 as (more & Hm & H1). injection H1 as <-.
    rewrite (IH _ Hm H2). simpl. f_equal.
    destruct n; simpl; [reflexivity | now rewrite app_assoc].
Qed.

Lemma where_unfold (h : heap) (q : shelve_query.QueryAdapter)
    (conditions : dict value) (translated : list shelve_query.check) :
  _get_native_conditions lookup_manager
    (value_to_db (shelve_db.backend uuid4 converters)) conditions false
    = Ok translated ->
  where_ h q conditions
  = shelve_query.__init__ h (storage q) (_conditions q ++ translated)
      (_ordering q).
Proof.
  intros Ht. unfold shelve_query.where_, shelve_query._where,
    shelve_query.__where, shelve_query._clone.
  rewrite Ht. simpl. now destruct (_ordering q).
Qed.

(** X15.  Narrowing a query in two steps is narrowing it once by both sets of
    conditions: the second query is the one [where] returns for the
    conditions put together. *)
Theorem where_composes (h : heap) (q q1 q2 : shelve_query.QueryAdapter)
    (c1 c2 : dict value) :
  where_ h q c1 = Ok q1 ->
  where_ h q1 c2 = Ok q2 ->
  where_ h q (c1 ++ c2) = Ok q2.
Proof.
  intros H1 H2.
  pose proof (where_appends_conditions _ _ _ _ _ _ _ H1)
    as (n1 & Hn1 & Hc1 & Ho1 & Hs1 & _).
  pose proof (where_appends_conditions _ _ _ _ _ _ _ H2)
    as (n2 & Hn2 & _).
  rewrite (where_unfold _ _ _ _ Hn2) in H2.
  rewrite (where_unfold _ _ _ _ (native_conditions_app _ _ _ _ _ _ _ Hn1 Hn2)).
  rewrite <- H2, Hs1, Hc1, Ho1. now rewrite app_assoc.
Qed.

(** X16.  Adding conditions to a query without ordering never adds results: the
    keys the narrowed query yields are among those of the parent, in the
    same order, and [count] is their number. *)
Theorem where_narrows (h : heap) (q q' : shelve_query.QueryAdapter)
    (conditions : dict value) :
  _ordering q = None ->
  where_ h q conditions = Ok q' ->
  exists found found',
    shelve_query._do_search h q = Ok found
    /\ _iter q' = Some found'
    /\ shelve_query.count h q' = Ok (length found')
    /\ found' `sublist_of` found.
Proof.
  intros Hord H.
  pose proof (where_appends_conditions _ _ _ _ _ _ _ H)
    as (n & Hn & _).
  rewrite (where_unfold _ _ _ _ Hn) in H.
  apply query_init_inv in H as (Hs & Hc & Ho & _ & _ & cursor & Hi & Hd).
  unfold shelve_query.count. rewrite Hd. simpl.
  unfold shelve_query._do_search in *. rewrite Hs in Hd.
  destruct (h !! storage q) as [st|]; [|discriminate].
  destruct (shelve_db.connection st) as [shelf|]; [|discriminate].
  rewrite Ho, Hc, Hord in Hd. rewrite Hord. injection Hd as <-.
  eexists _, _. split; [reflexivity|]. split; [exact Hi|].
  split; [reflexivity|].
  unfold shelve_query.finder. apply fmap_sublist.
  apply filter_stronger_sublist. intros rec.
  rewrite forallb_app. now intros [? _]%andb_true_iff.
Qed.

(** X17.  A further [order_by] replaces the ordering of a query instead of
    refining it: ordering an ordered query gives the query that ordering
    its parent gives. *)
Theorem order_by_replaces_the_ordering (h : heap)
    (q q1 : shelve_query.QueryAdapter) (names1 names2 : list string)
    (reverse1 reverse2 : bool) :
  shelve_query.order_by h q names1 reverse1 = Ok q1 ->
  shelve_query.order_by h q1 names2 reverse2
  = shelve_query.order_by h q names2 reverse2.
Proof.
  intros H1.
  apply order_by_keeps_conditions in H1 as (Hc & _ & Hs & _).
  unfold shelve_query.order_by, shelve_query._clone.
  now rewrite Hc, Hs.
Qed.

Lemma delete_each_matching (r : nat) (conditions : list shelve_query.check)
    (drawn : nat) (rest : dict (dict value)) :
  forall (h : heap) (pre : dict (dict value)),
    NoDup (pre ++ rest).*1 ->
    h !! r = Some {| shelve_db.connection := Some (pre ++ rest);
                     shelve_db.drawn := drawn |} ->
    exists h',
      shelve_query_delete.delete_each h r
        (shelve_query.finder rest conditions) = Ok h'
      /\ h' !! r
         = Some {| shelve_db.connection :=
                     Some (pre ++ filter
                                    (fun rec => shelve_query_delete.matches
                                                  conditions rec = false)
                                    rest);
                   shelve_db.drawn := drawn |}
      /\ forall r', r' <> r -> h' !! r' = h !! r'.
Proof.
  unfold shelve_query.finder.
  induction rest as [|[k data] rest IH]; intros h pre Hnd Hh.
  - exists h. simpl. rewrite app_nil_r in Hh. rewrite app_nil_r. auto.
  - rewrite !filter_cons.
    unfold shelve_query_delete.matches at 1. simpl.
    destruct (decide (forallb (fun c : shelve_query.check => c data)
                        conditions = true)) as [Hm|Hm];
      destruct (decide (forallb (fun c : shelve_query.check => c data)
                          conditions = false)) as [Hf|Hf];
      [congruence | | |
       exfalso;
       destruct (forallb (fun c : shelve_query.check => c data) conditions);
       congruence].
    + simpl. rewrite Hh. unfold shelve_crud.delete, shelve_db._delete.
      simpl. rewrite dict_has_app_mid. simpl.
      assert (Hk : k ∉ pre.*1).
      { rewrite fmap_app, fmap_cons in Hnd.
        apply NoDup_app in Hnd as (_ & Hdis & _).
        intros Hin. apply (Hdis k Hin). apply elem_of_cons. now left. }
      rewrite dict_del_app_fresh by exact Hk.
      destruct (IH (<[r := {| shelve_db.connection := Some (pre ++ rest);
                              shelve_db.drawn := drawn |}]> h) pre)
        as (h' & Hd & Hr & Hframe).
      { rewrite fmap_app, fmap_cons in Hnd. rewrite fmap_app.
        apply NoDup_app in Hnd as (Hp & Hdis & Hr).
        apply NoDup_cons in Hr as [_ Hr]. apply NoDup_app.
        split; [exact Hp|]. split; [|exact Hr].
        intros x Hx Hx'. apply (Hdis x Hx). apply elem_of_cons. now right. }
      { apply lookup_insert_eq. }
      exists h'. split; [exact Hd|]. split; [exact Hr|].
      intros r' Hne. rewrite (Hframe r' Hne).
      now rewrite lookup_insert_ne by congruence.
    + destruct (IH h (pre ++ [(k, data)])) as (h' & Hd & Hr & Hframe).
      { now rewrite <- app_assoc. }
      { now rewrite <- app_assoc. }
      exists h'. split; [exact Hd|]. split; [|exact Hframe].
      rewrite Hr. now rewrite <- app_assoc.
Qed.

(** X18.  Deleting through a query without ordering removes from the shelf
    exactly the records that pass all its conditions: the others stay, in
    their order, and no other storage is touched. *)
Theorem query_delete_removes_the_matches (h : heap)
    (q : shelve_query.QueryAdapter) (st : shelve_db.StorageAdapter)
    (shelf : dict (dict value)) :
  h !! storage q = Some st ->
  shelve_db.connection st = Some shelf ->
  NoDup shelf.*1 ->
  _ordering q = None ->
  exists h',
    shelve_query_delete._delete h q = Ok h'
    /\ h' !! storage q
       = Some {| shelve_db.connection :=
                   Some (filter (fun rec => shelve_query_delete.matches
                                              (_conditions q) rec = false)
                                shelf);
                 shelve_db.drawn := shelve_db.drawn st |}
    /\ forall r', r' <> storage q -> h' !! r' = h !! r'.
Proof.
  intros Hst Hc Hnd Hord.
  unfold shelve_query_delete._delete, shelve_query._do_search.
  rewrite Hst, Hc, Hord. simpl.
  apply (delete_each_matching (storage q) (_conditions q)
           (shelve_db.drawn st) shelf h []); [exact Hnd|].
  rewrite Hst. f_equal. destruct st as [c d]. simpl in *. now subst.
Qed.

End ShelfQueriesMore.

(** ** The metadata of a document class *)

Section MetaclassLaws.
Context {A : Type}.
Variable camel_case_to_underscores : string -> string.
Variable initial : string -> A.
Variable str : string -> A.
Variable contribute :
  A -> option (Metaclass.DocumentMetadata A -> string
               -> Metaclass.DocumentMetadata A).

Variable object_ : Metaclass.DocumentMetadata A -> A.

Local Abbreviation new :=
  (Metaclass.__new__ camel_case_to_underscores initial str contribute
     object_).

Lemma lowercase_name_not_customizable :
  "lowercase_name" ∉ Metaclass.CUSTOMIZABLE.
Proof. apply (bool_decide_unpack _). vm_compute. exact I. Qed.

Lemma meta_not_customizable : "meta" ∉ Metaclass.CUSTOMIZABLE.
Proof. apply (bool_decide_unpack _). vm_compute. exact I. Qed.

Lemma label_customizable : "label" ∈ Metaclass.CUSTOMIZABLE.
Proof. apply (bool_decide_unpack _). vm_compute. exact I. Qed.

Lemma initial_attributes (l : list string) (a : string) :
  a ∈ l ->
  (list_to_map ((fun a => (a, initial a)) <$> l) : gmap string A) !! a
  = Some (initial a).
Proof.
  induction l as [|x l IH]; intros Ha; [inversion Ha|].
  rewrite fmap_cons. simpl.
  destruct (decide (a = x)) as [->|Hne].
  - apply lookup_insert_eq.
  - rewrite lookup_insert_ne by congruence.
    apply IH. apply elem_of_cons in Ha as [?|?]; [contradiction | done].
Qed.

Lemma accepted_lookup (data : gmap string A) (a : string) :
  Metaclass.accepted data !! a
  = if decide (a ∈ Metaclass.CUSTOMIZABLE) then data !! a else None.
Proof.
  unfold Metaclass.accepted. destruct (decide _) as [Hin|Hout].
  - destruct (data !! a) as [v|] eqn:E.
    + now apply map_lookup_filter_Some.
    + apply map_lookup_filter_None. left. exact E.
  - apply map_lookup_filter_None. right. intros x _. exact Hout.
Qed.

Lemma inherit_lookup (parents : list (Metaclass.DocumentMetadata A))
    (m : Metaclass.DocumentMetadata A) (a : string) :
  a ∈ Metaclass.CUSTOMIZABLE ->
  (forall p, p ∈ parents -> Metaclass.complete p) ->
  Metaclass.lowercase_name (Metaclass.inherit str m parents)
  = Metaclass.lowercase_name m
  /\ Metaclass.attributes (Metaclass.inherit str m parents) !! a
     = match last parents with
       | Some p => Metaclass.attributes p !! a
       | None => Metaclass.attributes m !! a
       end.
Proof.
  intros Ha. induction parents as [|p parents IH] using rev_ind; intros Hc.
  - split; reflexivity.
  - unfold Metaclass.inherit. rewrite foldl_app. simpl.
    rewrite last_snoc. split.
    + apply IH. intros p' Hp'. apply Hc, elem_of_app. now left.
    + rewrite lookup_union, accepted_lookup.
      rewrite decide_True by exact Ha.
      unfold Metaclass.__dict__.
      rewrite lookup_insert_ne
        by (intros <-; now apply lowercase_name_not_customizable).
      destruct (Hc p ltac:(apply elem_of_app; right; now left) a Ha)
        as [v Hv].
      rewrite Hv. now rewrite union_Some_l.
Qed.

Lemma map_fold_plain
    (start : Metaclass.DocumentMetadata A * gmap string A)
    (m : gmap string A) :
  (forall a v, m !! a = Some v -> contribute v = None) ->
  map_fold (fun attr value '(meta2, attrs2) =>
              match contribute value with
              | Some f => (f meta2 attr, delete attr attrs2)
              | None => (meta2, attrs2)
              end) start m = start.
Proof.
  apply (map_fold_weak_ind
           (fun r (m' : gmap string A) =>
              (forall a v, m' !! a = Some v -> contribute v = None) ->
              r = start)).
  - reflexivity.
  - intros a v m' [r1 r2] Hnone IH Hm'.
    rewrite (Hm' a v) by apply lookup_insert_eq.
    apply IH. intros a' v' Hv'. apply (Hm' a' v').
    rewrite lookup_insert_ne; [exact Hv'|]. intros <-. congruence.
Qed.

(** X19.  The metadata the metaclass gives a new class, attribute by attribute:
    what the class body declares replaces what is inherited, as a whole;
    an attribute the body does not declare is taken from the last parent
    document class, and from the initial values when there is no parent.
    The declared attributes are moved out of the class namespace, [meta]
    is set to the metadata, and nothing else changes.  Field objects in
    the body, which contribute on their own, are left aside. *)
Theorem class_metadata_resolution (name : string)
    (parents : list (Metaclass.DocumentMetadata A))
    (body : gmap string A) :
  (forall p, p ∈ parents -> Metaclass.complete p) ->
  (forall a v, body !! a = Some v -> contribute v = None) ->
  let meta := (new name parents body).1 in
  let namespace := (new name parents body).2 in
  Metaclass.lowercase_name meta = camel_case_to_underscores name
  /\ Metaclass.complete meta
  /\ (forall a, a ∈ Metaclass.CUSTOMIZABLE ->
        Metaclass.attributes meta !! a
        = match body !! a with
          | Some v => Some v
          | None =>
              match last parents with
              | Some p => Metaclass.attributes p !! a
              | None => Some (initial a)
              end
          end
        /\ namespace !! a = None)
  /\ namespace !! "meta" = Some (object_ meta)
  /\ (forall a, a ∉ Metaclass.CUSTOMIZABLE -> a <> "meta" ->
        namespace !! a = body !! a).
Proof.
  intros Hc Hplain.
  set (meta1 := (Metaclass.update
                   (Metaclass.inherit str
                      (Metaclass.__init__ camel_case_to_underscores initial
                         name) parents) body).1).
  set (ns1 := filter (fun kv : string * A =>
                        kv.1 ∉ dom (Metaclass.accepted body)) body).
  assert (Hnew : new name parents body
                 = (meta1, <["meta" := object_ meta1]> ns1)).
  { unfold Metaclass.__new__. simpl. rewrite map_fold_plain; [reflexivity|].
    intros a v Hv. apply map_lookup_filter_Some in Hv as [Hv _]. eauto. }
  simpl. rewrite Hnew. simpl.
  assert (Hattr : forall a, a ∈ Metaclass.CUSTOMIZABLE ->
            Metaclass.attributes meta1 !! a
            = match body !! a with
              | Some v => Some v
              | None =>
                  match last parents with
                  | Some p => Metaclass.attributes p !! a
                  | None => Some (initial a)
                  end
              end).
  { intros a Ha. unfold meta1. simpl.
    rewrite lookup_union, accepted_lookup, decide_True by exact Ha.
    destruct (inherit_lookup parents
                (Metaclass.__init__ camel_case_to_underscores initial name)
                a Ha Hc) as [_ ->].
    destruct (body !! a) as [v|].
    - now rewrite union_Some_l.
    - rewrite (left_id None _). destruct (last parents); [reflexivity|].
      exact (initial_attributes Metaclass.CUSTOMIZABLE a Ha). }
  split.
  { unfold meta1. simpl.
    now destruct (inherit_lookup parents
                    (Metaclass.__init__ camel_case_to_underscores initial
                       name) "label" label_customizable Hc)
      as [-> _]. }
  split.
  { intros a Ha. rewrite (Hattr a Ha).
    destruct (body !! a); [eauto|].
    destruct (last parents) as [p|] eqn:El; [|eauto].
    apply Hc; [|exact Ha]. apply last_Some in El as [l' ->].
    apply elem_of_app. right. now left. }
  split.
  { intros a Ha. split; [now apply Hattr|].
    rewrite lookup_insert_ne
      by (intros <-; revert Ha; apply meta_not_customizable).
    unfold ns1. apply map_lookup_filter_None.
    destruct (body !! a) as [v|] eqn:E; [right | now left].
    intros x Hx Hnot. simpl in Hnot. apply Hnot.
    apply elem_of_dom. exists v. rewrite accepted_lookup.
    now rewrite decide_True by exact Ha. }
  split; [apply lookup_insert_eq|].
  - intros a Ha Hmeta. rewrite lookup_insert_ne by congruence. unfold ns1.
    destruct (body !! a) as [v|] eqn:E.
    + apply map_lookup_filter_Some. split; [exact E|]. simpl.
      intros Hin. apply elem_of_dom in Hin as [x Hx].
      rewrite accepted_lookup in Hx.
      now rewrite decide_False in Hx by exact Ha.
    + apply map_lookup_filter_None. now left.
Qed.
End MetaclassLaws.

(** ** Batch fetch from a MongoDB collection *)

Lemma filter_all_out {A : Type} (P : A -> Prop) `{forall x, Decision (P x)}
    (l : list A) :
  (forall x, x ∈ l -> ~ P x) -> filter P l = [].
Proof.
  induction l as [|x l IH]; intros Hl; [reflexivity|].
  rewrite filter_cons, decide_False.
  - apply IH. intros y Hy. apply Hl. now right.
  - apply Hl. now left.
Qed.

Lemma found_keys_NoDup (c : mongodb.collection) (keys : list string) :
  NoDup (fst <$> c) -> NoDup (fst <$> mongodb.find_in c keys).
Proof.
  intros Hnd. apply (sublist_NoDup _ (fst <$> c)); [exact Hnd|].
  unfold mongodb.find_in. apply fmap_sublist, sublist_filter.
Qed.

Lemma found_keys_elem (c : mongodb.collection) (keys : list string)
    (k : string) :
  k ∈ fst <$> mongodb.find_in c keys <-> k ∈ keys /\ k ∈ fst <$> c.
Proof.
  unfold mongodb.find_in. split.
  - intros Hk. apply list_elem_of_fmap in Hk as ([id rec] & -> & Hrec).
    apply list_elem_of_filter in Hrec as [Hkey Hc]. split; [exact Hkey|].
    apply list_elem_of_fmap. now exists (id, rec).
  - intros [Hkey Hk].
    apply list_elem_of_fmap in Hk as ([id rec] & -> & Hrec).
    apply list_elem_of_fmap. exists (id, rec). split; [reflexivity|].
    apply list_elem_of_filter. split; assumption.
Qed.

(** X20.  When every requested key is stored, the MongoDB batch fetch yields the
    requested records once each, in the order of the collection rather
    than of the keys.  It ends without error when the keys are distinct;
    when a key was requested twice it ends in a [KeyError] that names no
    key at all. *)
Theorem mongo_batch_fetch_of_stored_keys (c : mongodb.collection)
    (keys : list string) :
  NoDup (fst <$> c) ->
  (forall k, k ∈ keys -> k ∈ fst <$> c) ->
  consume (mongodb._get_many c keys)
  = (mongodb.find_in c keys,
     if decide (NoDup keys) then None else Some (KeyError [])).
Proof.
  intros Hnd Hall. unfold mongodb._get_many. rewrite consume_Ok_app.
  pose proof (found_keys_NoDup c keys Hnd) as Hfnd.
  assert (Hsub : fst <$> mongodb.find_in c keys ⊆+ keys).
  { apply NoDup_submseteq; [exact Hfnd|].
    intros k Hk. now apply found_keys_elem in Hk as [? _]. }
  destruct (decide (NoDup keys)) as [Hk|Hk].
  - rewrite decide_False.
    + simpl. now rewrite app_nil_r.
    + assert (Hperm : fst <$> mongodb.find_in c keys ≡ₚ keys).
      { apply NoDup_Permutation; [exact Hfnd | exact Hk|].
        intros k. rewrite found_keys_elem. split; [tauto | auto]. }
      rewrite (Permutation_length Hperm). lia.
  - rewrite decide_True.
    + simpl. rewrite app_nil_r. do 2 f_equal.
      rewrite absent_from_found. unfold absent_keys.
      f_equal. apply filter_all_out. intros k Hin Hout.
      now apply Hout, Hall.
    + destruct (decide (length (fst <$> mongodb.find_in c keys)
                        < length keys)%nat) as [Hlt|Hge]; [exact Hlt|].
      exfalso. apply Hk.
      rewrite <- (submseteq_length_Permutation _ _ Hsub); [exact Hfnd|].
      lia.
Qed.

(** ** Lookups and their operators *)

Lemma split_dunder_step (c : ascii) (rest current : string) :
  split_dunder (String c rest) current
  = if Ascii.eqb c "_"
    then match rest with
         | String c2 rest2 =>
             if Ascii.eqb c2 "_" then current :: split_dunder rest2 ""
             else split_dunder rest (current +:+ String c "")
         | EmptyString => split_dunder rest (current +:+ String c "")
         end
    else split_dunder rest (current +:+ String c "").
Proof.
  destruct c as [[] [] [] [] [] [] [] []]; try reflexivity.
  destruct rest as [|c2 rest2]; [reflexivity|].
  destruct c2 as [[] [] [] [] [] [] [] []]; reflexivity.
Qed.

Lemma string_app_cons (x : ascii) (a b : string) :
  String x a +:+ b = String x (a +:+ b).
Proof. reflexivity. Qed.

Lemma string_app_assoc (a b c : string) : (a +:+ b) +:+ c = a +:+ (b +:+ c).
Proof.
  induction a as [|x a IH]; [reflexivity|].
  rewrite !string_app_cons. f_equal. exact IH.
Qed.

Lemma string_app_nil_r (a : string) : a +:+ "" = a.
Proof.
  induction a as [|x a IH]; [reflexivity|].
  rewrite string_app_cons. f_equal. exact IH.
Qed.

(** [split('__')] of a plain part, alone or followed by a double
    underscore: nothing is split off the part. *)
Lemma split_dunder_plain (s : string) :
  lookup_names.plain_part s = true ->
  forall current,
    split_dunder s current = [current +:+ s]
    /\ forall t, split_dunder (s +:+ "__" +:+ t) current
                 = (current +:+ s) :: split_dunder t "".
Proof.
  induction s as [|c rest IH]; intros Hp current.
  - rewrite string_app_nil_r. split; reflexivity.
  - assert (Hshift : current +:+ String c rest
                     = (current +:+ String c "") +:+ rest)
      by (rewrite string_app_assoc; reflexivity).
    cbn [lookup_names.plain_part] in Hp.
    destruct (Ascii.eqb c "_") eqn:Ec.
    + destruct rest as [|c2 rest2]; [discriminate|].
      apply andb_true_iff in Hp as [Hc2 Hrest].
      apply negb_true_iff in Hc2.
      destruct (IH Hrest (current +:+ String c "")) as [IH1 IH2].
      split.
      * rewrite split_dunder_step, Ec, Hc2, Hshift. exact IH1.
      * intros t. rewrite !string_app_cons, split_dunder_step, Ec, Hc2.
        rewrite Hshift, <- string_app_cons. exact (IH2 t).
    + destruct (IH Hp (current +:+ String c "")) as [IH1 IH2].
      split.
      * rewrite split_dunder_step, Ec, Hshift. exact IH1.
      * intros t. rewrite string_app_cons, split_dunder_step, Ec.
        rewrite Hshift. exact (IH2 t).
Qed.

Section LookupLaws.
Context {C : Type} (lookup_manager : ProcessorManager (lookup_processor C)).
Variable preprocessor : value -> result value.

(** X21.  How a condition picks its lookup.  A condition on a bare field name is
    translated by the default lookup and fails when no default was
    registered, whatever else was; a condition [name__op] is translated by
    the lookup registered as [op] and fails when there is none, whether or
    not a default exists. *)
Theorem condition_picks_its_lookup (name op : string) (v : value)
    (rest : dict value) (negate : bool) :
  lookup_names.plain_part name = true ->
  lookup_names.plain_part op = true ->
  op <> "" ->
  let translate (found : option (lookup_processor C)) (missing : string) :=
    match found with
    | None => Raise (DataProcessorDoesNotExist missing)
    | Some processor =>
        n ← processor name v preprocessor negate;
        more ← _get_native_conditions lookup_manager preprocessor rest negate;
        Ok (match n with
            | One c => c :: more
            | Several cs => cs ++ more
            end)
    end in
  _get_native_conditions lookup_manager preprocessor ((name, v) :: rest)
    negate
  = translate (default_ lookup_manager) ""
  /\ _get_native_conditions lookup_manager preprocessor
       ((name +:+ "__" +:+ op, v) :: rest) negate
     = translate (processors lookup_manager !! op) op.
Proof.
  intros Hname Hop Hne. simpl.
  destruct (split_dunder_plain name Hname "") as [Hn1 Hn2].
  destruct (split_dunder_plain op Hop "") as [Ho1 _].
  change ("" +:+ name) with name in Hn1, Hn2.
  change ("" +:+ op) with op in Ho1.
  split.
  - rewrite Hn1. simpl. unfold get_processor_for.
    now destruct (default_ lookup_manager).
  - rewrite Hn2, Ho1. simpl. unfold get_processor_for.
    destruct (String.eqb_spec op ""); [contradiction|]. simpl.
    now destruct (processors lookup_manager !! op).
Qed.
End LookupLaws.

(** ** Saved states *)

Section SavedStates.
Context {S : Type} (B : Backend S) (h : gmap nat S).

(** X22.  Equality of saved states is symmetric and transitive, and a state
    equals itself exactly when it carries a connected storage and a
    key. *)
Theorem saved_state_equality_laws (a b c : DocumentSavedState.t) :
  DocumentSavedState.eq B h a b = DocumentSavedState.eq B h b a
  /\ (DocumentSavedState.eq B h a b = true ->
      DocumentSavedState.eq B h b c = true ->
      DocumentSavedState.eq B h a c = true)
  /\ DocumentSavedState.eq B h a a
     = __nonzero__ B h (DocumentSavedState.storage a)
       && DocumentSavedState.key_truthy (DocumentSavedState.key a).
Proof.
  unfold DocumentSavedState.eq, DocumentSavedState.nonzero.
  split; [|split].
  - destruct (bool_decide_reflect
                (DocumentSavedState.storage a = DocumentSavedState.storage b))
      as [Es|Es];
    destruct (bool_decide_reflect
                (DocumentSavedState.key a = DocumentSavedState.key b))
      as [Ek|Ek].
    + rewrite Es, Ek. rewrite !bool_decide_eq_true_2 by reflexivity.
      destruct (__nonzero__ B h (DocumentSavedState.storage b)),
        (DocumentSavedState.key_truthy (DocumentSavedState.key b));
        reflexivity.
    + rewrite (bool_decide_eq_false_2
                 (DocumentSavedState.key b = DocumentSavedState.key a))
        by congruence.
      rewrite !andb_false_r. now repeat destruct (_ && _).
    + rewrite (bool_decide_eq_false_2
                 (DocumentSavedState.storage b = DocumentSavedState.storage a))
        by congruence.
      simpl. now repeat destruct (_ && _).
    + rewrite (bool_decide_eq_false_2
                 (DocumentSavedState.storage b = DocumentSavedState.storage a))
        by congruence.
      simpl. now repeat destruct (_ && _).
  - intros Hab Hbc.
    destruct (__nonzero__ B h (DocumentSavedState.storage a)) eqn:Ha;
      [|discriminate].
    destruct (DocumentSavedState.key_truthy (DocumentSavedState.key a))
      eqn:Hka; [|discriminate].
    simpl in *.
    destruct (__nonzero__ B h (DocumentSavedState.storage b)
              || DocumentSavedState.key_truthy (DocumentSavedState.key b));
      [|discriminate].
    destruct (bool_decide_reflect
                (DocumentSavedState.storage a = DocumentSavedState.storage b))
      as [Es|]; [|discriminate].
    destruct (bool_decide_reflect
                (DocumentSavedState.key a = DocumentSavedState.key b))
      as [Ek|]; [|discriminate].
    rewrite <- Es, <- Ek, Ha, Hka in Hbc. simpl in Hbc. exact Hbc.
  - rewrite !bool_decide_eq_true_2 by reflexivity.
    destruct (__nonzero__ B h (DocumentSavedState.storage a)),
      (DocumentSavedState.key_truthy (DocumentSavedState.key a));
      reflexivity.
Qed.
End SavedStates.

(** ** Cloning *)

Section Cloning.
Context {Q S : Type} (B : Backend S).

Lemma copy_fields_get (source : dict value) (fields : list string) :
  forall (target : dict value) (name : string),
    dict_get name (future.copy_fields source fields target)
    = if decide (name ∈ fields)
      then match dict_get name source with
           | Some v => Some v
           | None => dict_get name target
           end
      else dict_get name target.
Proof.
  induction fields as [|f rest IH]; intros target name;
    cbn [future.copy_fields].
  - rewrite decide_False by apply not_elem_of_nil. reflexivity.
  - rewrite IH. destruct (decide (name = f)) as [->|Hne].
    + rewrite (decide_True (P := f ∈ f :: rest)) by (now left).
      destruct (dict_get f source) as [v|] eqn:Ef.
      * rewrite dict_get_set_eq. now destruct (decide (f ∈ rest)).
      * now destruct (decide (f ∈ rest)).
    + assert (Hiff : name ∈ f :: rest <-> name ∈ rest)
        by (rewrite elem_of_cons; tauto).
      assert (Hget : dict_get name
                       (match dict_get f source with
                        | Some v => dict_set f v target
                        | None => target
                        end) = dict_get name target).
      { destruct (dict_get f source); [|reflexivity].
        now apply dict_get_set_ne. }
      rewrite Hget.
      destruct (decide (name ∈ rest)), (decide (name ∈ f :: rest));
        tauto || reflexivity.
Qed.

(** X23.  What a clone of the document's own class holds.  Only declared fields
    are copied: each declared field reads as it does in the original
    ([None] when the original lacks it), without being validated again,
    and a class without structure yields a clone with no fields at all.
    The clone of a bound document is bound to the same storage and key,
    so the two compare equal as saved records. *)
Theorem clone_copies_the_declared_fields (h : gmap nat S)
    (own : Variant Q) (doc new_obj : Document) :
  future.clone_doc B h own doc None = Ok new_obj ->
  (structure (meta own) = [] -> _data new_obj = [])
  /\ (forall name, name ∈ (structure (meta own)).*1 ->
        dict_get name (_data new_obj)
        = Some (default VNone (dict_get name (_data doc))))
  /\ (is_bound B h doc = true ->
        DocumentSavedState.storage (_saved_state new_obj)
        = DocumentSavedState.storage (_saved_state doc)
        /\ DocumentSavedState.key (_saved_state new_obj)
           = DocumentSavedState.key (_saved_state doc)
        /\ DocumentSavedState.eq B h (_saved_state new_obj)
             (_saved_state doc) = true).
Proof.
  unfold future.clone_doc. simpl. intros H.
  apply bind_Ok in H as (fresh & Hinit & H). injection H as <-. simpl.
  unfold document_base.__init__ in Hinit. simpl in Hinit.
  apply bind_Ok in Hinit as (_ & _ & Hfresh).
  assert (Hdata : _data fresh
                  = map (fun kv => (fst kv, VNone)) (structure (meta own))).
  { now injection Hfresh as <-. }
  split; [|split].
  - intros Hs. rewrite Hs, Hdata, Hs. reflexivity.
  - intros name Hname.
    assert (Hnone : dict_get name (_data fresh) = Some VNone).
    { rewrite Hdata. clear -Hname.
      induction (structure (meta own)) as [|[k x] rest IH];
        [inversion Hname|].
      simpl. destruct (String.eqb_spec name k); [reflexivity|].
      apply IH. apply elem_of_cons in Hname as [?|?]; [contradiction|done]. }
    destruct (structure (meta own)) as [|p l] eqn:Es; [inversion Hname|].
    rewrite copy_fields_get, decide_True by exact Hname.
    rewrite Hnone. now destruct (dict_get name (_data doc)).
  - unfold is_bound. intros Hb. apply andb_true_iff in Hb as [Hst Hk].
    unfold DocumentSavedState.nonzero. rewrite Hst. simpl.
    unfold future.clone, DocumentSavedState.update. rewrite Hst, Hk. simpl.
    split; [reflexivity|]. split; [reflexivity|].
    unfold DocumentSavedState.eq, DocumentSavedState.nonzero. simpl.
    rewrite Hst, Hk. simpl. now rewrite !bool_decide_eq_true_2.
Qed.
End Cloning.

(** ** Instances *)

Lemma shelf_delete_removes_the_record_witness :
  exists st',
    shelve_crud.delete MoreFixtures.shelf_one "r1" = Ok st'
    /\ shelve_db._get st' "r1" = Raise (KeyError ["r1"]).
Proof.
  destruct (shelf_delete_removes_the_record MoreFixtures.shelf_one "r1"
              [("n", VInt 1)]) as (st' & Hd & Hg & _).
  - apply NoDup_singleton.
  - reflexivity.
  - exists st'. split; assumption.
Defined.

Lemma first_decisive_validator_decides_witness :
  _validate_value (@MoreFixtures.guarded_meta unit) Fixtures.transient_note
    "n" (VInt 1) = Ok tt.
Proof.
  exact (first_decisive_validator_decides (@MoreFixtures.guarded_meta unit)
           Fixtures.transient_note "n" (VInt 1)
           [MoreFixtures.passing] [MoreFixtures.failing]
           MoreFixtures.stopping eq_refl eq_refl
           ltac:(repeat constructor)).
Defined.

Lemma constructed_document_invariants_witness :
  exists d,
    document_base.__init__ (@Fixtures.account_variant unit)
      [("email", VInt 1)] = Ok d
    /\ (_data d).*1 = ["email"].
Proof.
  eexists. split; [reflexivity|].
  destruct (constructed_document_invariants (@Fixtures.account_variant unit)
              [("email", VInt 1)] _ eq_refl) as (_ & _ & H).
  destruct (H ltac:(discriminate)) as [Hk _]. exact Hk.
Defined.

Lemma constructor_swallows_validation_errors_witness :
  break_on_invalid_incoming_data (meta (@Fixtures.account_variant unit))
  = false
  /\ document_base.__init__ (@Fixtures.account_variant unit)
       [("email", VStr "x")]
     <> Raise (ValidationError "Account" "email" (VStr "x")).
Proof.
  split; [reflexivity|].
  apply (constructor_swallows_validation_errors
           (@Fixtures.account_variant unit) [("email", VStr "x")] eq_refl).
Defined.

Lemma save_keeps_fields_outside_the_structure_witness :
  exists h' d' k written,
    save Fixtures.null_backend (meta (@Fixtures.account_variant unit))
      Fixtures.two_storages MoreFixtures.loaded_account None false
    = Ok (h', d', k)
    /\ DocumentSavedState.data (_saved_state d') = Some written
    /\ dict_get "legacy" written = Some (VInt 7).
Proof.
  destruct (save Fixtures.null_backend (meta (@Fixtures.account_variant unit))
              Fixtures.two_storages MoreFixtures.loaded_account None false)
    as [[[h' d'] k]|e] eqn:E; [|vm_compute in E; discriminate].
  destruct (save_keeps_fields_outside_the_structure Fixtures.null_backend
              (meta (@Fixtures.account_variant unit)) Fixtures.two_storages
              h' MoreFixtures.loaded_account d' None false k
              ltac:(discriminate) E)
    as (target & written & _ & Hd & Hkeep).
  exists h', d', k, written. split; [reflexivity|]. split; [exact Hd|].
  rewrite (Hkeep "legacy"); [reflexivity|].
  intros Hin. apply list_elem_of_singleton in Hin. discriminate.
Defined.

Lemma disconnected_storage_unbinds_documents_witness :
  save (shelve_db.backend Fixtures.uid manager_init)
    (@Fixtures.plain_meta unit) MoreFixtures.closed_shelves
    Fixtures.bound_note None false
  = Raise AttributeError.
Proof.
  apply (disconnected_storage_unbinds_documents
           (shelve_db.backend Fixtures.uid manager_init)
           (@Fixtures.plain_meta unit) shelve_db._delete (fun _ => true)
           MoreFixtures.closed_shelves Fixtures.bound_note 0
           MoreFixtures.closed_shelf eq_refl
           ltac:(apply lookup_insert_eq) eq_refl).
Defined.

Lemma get_many_is_get_for_each_key_witness :
  exists g,
    get_many Fixtures.null_backend (Fetching._get_many Fixtures.null_backend)
      Fixtures.two_storages 0 ["a"; "b"] (@Fixtures.note_variant unit) = Ok g
    /\ g = [get Fixtures.null_backend Fixtures.two_storages 0 "a"
              (@Fixtures.note_variant unit);
            get Fixtures.null_backend Fixtures.two_storages 0 "b"
              (@Fixtures.note_variant unit)].
Proof.
  destruct (get_many Fixtures.null_backend
              (Fetching._get_many Fixtures.null_backend)
              Fixtures.two_storages 0 ["a"; "b"]
              (@Fixtures.note_variant unit))
    as [g|e] eqn:E; [|vm_compute in E; discriminate].
  exists g. split; [reflexivity|].
  exact (get_many_is_get_for_each_key Fixtures.null_backend
           Fixtures.two_storages 0 ["a"; "b"] (@Fixtures.note_variant unit)
           g E).
Defined.

Lemma documents_of_one_record_are_equal_witness :
  exists d1 d2,
    get (shelve_db.backend Fixtures.uid manager_init) Fixtures.shelf_r1 0
      "r1" (@Fixtures.note_variant unit) = Ok d1
    /\ get (shelve_db.backend Fixtures.uid manager_init) Fixtures.shelf_r1 0
         "r1" {| v_class := Fixtures.Account_cls;
                 meta := @Fixtures.plain_meta unit |} = Ok d2
    /\ __eq__ (shelve_db.backend Fixtures.uid manager_init) (fun _ => true)
         Fixtures.shelf_r1 d1 (ODoc d2) = true.
Proof.
  destruct (get (shelve_db.backend Fixtures.uid manager_init)
              Fixtures.shelf_r1 0 "r1" (@Fixtures.note_variant unit))
    as [d1|e] eqn:E1; [|vm_compute in E1; discriminate].
  destruct (get (shelve_db.backend Fixtures.uid manager_init)
              Fixtures.shelf_r1 0 "r1"
              {| v_class := Fixtures.Account_cls;
                 meta := @Fixtures.plain_meta unit |})
    as [d2|e] eqn:E2; [|vm_compute in E2; discriminate].
  exists d1, d2. split; [reflexivity|]. split; [reflexivity|].
  apply (documents_of_one_record_are_equal
           (shelve_db.backend Fixtures.uid manager_init) (fun _ => true)
           Fixtures.shelf_r1 0 "r1" _ _ d1 d2 ltac:(discriminate) E1 E2
           eq_refl).
Defined.

Lemma shelf_resave_updates_in_place_witness :
  exists h1 d1 k1 h2 d2 k2,
    save (shelve_db.backend Fixtures.uid manager_init)
      (@Fixtures.plain_meta unit) Fixtures.one_shelf Fixtures.transient_note
      (Some 0%nat) false = Ok (h1, d1, k1)
    /\ save (shelve_db.backend Fixtures.uid manager_init)
         (@Fixtures.plain_meta unit) h1 d1 None false = Ok (h2, d2, k2)
    /\ k2 = k1.
Proof.
  destruct (save (shelve_db.backend Fixtures.uid manager_init)
              (@Fixtures.plain_meta unit) Fixtures.one_shelf
              Fixtures.transient_note (Some 0%nat) false)
    as [[[h1 d1] k1]|e] eqn:E1; [|vm_compute in E1; discriminate].
  destruct (save (shelve_db.backend Fixtures.uid manager_init)
              (@Fixtures.plain_meta unit) h1 d1 None false)
    as [[[h2 d2] k2]|e] eqn:E2.
  - exists h1, d1, k1, h2, d2, k2. split; [reflexivity|].
    split; [exact E2|].
    exact (proj1 (shelf_resave_updates_in_place Fixtures.uid manager_init
                    (@Fixtures.plain_meta unit) _ _ _ _ _ _ _ _ _ _ _
                    E1 E2)).
  - exfalso. vm_compute in E1. injection E1 as <- <- <-.
    vm_compute in E2. discriminate.
Defined.

Lemma shelf_document_delete_witness :
  exists h',
    document_delete.delete (shelve_db.backend Fixtures.uid manager_init)
      shelve_db._delete Fixtures.shelf_r1 Fixtures.doc_r1 = Ok h'
    /\ get (shelve_db.backend Fixtures.uid manager_init) h' 0 "r1"
         (@Fixtures.note_variant unit) = Raise (KeyError ["r1"]).
Proof.
  destruct (document_delete.delete
              (shelve_db.backend Fixtures.uid manager_init)
              shelve_db._delete Fixtures.shelf_r1 Fixtures.doc_r1)
    as [h'|e] eqn:E; [|vm_compute in E; discriminate].
  exists h'. split; [reflexivity|].
  destruct (shelf_document_delete Fixtures.uid manager_init (Q := unit)
              Fixtures.shelf_r1 h' Fixtures.doc_r1)
    as (r & k & st & st' & Hr & Hk & _ & _ & Hget & _).
  - intros r st Hst. unfold Fixtures.shelf_r1 in Hst.
    apply lookup_insert_Some in Hst as [[_ <-]|[_ Hst]].
    + apply NoDup_singleton.
    + rewrite lookup_empty in Hst. discriminate.
  - exact E.
  - injection Hr as <-. injection Hk as <-. apply Hget.
Defined.

Lemma where_composes_witness :
  exists q1 q2,
    shelve_query.where_ Fixtures.uid manager_init
      MoreFixtures.stand_in_lookups Fixtures.shelf_ab MoreFixtures.everything
      [("a", VNone)] = Ok q1
    /\ shelve_query.where_ Fixtures.uid manager_init
         MoreFixtures.stand_in_lookups Fixtures.shelf_ab q1 [("b", VNone)]
       = Ok q2
    /\ shelve_query.where_ Fixtures.uid manager_init
         MoreFixtures.stand_in_lookups Fixtures.shelf_ab
         MoreFixtures.everything [("a", VNone); ("b", VNone)] = Ok q2.
Proof.
  destruct (shelve_query.where_ Fixtures.uid manager_init
              MoreFixtures.stand_in_lookups Fixtures.shelf_ab
              MoreFixtures.everything [("a", VNone)])
    as [q1|e] eqn:E1; [|vm_compute in E1; discriminate].
  destruct (shelve_query.where_ Fixtures.uid manager_init
              MoreFixtures.stand_in_lookups Fixtures.shelf_ab q1
              [("b", VNone)]) as [q2|e] eqn:E2.
  - exists q1, q2. split; [reflexivity|]. split; [exact E2|].
    exact (where_composes Fixtures.uid manager_init
             MoreFixtures.stand_in_lookups Fixtures.shelf_ab
             MoreFixtures.everything q1 q2 [("a", VNone)] [("b", VNone)]
             E1 E2).
  - exfalso. vm_compute in E1. injection E1 as <-.
    vm_compute in E2. discriminate.
Defined.

Lemma where_narrows_witness :
  exists q' found found',
    shelve_query.where_ Fixtures.uid manager_init
      MoreFixtures.stand_in_lookups Fixtures.shelf_ab MoreFixtures.everything
      [("a", VNone)] = Ok q'
    /\ shelve_query._do_search Fixtures.shelf_ab MoreFixtures.everything
       = Ok found
    /\ _iter q' = Some found'
    /\ found' `sublist_of` found.
Proof.
  destruct (shelve_query.where_ Fixtures.uid manager_init
              MoreFixtures.stand_in_lookups Fixtures.shelf_ab
              MoreFixtures.everything [("a", VNone)])
    as [q'|e] eqn:E; [|vm_compute in E; discriminate].
  destruct (where_narrows Fixtures.uid manager_init
              MoreFixtures.stand_in_lookups Fixtures.shelf_ab
              MoreFixtures.everything q' [("a", VNone)] eq_refl E)
    as (found & found' & Hs & Hi & _ & Hsub).
  exists q', found, found'. split; [reflexivity|]. auto.
Defined.

Lemma order_by_replaces_the_ordering_witness :
  exists q1,
    shelve_query.order_by Fixtures.shelf_ab MoreFixtures.everything ["a"]
      false = Ok q1
    /\ shelve_query.order_by Fixtures.shelf_ab q1 ["b"] true
       = shelve_query.order_by Fixtures.shelf_ab MoreFixtures.everything
           ["b"] true.
Proof.
  destruct (shelve_query.order_by Fixtures.shelf_ab MoreFixtures.everything
              ["a"] false) as [q1|e] eqn:E; [|vm_compute in E; discriminate].
  exists q1. split; [reflexivity|].
  exact (order_by_replaces_the_ordering Fixtures.shelf_ab
           MoreFixtures.everything q1 ["a"] ["b"] false true E).
Defined.

Lemma query_delete_removes_the_matches_witness :
  exists h',
    shelve_query_delete._delete Fixtures.shelf_ab MoreFixtures.a_is_one
    = Ok h'
    /\ h' !! 0%nat
       = Some {| shelve_db.connection :=
                   Some [("r2", [("a", VInt 2); ("b", VInt 1)])];
                 shelve_db.drawn := 0 |}.
Proof.
  destruct (query_delete_removes_the_matches Fixtures.shelf_ab
              MoreFixtures.a_is_one
              {| shelve_db.connection :=
                   Some [("r1", [("a", VInt 1); ("b", VInt 2)]);
                         ("r2", [("a", VInt 2); ("b", VInt 1)])];
                 shelve_db.drawn := 0 |}
              [("r1", [("a", VInt 1); ("b", VInt 2)]);
               ("r2", [("a", VInt 2); ("b", VInt 1)])])
    as (h' & Hd & Hl & _).
  - apply lookup_insert_eq.
  - reflexivity.
  - apply (bool_decide_unpack _). vm_compute. exact I.
  - reflexivity.
  - exists h'. split; [exact Hd|]. exact Hl.
Defined.

Lemma class_metadata_resolution_witness :
  Metaclass.attributes
    (MoreFixtures.new_class "Child" [MoreFixtures.parent_meta]
       (<["defaults" := 2%nat]> ∅)) !! "structure" = Some 1%nat.
Proof.
  assert (Hparent : forall p, p ∈ [MoreFixtures.parent_meta] ->
                      Metaclass.complete p).
  { intros p Hp. apply list_elem_of_singleton in Hp as ->.
    apply (class_metadata_resolution (fun s => s) MoreFixtures.zero_initial
             String.length MoreFixtures.no_fields (fun _ => 0%nat)
             "Parent" []
             (<["structure" := 1%nat]> ∅)).
    - intros p Hp. inversion Hp.
    - reflexivity. }
  destruct (class_metadata_resolution (fun s => s) MoreFixtures.zero_initial
              String.length MoreFixtures.no_fields (fun _ => 0%nat) "Child"
              [MoreFixtures.parent_meta] (<["defaults" := 2%nat]> ∅) Hparent
              ltac:(reflexivity)) as (_ & _ & Hattr & _).
  destruct (Hattr "structure") as [He _].
  - apply (bool_decide_unpack _). vm_compute. exact I.
  - etransitivity; [exact He|]. vm_compute. reflexivity.
Defined.

Lemma mongo_batch_fetch_of_stored_keys_witness :
  consume (mongodb._get_many Fixtures.one_record ["a"])
  = ([("a", [("n", VInt 1)])], None).
Proof.
  rewrite (mongo_batch_fetch_of_stored_keys Fixtures.one_record ["a"]).
  - reflexivity.
  - apply NoDup_singleton.
  - intros k Hk. exact Hk.
Defined.

Lemma condition_picks_its_lookup_witness :
  _get_native_conditions
    (manager_init : ProcessorManager (lookup_processor shelve_query.check))
    Ok [("age__gt", VInt 1)] false
  = Raise (DataProcessorDoesNotExist "gt").
Proof.
  exact (proj2 (condition_picks_its_lookup
                  (manager_init
                   : ProcessorManager (lookup_processor shelve_query.check))
                  Ok "age" "gt" (VInt 1) [] false eq_refl eq_refl
                  ltac:(discriminate))).
Defined.

Lemma clone_copies_the_declared_fields_witness :
  exists new_obj,
    future.clone_doc Fixtures.null_backend Fixtures.two_storages
      (@Fixtures.account_variant unit) MoreFixtures.loaded_account None
    = Ok new_obj
    /\ dict_get "email" (_data new_obj) = Some (VInt 1).
Proof.
  destruct (future.clone_doc Fixtures.null_backend Fixtures.two_storages
              (@Fixtures.account_variant unit) MoreFixtures.loaded_account
              None) as [new_obj|e] eqn:E; [|vm_compute in E; discriminate].
  exists new_obj. split; [reflexivity|].
  destruct (clone_copies_the_declared_fields Fixtures.null_backend
              Fixtures.two_storages (@Fixtures.account_variant unit)
              MoreFixtures.loaded_account new_obj E) as (_ & Hf & _).
  rewrite (Hf "email"); [reflexivity|]. apply list_elem_of_singleton.
  reflexivity.
Defined.

(** ** Hashing and backward relations *)

Section HashLaws.
Context {S : Type} (B : Backend S) (h : gmap nat S).
Variable hash_storage : nat -> Z.
Variable hash_key : string -> Z.

(** X24.  Hashing agrees with equality: a saved state can be hashed exactly when
    it equals itself, that is when it carries a connected storage and a
    key, and two saved states that are equal can both be hashed and have
    the same hash. *)
Theorem equal_saved_states_hash_alike (a b : DocumentSavedState.t) :
  Py.is_ok (saved_state_hash.__hash__ B h hash_storage hash_key a)
  = DocumentSavedState.eq B h a a
  /\ (DocumentSavedState.eq B h a b = true ->
      exists z,
        saved_state_hash.__hash__ B h hash_storage hash_key a = Ok z
        /\ saved_state_hash.__hash__ B h hash_storage hash_key b = Ok z).
Proof.
  split.
  - unfold saved_state_hash.__hash__, DocumentSavedState.eq,
      DocumentSavedState.nonzero.
    rewrite !bool_decide_eq_true_2 by reflexivity.
    destruct (DocumentSavedState.storage a) as [r|] eqn:Es;
      [|reflexivity].
    destruct (__nonzero__ B h (Some r)); [|reflexivity].
    destruct (DocumentSavedState.key a) as [k|]; [|reflexivity].
    now destruct (DocumentSavedState.key_truthy (Some k)).
  - intros Heq. apply saved_state_eq_true in Heq as (Hst & Hk & Es & Ek).
    unfold saved_state_hash.__hash__. rewrite <- Es, <- Ek, Hst, Hk. simpl.
    destruct (DocumentSavedState.storage a) as [r|]; [|discriminate].
    destruct (DocumentSavedState.key a) as [k|]; [|discriminate].
    eauto.
Qed.
End HashLaws.

Section BackwardRelations.
Variable uuid4 : nat -> string.
Variable converters : ProcessorManager converter.
Variable lookup_manager : ProcessorManager (lookup_processor shelve_query.check).

Local Abbreviation B := (shelve_db.backend uuid4 converters).

(** X25.  The backward relation of a bound instance is the query the storage
    gives for the related class and the one condition that the referring
    field is the key of the instance. *)
Theorem backward_relation_is_find_by_key
    (h : gmap nat shelve_db.StorageAdapter)
    (related_model : Variant shelve_query.QueryAdapter) (attr_name : string)
    (instance : Document) (s : nat) (k : string)
    (q : shelve_query.QueryAdapter) :
  DocumentSavedState.storage (_saved_state instance) = Some s ->
  pk instance = Some k ->
  is_bound B h instance = true ->
  shelve_query.find uuid4 converters lookup_manager h s related_model [] = Ok q ->
  BackwardRelation.__get__ uuid4 converters lookup_manager h related_model
    attr_name instance
  = shelve_query.find uuid4 converters lookup_manager h s related_model
      [(attr_name, VStr k)].
Proof.
  intros Hs Hk Hb Hfind. unfold is_bound in Hb.
  apply andb_true_iff in Hb as [Hnz Hkt].
  unfold BackwardRelation.__get__. unfold pk in *.
  rewrite Hnz, Hs, Hk. rewrite Hk in Hkt. rewrite Hkt. simpl.
  rewrite Hfind. simpl.
  unfold shelve_query.find in *.
  destruct (h !! s) as [st|]; [|discriminate].
  destruct (negb (connected B st)); [discriminate|].
  apply bind_Ok in Hfind as (q0 & Hq0 & Hfind). rewrite Hq0. simpl.
  apply bind_Ok in Hfind as (q1 & Hq1 & Hfind). rewrite Hq1. simpl.
  pose proof (where_appends_conditions _ _ _ _ _ _ _ Hfind)
    as (t0 & Ht0 & Hc & Ho & Hst & _).
  simpl in Ht0. injection Ht0 as <-. rewrite app_nil_r in Hc.
  unfold shelve_query.where_, shelve_query._where, shelve_query.__where,
    shelve_query._clone.
  now rewrite Hc, Ho, Hst.
Qed.
End BackwardRelations.

Lemma backward_relation_is_find_by_key_witness :
  BackwardRelation.__get__ Fixtures.uid manager_init
    MoreFixtures.stand_in_lookups Fixtures.shelf_r1
    (@Fixtures.note_variant shelve_query.QueryAdapter) "author"
    Fixtures.doc_r1
  = shelve_query.find Fixtures.uid manager_init MoreFixtures.stand_in_lookups
      Fixtures.shelf_r1 0
      (@Fixtures.note_variant shelve_query.QueryAdapter)
      [("author", VStr "r1")].
Proof.
  destruct (shelve_query.find Fixtures.uid manager_init
              MoreFixtures.stand_in_lookups Fixtures.shelf_r1 0
              (@Fixtures.note_variant shelve_query.QueryAdapter) [])
    as [q|e] eqn:E; [|vm_compute in E; discriminate].
  exact (backward_relation_is_find_by_key Fixtures.uid manager_init
           MoreFixtures.stand_in_lookups Fixtures.shelf_r1
           (@Fixtures.note_variant shelve_query.QueryAdapter) "author"
           Fixtures.doc_r1 0 "r1" q eq_refl eq_refl
           ltac:(vm_compute; reflexivity) E).
Defined.
